(** * api-utilitaria-local-stack: HTTP facade over SQS, SNS and DynamoDB

    A shallow embedding of the Flask views of [app/routes/sqs.py],
    [app/routes/sns.py] and [app/routes/dynamodb.py] and of the helpers of
    [app/utils/http.py] and [app/utils/aws.py].

    - JSON values and Python's dynamic operations on them ([.get], truthiness,
      [int(...)]) are written out on an inductive type [json].
    - The boto3 clients are an abstract [Backend]: one typed reply per client
      method, a state of its own, and the lazily fetched pages of the
      [list_topics] paginator.  What a reply holds beyond JSON ([Decimal],
      [set], [bytes]) is a [pyval], and [jsonify] on it is [render].
    - A view runs in a small state-and-exception monad [M] that threads the
      backend state and records every backend call that is issued, in order.
    - [try ... except ClientError ... except Exception ...] is [try_view]. *)

From Stdlib Require Import ZArith String Ascii List Bool Lia DecimalString.
From stdpp Require Import base option list strings gmap.

Import ListNotations.
Set Warnings "-register-all".
Local Open Scope string_scope.
Local Open Scope Z_scope.

(** stdpp freezes [String.append] under [simpl]; the proofs below compute
    with it. *)
#[local] Arguments String.append !_ _ : simpl nomatch.

(* ===================================================================== *)
(** * Python values *)
(* ===================================================================== *)

(** What [request.get_json] yields and [jsonify] takes.  JSON numbers are
    kept to the integers; a JSON object is the list of its members. *)
Inductive json : Type :=
| JNull
| JBool (b : bool)
| JNum (n : Z)
| JStr (s : string)
| JArr (items : list json)
| JObj (members : list (string * json)).

(** [bool(v)]: the test behind [if v] and [not v]. *)
Definition truthy (v : json) : bool :=
  match v with
  | JNull => false
  | JBool b => b
  | JNum n => negb (n =? 0)
  | JStr s => negb (String.eqb s "")
  | JArr items => match items with [] => false | _ => true end
  | JObj members => match members with [] => false | _ => true end
  end.

(** [v is None]. *)
Definition is_none (v : json) : bool :=
  match v with JNull => true | _ => false end.

(** [v == ""]. *)
Definition is_empty_str (v : json) : bool :=
  match v with JStr s => String.eqb s "" | _ => false end.

(** [type(v).__name__], as it appears in the text of an [AttributeError]. *)
Definition type_name (v : json) : string :=
  match v with
  | JNull => "NoneType"
  | JBool _ => "bool"
  | JNum _ => "int"
  | JStr _ => "str"
  | JArr _ => "list"
  | JObj _ => "dict"
  end.

(** Lookup by key in the members of an object, in [request.args] and in
    the attribute map of a reply: the first binding of [k]. *)
Fixpoint assoc_get {A : Type} (l : list (string * A)) (k : string) : option A :=
  match l with
  | [] => None
  | (k', v) :: rest => if String.eqb k' k then Some v else assoc_get rest k
  end.

(** [v == s] for a string literal [s]. *)
Definition is_str (v : json) (s : string) : bool :=
  match v with JStr s' => String.eqb s' s | _ => false end.

(** An optional string of a boto3 reply, as [jsonify] renders it. *)
Definition json_of_opt (o : option string) : json :=
  match o with Some s => JStr s | None => JNull end.

(** Truthiness of what [request.args.get(n)] returns. *)
Definition arg_truthy (o : option string) : bool :=
  match o with
  | Some s => negb (String.eqb s "")
  | None => false
  end.

(* ===================================================================== *)
(** * Exceptions and outcomes *)
(* ===================================================================== *)

(** [ClientError] carries [e.response["Error"]["Message"]] when the reply
    has one, and [str(e)]; every other exception only its [str(e)]. *)
Inductive exn : Type :=
| ClientError (message : option string) (text : string)
| PyException (text : string).

Definition exn_text (e : exn) : string :=
  match e with
  | ClientError _ text => text
  | PyException text => text
  end.

Inductive outcome (A : Type) : Type :=
| Return (a : A)
| Raise (e : exn).

Arguments Return {A} a.
Arguments Raise {A} e.

(** [data.get(k)]: [None] for a key that is not there; an [AttributeError]
    on anything that is not a dict. *)
Definition py_get (data : json) (k : string) : outcome json :=
  match data with
  | JObj members => Return (default JNull (assoc_get members k))
  | _ => Raise (PyException
                  ("'" ++ type_name data ++ "' object has no attribute 'get'"))
  end.

(** [data[k]] on the parsed body. *)
Definition py_getitem (data : json) (k : string) : outcome json :=
  match data with
  | JObj members =>
      match assoc_get members k with
      | Some v => Return v
      | None => Raise (PyException ("'" ++ k ++ "'"))
      end
  | JArr _ => Raise (PyException "list indices must be integers or slices, not str")
  | JStr _ => Raise (PyException "string indices must be integers, not 'str'")
  | _ => Raise (PyException
                  ("'" ++ type_name data ++ "' object is not subscriptable"))
  end.

(* ===================================================================== *)
(** * Strings: [str.split] and [str.join] *)
(* ===================================================================== *)

(** [s.split(sep)] for a one-character separator: never empty. *)
Fixpoint split_on (sep : ascii) (s : string) : list string :=
  match s with
  | EmptyString => [""]
  | String c s' =>
      if Ascii.eqb c sep then "" :: split_on sep s'
      else match split_on sep s' with
           | [] => [String c ""]
           | piece :: pieces => String c piece :: pieces
           end
  end.

(** [arn.split(":")[-1]]. *)
Definition last_segment (arn : string) : string :=
  List.last (split_on ":"%char arn) "".

(** [sep.join(pieces)]. *)
Fixpoint join (sep : string) (pieces : list string) : string :=
  match pieces with
  | [] => ""
  | [p] => p
  | p :: rest => p ++ sep ++ join sep rest
  end.

(** The spec's reading of a short name: [name] is what follows the last
    [':'] of [arn] (all of [arn] when it has none). *)
Definition has_colon (s : string) : Prop :=
  ∃ pre post, s = pre ++ ":" ++ post.

Definition short_name_is (arn name : string) : Prop :=
  ¬ has_colon name ∧ (arn = name ∨ ∃ pre, arn = pre ++ ":" ++ name).

(** The spec's reading of "the message names [n]": [n] occurs in it. *)
Fixpoint mentions (msg n : string) : bool :=
  String.prefix n msg
  || match msg with
     | EmptyString => false
     | String _ rest => mentions rest n
     end.

(* ===================================================================== *)
(** * Python's [int] and [repr] on text

    Strings are byte strings holding ASCII text (UTF-8 beyond it, one
    character per byte as far as these functions go). *)
(* ===================================================================== *)

(** The whitespace [int] strips from both ends: tab to carriage return,
    the four separators 28 to 31, and the space. *)
Definition is_space (c : ascii) : bool :=
  let n := nat_of_ascii c in
  ((9 <=? n)%nat && (n <=? 13)%nat)
  || ((28 <=? n)%nat && (n <=? 31)%nat)
  || (n =? 32)%nat.

Fixpoint lstrip (s : string) : string :=
  match s with
  | String c rest => if is_space c then lstrip rest else s
  | EmptyString => EmptyString
  end.

Fixpoint all_spaces (s : string) : bool :=
  match s with
  | String c rest => is_space c && all_spaces rest
  | EmptyString => true
  end.

Definition digit_of (c : ascii) : option Z :=
  let n := Z.of_nat (nat_of_ascii c) in
  if (48 <=? n) && (n <=? 57) then Some (n - 48) else None.

(** The digits of a literal: single underscores may stand between two
    digits, nowhere else, and there is at least one digit.  Returns how many
    digits were read, their value and what follows them. *)
Fixpoint scan_digits (s : string) (digit_expected : bool) (count : nat)
    (value : Z) : option (nat * Z * string) :=
  match s with
  | EmptyString => if digit_expected then None else Some (count, value, s)
  | String c rest =>
      match digit_of c with
      | Some d => scan_digits rest false (S count) (10 * value + d)
      | None =>
          if digit_expected then None
          else if Ascii.eqb c "_" then scan_digits rest true count value
          else Some (count, value, s)
      end
  end.

(** Leading whitespace, an optional sign, the digits: whether the literal
    is negative, then the result of [scan_digits]. *)
Definition scan_int (s : string) : option (bool * (nat * Z * string)) :=
  let stripped := lstrip s in
  let '(negative, digits) :=
    match stripped with
    | String "-" rest => (true, rest)
    | String "+" rest => (false, rest)
    | _ => (false, stripped)
    end in
  match scan_digits digits true 0 0 with
  | Some scanned => Some (negative, scanned)
  | None => None
  end.

(** [sys.get_int_max_str_digits()], as CPython ships it. *)
Definition max_str_digits : nat := 4300.

(** [int(s)] in base 10, [None] for [ValueError]: a literal of more digits
    than the limit is refused, like one that is not an integer. *)
Definition decimal_int (s : string) : option Z :=
  match scan_int s with
  | Some (negative, (count, value, rest)) =>
      if (max_str_digits <? count)%nat then None
      else if all_spaces rest then Some (if negative then - value else value)
      else None
  | None => None
  end.

Definition backslash : ascii := ascii_of_nat 92.
Definition single_quote : ascii := ascii_of_nat 39.
Definition double_quote : ascii := ascii_of_nat 34.

Definition hex_digit (n : nat) : ascii :=
  if (n <? 10)%nat then ascii_of_nat (48 + n) else ascii_of_nat (87 + n).

(** One character of [repr(s)] written with the quote [quote]. *)
Definition repr_char (quote c : ascii) : string :=
  let n := nat_of_ascii c in
  if Ascii.eqb c quote || Ascii.eqb c backslash
  then String backslash (String c "")
  else if (n =? 9)%nat then String backslash "t"
  else if (n =? 10)%nat then String backslash "n"
  else if (n =? 13)%nat then String backslash "r"
  else if (n <? 32)%nat || (n =? 127)%nat
  then String backslash
         (String "x" (String (hex_digit (n / 16)) (String (hex_digit (n mod 16)) "")))
  else String c "".

Fixpoint repr_chars (quote : ascii) (s : string) : string :=
  match s with
  | EmptyString => EmptyString
  | String c rest => repr_char quote c ++ repr_chars quote rest
  end.

Fixpoint has_char (c : ascii) (s : string) : bool :=
  match s with
  | EmptyString => false
  | String c' rest => Ascii.eqb c' c || has_char c rest
  end.

(** [repr(s)]: double quotes only around a string that has a single quote
    and no double one. *)
Definition py_repr (s : string) : string :=
  let quote :=
    if has_char single_quote s && negb (has_char double_quote s)
    then double_quote else single_quote in
  String quote (repr_chars quote s ++ String quote "").

Fixpoint take_chars (n : nat) (s : string) : string :=
  match n, s with
  | S n', String c rest => String c (take_chars n' rest)
  | _, _ => EmptyString
  end.

Definition decimal_of_nat (n : nat) : string :=
  NilZero.string_of_uint (Nat.to_uint n).

(** [str(e)] of the [ValueError] of [int(s)]: the digit limit is checked
    where the digits end, before what follows them is looked at. *)
Definition int_error_text (s : string) : string :=
  let invalid :=
    "invalid literal for int() with base 10: " ++ take_chars 200 (py_repr s) in
  match scan_int s with
  | Some (_, (count, _, _)) =>
      if (max_str_digits <? count)%nat
      then "Exceeds the limit (4300 digits) for integer string conversion: value has "
           ++ decimal_of_nat count
           ++ " digits; use sys.set_int_max_str_digits() to increase the limit"
      else invalid
  | None => invalid
  end.

(* ===================================================================== *)
(** * What boto3 hands back, and [jsonify] on it *)
(* ===================================================================== *)

(** The values of a reply of boto3: JSON-like data, and in it the numbers
    of DynamoDB as [Decimal] (kept as their [str]) and objects [jsonify]
    has no rendering for: [set], [bytes], [Binary]. *)
Inductive pyval : Type :=
| PNull
| PBool (b : bool)
| PInt (n : Z)
| PStr (s : string)
| PDecimal (text : string)
| PList (items : list pyval)
| PDict (members : list (string * pyval))
| PObject (type_ : string).

(** [sorted] on the members of a dict, by key. *)
Fixpoint insert_by_key {A : Type} (k : string) (v : A)
    (sorted : list (string * A)) : list (string * A) :=
  match sorted with
  | [] => [(k, v)]
  | (k', v') :: rest =>
      if String.leb k k' then (k, v) :: sorted
      else (k', v') :: insert_by_key k v rest
  end.

Definition sort_by_key {A : Type} (members : list (string * A))
  : list (string * A) :=
  fold_right (fun kv sorted => insert_by_key (fst kv) (snd kv) sorted) [] members.

(** The first exception of a sequence of renderings, else all of them. *)
Fixpoint all_rendered {K : Type} (l : list (K * outcome json))
  : outcome (list (K * json)) :=
  match l with
  | [] => Return []
  | (k, Raise e) :: _ => Raise e
  | (k, Return j) :: rest =>
      match all_rendered rest with
      | Return js => Return ((k, j) :: js)
      | Raise e => Raise e
      end
  end.

(** [jsonify] on such a value: Flask's JSON provider writes the keys of a
    dict in sorted order, a [Decimal] as its [str], and raises [TypeError]
    at the first object it cannot write. *)
Fixpoint render (v : pyval) : outcome json :=
  match v with
  | PNull => Return JNull
  | PBool b => Return (JBool b)
  | PInt n => Return (JNum n)
  | PStr s => Return (JStr s)
  | PDecimal text => Return (JStr text)
  | PList items =>
      match all_rendered (map (fun item => (tt, render item)) items) with
      | Return js => Return (JArr (map snd js))
      | Raise e => Raise e
      end
  | PDict members =>
      match all_rendered
              (sort_by_key (map (fun kv => (fst kv, render (snd kv))) members))
      with
      | Return js => Return (JObj js)
      | Raise e => Raise e
      end
  | PObject type_ =>
      Raise (PyException
               ("Object of type " ++ type_ ++ " is not JSON serializable"))
  end.

#[local] Arguments render : simpl never.

(* ===================================================================== *)
(** * HTTP requests and responses *)
(* ===================================================================== *)

(** [request.args] (first value of a key) and the outcome of
    [request.get_json(silent=True)]: [None] for a body that is missing,
    not JSON or of another content type; the literal [null] parses to
    [JNull], Python's [None] as well. *)
Record Request : Type := mkRequest {
  args : list (string * string);
  body : option json }.

Definition get_json_silent (req : Request) : json :=
  default JNull (body req).

(** [(jsonify(payload), status)]. *)
Record Response : Type := mkResponse {
  payload : json;
  status : Z }.

Definition jsonify (members : list (string * json)) (code : Z) : Response :=
  mkResponse (JObj members) code.

(** The [error] member of a response, when it is a string. *)
Definition error_of (r : Response) : option string :=
  match payload r with
  | JObj members =>
      match assoc_get members "error" with
      | Some (JStr s) => Some s
      | _ => None
      end
  | _ => None
  end.

(* ===================================================================== *)
(** * The backend: boto3 clients for SQS, SNS and DynamoDB *)
(* ===================================================================== *)

(** One entry of a [list_topics] page and the page itself; boto3 leaves a
    key out of a reply when the service sends none, hence the options. *)
Record Topic : Type := mkTopic { TopicArn : option string }.
Record TopicsPage : Type := mkPage { Topics : option (list Topic) }.

(** The client methods the views call, with their keyword arguments. *)
Inductive Call : Type :=
| SqsGetQueueUrl (QueueName : json)
| SqsGetQueueAttributes (QueueUrl : string)
| SqsSendMessage (QueueUrl : string) (MessageBody : json)
                 (DelaySeconds : option Z) (MessageAttributes : option json)
| SqsReceiveMessage (QueueUrl : string) (MaxNumberOfMessages WaitTimeSeconds : Z)
| SqsDeleteMessage (QueueUrl ReceiptHandle : string)
| SqsPurgeQueue (QueueUrl : string)
| SqsListQueues (QueueNamePrefix : option string)
| SnsListTopics (page : nat)
| SnsCreateTopic (Name : json)
| SnsPublish (Arn : string) (Message : json)
             (Subject : option json) (MessageAttributes : option json)
| SnsSubscribe (Arn : json) (Protocol : string) (Endpoint : json)
               (RawMessageDelivery : bool)
| DdbGetItem (TableName : string) (Key : gmap string string)
| DdbScan (TableName : string).

(** The part of each reply a view reads. *)
Definition Reply (c : Call) : Type :=
  match c with
  | SqsGetQueueUrl _ => option string                      (* QueueUrl *)
  | SqsGetQueueAttributes _ => option (list (string * string)) (* Attributes *)
  | SqsSendMessage _ _ _ _ => option string                (* MessageId *)
  | SqsReceiveMessage _ _ _ => option (list pyval)         (* Messages *)
  | SqsDeleteMessage _ _ => unit
  | SqsPurgeQueue _ => unit
  | SqsListQueues _ => option (list string)                (* QueueUrls *)
  | SnsListTopics _ => TopicsPage
  | SnsCreateTopic _ => option string                      (* TopicArn *)
  | SnsPublish _ _ _ _ => option string                    (* MessageId *)
  | SnsSubscribe _ _ _ _ => option string                  (* SubscriptionArn *)
  | DdbGetItem _ _ => option (list (string * pyval))       (* Item *)
  | DdbScan _ => option (list pyval)                       (* Items *)
  end.

(** A backend with states [B]: [invoke] runs one client method and may
    change the state; [topic_pages] is the sequence
    [sns.get_paginator("list_topics").paginate()] would yield from a state,
    one outcome per page request, fetched only as far as it is consumed. *)
Class Backend (B : Type) : Type := {
  invoke : ∀ c : Call, B → outcome (Reply c) * B;
  topic_pages : B → list (outcome TopicsPage) }.

(** The two calls that resolve the name of a queue. *)
Definition is_queue_lookup (c : Call) : bool :=
  match c with
  | SqsGetQueueUrl _ | SqsGetQueueAttributes _ => true
  | _ => false
  end.

(** Calls that only look a resource up. *)
Definition is_lookup (c : Call) : bool :=
  match c with
  | SqsGetQueueUrl _ | SqsGetQueueAttributes _ | SnsListTopics _ => true
  | _ => false
  end.

Definition is_listing (c : Call) : bool :=
  match c with SnsListTopics _ => true | _ => false end.

(* ===================================================================== *)
(** * Views *)
(* ===================================================================== *)

Section Views.

Context {B : Type} `{!Backend B}.

(** [int(s)] on a string is Python's own; [None] stands for [ValueError]. *)
Variable py_int : string → option Z.

(** The backend state and the calls issued so far, oldest first. *)
Record World : Type := mkWorld {
  state : B;
  trace : list Call }.

Definition M (A : Type) : Type := World → outcome A * World.

Definition ret {A : Type} (a : A) : M A := fun w => (Return a, w).

Definition raise {A : Type} (e : exn) : M A := fun w => (Raise e, w).

Definition lift {A : Type} (o : outcome A) : M A := fun w => (o, w).

Definition bind {A C : Type} (m : M A) (k : A → M C) : M C :=
  fun w =>
    match m w with
    | (Return a, w') => k a w'
    | (Raise e, w') => (Raise e, w')
    end.

Notation "x <- m ;; k" := (bind m (fun x => k))
  (at level 100, m at next level, right associativity).

(** One client method call: logged, then run on the backend state. *)
Definition call (c : Call) : M (Reply c) :=
  fun w =>
    let '(r, b) := invoke c (state w) in
    (r, mkWorld b (trace w ++ [c])).

Definition View : Type := Request → World → Response * World.

(** ** app/utils/aws.py *)

Definition get_queue_url_by_name (queue_name : json) : M string :=
  resp <- call (SqsGetQueueUrl queue_name) ;;
  match resp with
  | Some url => ret url
  | None => raise (PyException "'QueueUrl'")
  end.

Definition resolve_queue_arn_by_name (queue_name : json) : M string :=
  queue_url <- get_queue_url_by_name queue_name ;;
  attrs <- call (SqsGetQueueAttributes queue_url) ;;
  match attrs with
  | None => raise (PyException "'Attributes'")
  | Some attributes =>
      match assoc_get attributes "QueueArn" with
      | Some arn => ret arn
      | None => raise (PyException "'QueueArn'")
      end
  end.

Definition client_error_response (message : option string) (text : string)
  : Response :=
  jsonify [("error", JStr (default text message))] 500.

(** The two [except] clauses every view ends with. *)
Definition try_view (m : M Response) : World → Response * World :=
  fun w =>
    match m w with
    | (Return r, w') => (r, w')
    | (Raise (ClientError message text), w') =>
        (client_error_response message text, w')
    | (Raise (PyException text), w') =>
        (jsonify [("error", JStr text)] 500, w')
    end.

(** ** app/utils/http.py *)

(** [(data, None)] is [inr data]; [(None, error)] is [inl error]. *)
Fixpoint check_required (data : json) (required_fields : list string)
  : outcome (Response + json) :=
  match required_fields with
  | [] => Return (inr data)
  | field :: rest =>
      match py_get data field with
      | Raise e => Raise e
      | Return value =>
          if is_none value || is_empty_str value
          then Return (inl (jsonify
                 [("error", JStr ("Missing required field in body: " ++ field))]
                 400))
          else check_required data rest
      end
  end.

Definition get_json_body (req : Request) (required_fields : list string)
  : outcome (Response + json) :=
  let data := get_json_silent req in
  if is_none data
  then Return (inl (jsonify [("error", JStr "Invalid or missing JSON body")] 400))
  else check_required data required_fields.

Definition missing_params (names : list string) (req : Request) : list string :=
  List.filter (fun n => negb (arg_truthy (assoc_get (args req) n))) names.

(** The decorator: [func] receives the keyword arguments it injects. *)
Definition require_query_params (names : list string)
    (func : (string → string) → View) : View :=
  fun req w =>
    match missing_params names req with
    | [] => func (fun n => default "" (assoc_get (args req) n)) req w
    | missing =>
        (jsonify [("error",
                   JStr ("Missing required query parameters: "
                         ++ join ", " missing))] 400, w)
    end.

(** [int(v)] on a string and on a parsed JSON value. *)
Definition int_of_str (s : string) : outcome Z :=
  match py_int s with
  | Some n => Return n
  | None => Raise (PyException (int_error_text s))
  end.

Definition int_of (v : json) : outcome Z :=
  match v with
  | JNum n => Return n
  | JBool b => Return (if b then 1 else 0)
  | JStr s => int_of_str s
  | _ => Raise (PyException
        ("int() argument must be a string, a bytes-like object or a real number, not '"
         ++ type_name v ++ "'"))
  end.

(** ** app/routes/sqs.py

    [with_sqs_client] only builds a client object; it issues no call. *)

Definition send_message_view (queue_name : string) : View :=
  fun req => try_view (
    let data := get_json_silent req in
    if is_none data
    then ret (jsonify [("error", JStr "Invalid or missing JSON body")] 400)
    else
      message <- lift (py_get data "message") ;;
      if negb (truthy message)
      then ret (jsonify
                  [("error", JStr "Missing required field in body: message")] 400)
      else
        delay_seconds <- lift (py_get data "delay_seconds") ;;
        attributes <- lift (py_get data "attributes") ;;
        queue_url <- get_queue_url_by_name (JStr queue_name) ;;
        delay <- (if is_none delay_seconds then ret None
                  else d <- lift (int_of delay_seconds) ;; ret (Some d)) ;;
        response <- call (SqsSendMessage queue_url message delay
                            (if truthy attributes then Some attributes else None)) ;;
        ret (jsonify [("message_id", json_of_opt response);
                      ("queue_name", JStr queue_name)] 200)).

Definition send_message : View :=
  require_query_params ["queue_name"]
    (fun kwargs => send_message_view (kwargs "queue_name")).

Definition receive_messages_view (queue_name : string) : View :=
  fun req => try_view (
    let max_number := default "1" (assoc_get (args req) "max_number") in
    let wait_time_seconds :=
      default "0" (assoc_get (args req) "wait_time_seconds") in
    requested_max <- lift (int_of_str max_number) ;;
    let max_number_int := Z.max (Z.min requested_max 10) 1 in
    requested_wait <- lift (int_of_str wait_time_seconds) ;;
    let wait_time_int := Z.max (Z.min requested_wait 20) 0 in
    queue_url <- get_queue_url_by_name (JStr queue_name) ;;
    response <- call (SqsReceiveMessage queue_url max_number_int wait_time_int) ;;
    let messages := default [] response in
    rendered <- lift (render (PList messages)) ;;
    ret (jsonify [("queue_name", JStr queue_name);
                  ("messages", rendered)] 200)).

Definition receive_messages : View :=
  require_query_params ["queue_name"]
    (fun kwargs => receive_messages_view (kwargs "queue_name")).

Definition list_queues : View :=
  fun req => try_view (
    let prefix := assoc_get (args req) "prefix" in
    response <- call (SqsListQueues
                        (if arg_truthy prefix then prefix else None)) ;;
    let queue_urls := default [] response in
    ret (jsonify [("queue_urls", JArr (map JStr queue_urls))] 200)).

Definition delete_message_view (queue_name : string) : View :=
  fun req => try_view (
    let receipt_handle := assoc_get (args req) "receipt_handle" in
    if negb (arg_truthy receipt_handle)
    then ret (jsonify
                [("error",
                  JStr "Missing required query parameter: receipt_handle")] 400)
    else
      let handle := default "" receipt_handle in
      queue_url <- get_queue_url_by_name (JStr queue_name) ;;
      _ <- call (SqsDeleteMessage queue_url handle) ;;
      ret (jsonify [("queue_name", JStr queue_name);
                    ("receipt_handle", JStr handle);
                    ("deleted", JBool true)] 200)).

Definition delete_message : View :=
  require_query_params ["queue_name"]
    (fun kwargs => delete_message_view (kwargs "queue_name")).

Definition purge_queue_view (queue_name : string) : View :=
  fun req => try_view (
    queue_url <- get_queue_url_by_name (JStr queue_name) ;;
    _ <- call (SqsPurgeQueue queue_url) ;;
    ret (jsonify [("queue_name", JStr queue_name);
                  ("purged", JBool true);
                  ("note", JStr "Purge solicitado; operação é assincrona no SQS.")]
           200)).

Definition purge_queue : View :=
  require_query_params ["queue_name"]
    (fun kwargs => purge_queue_view (kwargs "queue_name")).

(** ** app/routes/dynamodb.py

    [dynamodb.Table(name)] builds a handle; the call is [scan] or
    [get_item]. *)

Definition get_all_items_view (table_name : string) : View :=
  fun req => try_view (
    response <- call (DdbScan table_name) ;;
    let items := default [] response in
    rendered <- lift (render (PList items)) ;;
    ret (jsonify [("items", rendered);
                  ("table_name", JStr table_name)] 200)).

Definition get_all_items : View :=
  require_query_params ["table_name"]
    (fun kwargs => get_all_items_view (kwargs "table_name")).

(** The [Key] of the lookup: a dict, so a sort key named like the
    partition key overwrites it. *)
Definition item_key (partition_key_name partition_key_value : string)
    (sort_key_name sort_key_value : option string) : gmap string string :=
  let key : gmap string string := {[ partition_key_name := partition_key_value ]} in
  if arg_truthy sort_key_name && arg_truthy sort_key_value
  then <[ default "" sort_key_name := default "" sort_key_value ]> key
  else key.

Definition get_item_view
    (table_name partition_key_name partition_key_value : string) : View :=
  fun req => try_view (
    let sort_key_name := assoc_get (args req) "sort_key_name" in
    let sort_key_value := assoc_get (args req) "sort_key_value" in
    let key := item_key partition_key_name partition_key_value
                        sort_key_name sort_key_value in
    response <- call (DdbGetItem table_name key) ;;
    match response with
    | Some ((_ :: _) as item) =>
        rendered <- lift (render (PDict item)) ;;
        ret (mkResponse rendered 200)
    | _ => ret (jsonify [("error", JStr "Item not found.")] 404)
    end).

Definition get_item : View :=
  require_query_params
    ["table_name"; "partition_key_name"; "partition_key_value"]
    (fun kwargs =>
       get_item_view (kwargs "table_name") (kwargs "partition_key_name")
                     (kwargs "partition_key_value")).

(** ** app/routes/sns.py

    [with_sns_client] only builds a client object; it issues no call. *)

(** The inner loop of the resolver, over the topics of one page. *)
Fixpoint scan_topics (topics : list Topic) (topic_name : json) : option string :=
  match topics with
  | [] => None
  | topic :: rest =>
      match TopicArn topic with
      | Some arn =>
          if String.eqb arn "" then scan_topics rest topic_name
          else if is_str topic_name (last_segment arn) then Some arn
          else scan_topics rest topic_name
      | None => scan_topics rest topic_name
      end
  end.

(** Asking the paginator for its page number [index]. *)
Definition fetch_page (index : nat) (page : outcome TopicsPage) : M TopicsPage :=
  fun w => (page, mkWorld (state w) (trace w ++ [SnsListTopics index])).

(** The outer loop: pages are requested one at a time and the loop is left
    at the first match. *)
Fixpoint scan_pages (pages : list (outcome TopicsPage)) (index : nat)
    (topic_name : json) : M (option string) :=
  match pages with
  | [] => ret None
  | next :: rest =>
      page <- fetch_page index next ;;
      match scan_topics (default [] (Topics page)) topic_name with
      | Some arn => ret (Some arn)
      | None => scan_pages rest (S index) topic_name
      end
  end.

Definition resolve_topic_arn_by_name (topic_name : json) : M (option string) :=
  fun w => scan_pages (topic_pages (state w)) 0 topic_name w.

Definition create_topic : View :=
  fun req => try_view (
    checked <- lift (get_json_body req ["name"]) ;;
    match checked with
    | inl error => ret error
    | inr data =>
        name <- lift (py_getitem data "name") ;;
        resp <- call (SnsCreateTopic name) ;;
        ret (jsonify [("name", name); ("topic_arn", json_of_opt resp)] 201)
    end).

Definition topic_not_found (topic_name : string) : Response :=
  jsonify [("error", JStr "Topic not found");
           ("details",
            JStr ("Topic with name '" ++ topic_name ++ "' was not found"))] 404.

Definition publish_message_view (topic_name : string) : View :=
  fun req => try_view (
    resolved <- resolve_topic_arn_by_name (JStr topic_name) ;;
    match resolved with
    | None => ret (topic_not_found topic_name)
    | Some topic_arn =>
        if String.eqb topic_arn "" then ret (topic_not_found topic_name)
        else
          checked <- lift (get_json_body req ["message"]) ;;
          match checked with
          | inl error => ret error
          | inr data =>
              message <- lift (py_getitem data "message") ;;
              subject <- lift (py_get data "subject") ;;
              attributes <- lift (py_get data "attributes") ;;
              resp <- call (SnsPublish topic_arn message
                              (if truthy subject then Some subject else None)
                              (if truthy attributes then Some attributes
                               else None)) ;;
              ret (jsonify [("message_id", json_of_opt resp);
                            ("topic_arn", JStr topic_arn);
                            ("topic_name", JStr topic_name)] 200)
          end
    end).

Definition publish_message : View :=
  require_query_params ["topic_name"]
    (fun kwargs => publish_message_view (kwargs "topic_name")).

(** The entries [list_topics] reports for one page. *)
Fixpoint topic_entries (topics : list Topic) : list json :=
  match topics with
  | [] => []
  | topic :: rest =>
      match TopicArn topic with
      | Some arn =>
          if String.eqb arn "" then topic_entries rest
          else JObj [("topic_arn", JStr arn); ("name", JStr (last_segment arn))]
               :: topic_entries rest
      | None => topic_entries rest
      end
  end.

Fixpoint collect_pages (pages : list (outcome TopicsPage)) (index : nat)
    (topics : list json) : M (list json) :=
  match pages with
  | [] => ret topics
  | next :: rest =>
      page <- fetch_page index next ;;
      collect_pages rest (S index)
        (topics ++ topic_entries (default [] (Topics page)))
  end.

Definition list_topics : View :=
  fun req => try_view (
    topics <- (fun w => collect_pages (topic_pages (state w)) 0 [] w) ;;
    ret (jsonify [("topics", JArr topics)] 200)).

Definition create_subscription : View :=
  fun req => try_view (
    checked <- lift (get_json_body req []) ;;
    match checked with
    | inl error => ret error
    | inr data =>
        given_arn <- lift (py_get data "topic_arn") ;;
        topic_name <- lift (py_get data "topic_name") ;;
        sub_type <- lift (py_get data "type") ;;
        if negb (truthy sub_type)
           || negb (is_str sub_type "sqs" || is_str sub_type "lambda")
        then ret (jsonify [("error", JStr "type must be 'sqs' or 'lambda'")] 400)
        else
          topic_arn <- (if negb (truthy given_arn) && truthy topic_name
                        then resolved <- resolve_topic_arn_by_name topic_name ;;
                             ret (json_of_opt resolved)
                        else ret given_arn) ;;
          if negb (truthy topic_arn)
          then ret (jsonify
                      [("error", JStr "topic_arn or topic_name is required")] 400)
          else
            let subscribe protocol endpoint :=
              resp <- call (SnsSubscribe topic_arn protocol endpoint
                              (String.eqb protocol "sqs")) ;;
              ret (jsonify [("subscription_arn", json_of_opt resp);
                            ("topic_arn", topic_arn);
                            ("protocol", JStr protocol);
                            ("endpoint", endpoint)] 201) in
            if is_str sub_type "sqs" then
              given_queue <- lift (py_get data "queue_arn") ;;
              queue_name <- lift (py_get data "queue_name") ;;
              queue_arn <- (if negb (truthy given_queue) && truthy queue_name
                            then arn <- resolve_queue_arn_by_name queue_name ;;
                                 ret (JStr arn)
                            else ret given_queue) ;;
              if negb (truthy queue_arn)
              then ret (jsonify
                          [("error",
                            JStr "queue_arn or queue_name is required for type 'sqs'")]
                          400)
              else subscribe "sqs" queue_arn
            else if is_str sub_type "lambda" then
              lambda_arn <- lift (py_get data "lambda_arn") ;;
              if negb (truthy lambda_arn)
              then ret (jsonify
                          [("error",
                            JStr "lambda_arn is required for type 'lambda'")] 400)
              else subscribe "lambda" lambda_arn
            else
              raise (PyException
                "cannot access local variable 'protocol' where it is not associated with a value")
    end).

End Views.

Arguments World B : clear implicits.
Arguments View B : clear implicits.

(* ===================================================================== *)
(** * An in-memory backend

    A stand-in for LocalStack, used to run the views on concrete requests:
    the queues and topics that exist, by name.  Topic listings come one
    topic per page. *)
(* ===================================================================== *)

Record Emulator : Type := mkEmulator {
  emu_queues : list string;
  emu_topics : list string }.

Definition has_name (names : list string) (n : string) : bool :=
  existsb (String.eqb n) names.

Definition queue_url_of (name : string) : string :=
  "http://localhost:4566/000000000000/" ++ name.

Definition queue_arn_of (url : string) : string :=
  "arn:aws:sqs:us-east-1:000000000000:" ++ List.last (split_on "/"%char url) "".

Definition topic_arn_of (name : string) : string :=
  "arn:aws:sns:us-east-1:000000000000:" ++ name.

Definition no_such_queue : exn :=
  ClientError (Some "The specified queue does not exist.")
    "An error occurred (AWS.SimpleQueueService.NonExistentQueue) when calling the GetQueueUrl operation: The specified queue does not exist.".

Definition bad_parameter : exn :=
  PyException "Parameter validation failed".

Definition emu_invoke (c : Call) (b : Emulator) : outcome (Reply c) * Emulator :=
  match c return outcome (Reply c) * Emulator with
  | SqsGetQueueUrl (JStr name) =>
      if has_name (emu_queues b) name
      then (Return (Some (queue_url_of name)), b)
      else (Raise no_such_queue, b)
  | SqsGetQueueUrl _ => (Raise bad_parameter, b)
  | SqsGetQueueAttributes url =>
      (Return (Some [("QueueArn", queue_arn_of url)]), b)
  | SqsSendMessage _ (JStr _) _ _ => (Return (Some "m-1"), b)
  | SqsSendMessage _ _ _ _ => (Raise bad_parameter, b)
  | SqsReceiveMessage _ _ _ => (Return None, b)
  | SqsDeleteMessage _ _ => (Return tt, b)
  | SqsPurgeQueue _ => (Return tt, b)
  | SqsListQueues _ => (Return (Some (map queue_url_of (emu_queues b))), b)
  | SnsListTopics _ =>
      (Return (mkPage (Some (map (fun n => mkTopic (Some (topic_arn_of n)))
                                 (emu_topics b)))), b)
  | SnsCreateTopic (JStr name) =>
      (Return (Some (topic_arn_of name)),
       if has_name (emu_topics b) name then b
       else mkEmulator (emu_queues b) (emu_topics b ++ [name]))
  | SnsCreateTopic _ => (Raise bad_parameter, b)
  | SnsPublish _ (JStr _) _ _ => (Return (Some "m-1"), b)
  | SnsPublish _ _ _ _ => (Raise bad_parameter, b)
  | SnsSubscribe (JStr arn) _ (JStr _) _ => (Return (Some (arn ++ ":s-1")), b)
  | SnsSubscribe _ _ _ _ => (Raise bad_parameter, b)
  | DdbGetItem _ _ => (Return None, b)
  | DdbScan _ => (Return (Some []), b)
  end.

Definition emu_topic_pages (b : Emulator) : list (outcome TopicsPage) :=
  match emu_topics b with
  | [] => [Return (mkPage (Some []))]
  | names =>
      map (fun n => Return (mkPage (Some [mkTopic (Some (topic_arn_of n))]))) names
  end.

#[export] Instance emulator_backend : Backend Emulator := {
  invoke := emu_invoke;
  topic_pages := emu_topic_pages }.

(** A fresh world: nothing called yet. *)
Definition fresh (b : Emulator) : World Emulator := mkWorld b [].

(** The emulator over a table and a queue with contents: [get_item]
    returns [item], [scan] and [receive_message] return [rows]. *)
Definition stocked_invoke (item : option (list (string * pyval)))
    (rows : list pyval) (c : Call) (b : Emulator)
  : outcome (Reply c) * Emulator :=
  match c return outcome (Reply c) * Emulator with
  | DdbGetItem _ _ => (Return item, b)
  | DdbScan _ => (Return (Some rows), b)
  | SqsReceiveMessage _ _ _ => (Return (Some rows), b)
  | c' => emu_invoke c' b
  end.

Definition stocked (item : option (list (string * pyval)))
    (rows : list pyval) : Backend Emulator := {|
  invoke := stocked_invoke item rows;
  topic_pages := emu_topic_pages |}.

(* ===================================================================== *)
(** * The route table and the vocabulary of the specification *)
(* ===================================================================== *)

(** The routes the three blueprints register ([app/main.py]). *)
Inductive Endpoint : Type :=
| PostSqsSend            (* POST   /v1/sqs/send *)
| GetSqsMessages         (* GET    /v1/sqs/messages *)
| GetSqsQueues           (* GET    /v1/sqs/queues *)
| DeleteSqsMessages      (* DELETE /v1/sqs/messages *)
| DeleteSqsMessagesAll   (* DELETE /v1/sqs/messages/all *)
| GetDynamodbAll         (* GET    /v1/dynamodb/all *)
| GetDynamodbItem        (* GET    /v1/dynamodb/item *)
| PostSnsTopics          (* POST   /v1/sns/topics *)
| PostSnsPublish         (* POST   /v1/sns/publish *)
| GetSnsTopics           (* GET    /v1/sns/topics *)
| PostSnsSubscriptions.  (* POST   /v1/sns/subscriptions *)

Definition view_of {B : Type} `{!Backend B} (py_int : string → option Z)
    (e : Endpoint) : View B :=
  match e with
  | PostSqsSend => send_message py_int
  | GetSqsMessages => receive_messages py_int
  | GetSqsQueues => list_queues
  | DeleteSqsMessages => delete_message
  | DeleteSqsMessagesAll => purge_queue
  | GetDynamodbAll => get_all_items
  | GetDynamodbItem => get_item
  | PostSnsTopics => create_topic
  | PostSnsPublish => publish_message
  | GetSnsTopics => list_topics
  | PostSnsSubscriptions => create_subscription
  end.

(** The names each route hands to [require_query_params]. *)
Definition decorated_params (e : Endpoint) : list string :=
  match e with
  | PostSqsSend | GetSqsMessages | DeleteSqsMessages | DeleteSqsMessagesAll =>
      ["queue_name"]
  | GetDynamodbAll => ["table_name"]
  | GetDynamodbItem => ["table_name"; "partition_key_name"; "partition_key_value"]
  | PostSnsPublish => ["topic_name"]
  | GetSqsQueues | PostSnsTopics | GetSnsTopics | PostSnsSubscriptions => []
  end.

(** The routes that resolve a name before they are done validating. *)
Definition resolves_first (e : Endpoint) : bool :=
  match e with
  | PostSnsPublish | PostSnsSubscriptions => true
  | _ => false
  end.

(** Every identifier a listing holds, page after page, in order. *)
Definition listed_arns (pages : list TopicsPage) : list string :=
  flat_map (λ page, omap TopicArn (default [] (Topics page))) pages.

(** "The first identifier whose short name is [name], or absence": [r] is
    that answer for the identifiers [ids]. *)
Definition first_with_short_name (name : string) (ids : list string)
    (r : option string) : Prop :=
  match r with
  | Some arn =>
      ∃ before after,
        ids = (before ++ arn :: after)%list
        ∧ short_name_is arn name
        ∧ Forall (λ a, ¬ short_name_is a name) before
  | None => Forall (λ a, ¬ short_name_is a name) ids
  end.

(** "Clamped into [[lo, hi]]". *)
Definition clamp (lo hi x : Z) : Z :=
  if x <? lo then lo else if hi <? x then hi else x.

(** The value a receive request asks for: the default when the parameter
    is absent, else the integer it spells. *)
Definition requested_value (py_int : string → option Z)
    (param : option string) (dflt : Z) : option Z :=
  match param with
  | None => Some dflt
  | Some s => py_int s
  end.

(** [n] zeros: ["1" ++ zeros n] spells [10 ** n]. *)
Fixpoint zeros (n : nat) : string :=
  match n with
  | O => EmptyString
  | S n' => String "0" (zeros n')
  end.

(** "Absent, null, or an empty string". *)
Definition field_missing (members : list (string * json)) (field : string) : bool :=
  match assoc_get members field with
  | None => true
  | Some JNull => true
  | Some (JStr s) => String.eqb s ""
  | Some _ => false
  end.

(** A request body that is a JSON object with the given members. *)
Definition object_body (req : Request) (members : list (string * json)) : Prop :=
  body req = Some (JObj members).

(** [data.get(k)] on an object. *)
Definition member (members : list (string * json)) (k : string) : json :=
  default JNull (assoc_get members k).

(** A query parameter that is present and not empty. *)
Definition has_arg (req : Request) (n v : string) : Prop :=
  assoc_get (args req) n = Some v ∧ v ≠ "".

(* ===================================================================== *)
(** * What a run adds to the trace *)
(* ===================================================================== *)

Section Discipline.

Context {B : Type} `{!Backend B}.

(** The calls [allowed] admits. *)
Variable allowed : Call → bool.

(** From [w] to [w'] only allowed calls were issued; page requests leave
    the backend state alone, so a run that issued nothing else ends in the
    state it started from. *)
Definition extends_by (w w' : World B) : Prop :=
  ∃ added,
    trace w' = (trace w ++ added)%list
    ∧ forallb allowed added = true
    ∧ (forallb is_listing added = true → state w' = state w).

(** [m] issues allowed calls only, whether it returns or raises. *)
Definition steps {A : Type} (m : M A) : Prop :=
  ∀ w o w', m w = (o, w') → extends_by w w'.

(** A run of [m] that returns a 400 has issued allowed calls only. *)
Definition safe400 (m : M Response) : Prop :=
  ∀ w r w', m w = (Return r, w') → status r = 400 → extends_by w w'.

(** [m] does not return a 400. *)
Definition never400 (m : M Response) : Prop :=
  ∀ (w : World B) r w', m w = (Return r, w') → status r ≠ 400.

End Discipline.

(** [create_topic] on the backend is idempotent, as the docstring of the
    view has it: "Usa [sns.create_topic(Name=name)], que é idempotente. Se o
    tópico já existir, o SNS apenas retorna o ARN existente." *)
Definition idempotent_create_topic (B : Type) `{!Backend B} : Prop :=
  ∀ (name : json) (b b1 : B) (arn : option string),
    invoke (SnsCreateTopic name) b = (Return arn, b1) →
    invoke (SnsCreateTopic name) b1 = (Return arn, b1).

(* ===================================================================== *)
(** * Configuration: app/main.py and the client factories *)
(* ===================================================================== *)

(** [os.getenv(k, d)] over the process environment. *)
Definition getenv (env : gmap string string) (k d : string) : string :=
  default d (env !! k).

(** [app.config] after [app/main.py] has run, over whatever Flask put there
    ([flask_defaults]). *)
Definition app_config (flask_defaults env : gmap string string)
  : gmap string string :=
  <[ "SQS_ENDPOINT_URL" := getenv env "SQS_ENDPOINT_URL" "http://localhost:4566" ]>
  (<[ "SNS_ENDPOINT_URL" := getenv env "SNS_ENDPOINT_URL" "http://localhost:4566" ]>
  (<[ "DYNAMODB_ENDPOINT_URL" :=
        getenv env "DYNAMODB_ENDPOINT_URL" "http://localhost:4566" ]>
  (<[ "AWS_REGION" := getenv env "AWS_REGION" "us-east-1" ]> flask_defaults))).

(** [current_app.config.get(config_key, default)]. *)
Definition get_aws_endpoint (config : gmap string string)
    (config_key : string) (dflt : option string) : option string :=
  match config !! config_key with
  | Some v => Some v
  | None => dflt
  end.

Definition get_aws_region (config : gmap string string) (dflt : string) : string :=
  default dflt (config !! "AWS_REGION").

(** What [boto3.client] and [boto3.resource] are built with. *)
Record Client : Type := mkClient {
  service : string;
  region_name : string;
  endpoint_url : option string }.

Definition make_sns_client (config : gmap string string) : Client :=
  let endpoint :=
    get_aws_endpoint config "SNS_ENDPOINT_URL" (Some "http://localhost:4566") in
  let region := get_aws_region config "us-east-1" in
  mkClient "sns" region endpoint.

Definition make_dynamodb_resource (config : gmap string string) : Client :=
  let endpoint :=
    get_aws_endpoint config "DYNAMODB_ENDPOINT_URL"
      (Some "http://localhost:4566") in
  let region := get_aws_region config "us-east-1" in
  mkClient "dynamodb" region endpoint.

Definition make_sqs_client (config : gmap string string) : Client :=
  let endpoint :=
    get_aws_endpoint config "SQS_ENDPOINT_URL" (Some "http://localhost:4566") in
  let region := get_aws_region config "us-east-1" in
  mkClient "sqs" region endpoint.

(* ===================================================================== *)
(** * Vocabulary for the properties of the views *)
(* ===================================================================== *)

(** What [try_view] answers when its body raised [e]. *)
Definition error_response (e : exn) : Response :=
  match e with
  | ClientError message text => client_error_response message text
  | PyException text => jsonify [("error", JStr text)] 500
  end.

(** The statuses a route can answer with. *)
Definition route_statuses (e : Endpoint) : list Z :=
  match e with
  | PostSqsSend | GetSqsMessages | DeleteSqsMessages | DeleteSqsMessagesAll
  | GetDynamodbAll => [200; 400; 500]
  | GetSqsQueues | GetSnsTopics => [200; 500]
  | GetDynamodbItem | PostSnsPublish => [200; 400; 404; 500]
  | PostSnsTopics | PostSnsSubscriptions => [201; 400; 500]
  end.

Section StatusDiscipline.

Context {B : Type}.

(** Every response [m] returns has its status among [allowed]. *)
Definition statuses_in (allowed : list Z) (m : M (B := B) Response) : Prop :=
  ∀ w r w', m w = (Return r, w') → In (status r) allowed.

End StatusDiscipline.

(** The entry [list_topics] reports for one identifier. *)
Definition topic_entry (arn : string) : json :=
  JObj [("topic_arn", JStr arn); ("name", JStr (last_segment arn))].

Definition non_empty (s : string) : bool := negb (String.eqb s "").

(** The [QueueUrl] argument of the calls that act on a queue. *)
Definition call_queue_url (c : Call) : option string :=
  match c with
  | SqsSendMessage url _ _ _ => Some url
  | SqsReceiveMessage url _ _ => Some url
  | SqsDeleteMessage url _ => Some url
  | SqsPurgeQueue url => Some url
  | _ => None
  end.

(** The calls create-subscription may issue: lookups, and [subscribe] with
    raw delivery exactly for the [sqs] protocol. *)
Definition subscription_call (c : Call) : bool :=
  match c with
  | SnsListTopics _ | SqsGetQueueUrl _ | SqsGetQueueAttributes _ => true
  | SnsSubscribe _ protocol _ raw =>
      (String.eqb protocol "sqs" && raw)
      || (String.eqb protocol "lambda" && negb raw)
  | _ => false
  end.

(** [DelaySeconds] as send-message derives it from [delay_seconds]. *)
Definition coerced_delay (py_int : string → option Z) (delay_seconds : json)
  : outcome (option Z) :=
  if is_none delay_seconds then Return None
  else match int_of py_int delay_seconds with
       | Return d => Return (Some d)
       | Raise e => Raise e
       end.

(** An optional member of a body: passed on only when truthy. *)
Definition when_truthy (v : json) : option json :=
  if truthy v then Some v else None.

(** The emulator with a listing that breaks off: after the pages of its
    topics, one more page request is refused. *)
Definition throttled : exn :=
  ClientError (Some "Rate exceeded")
    "An error occurred (Throttling) when calling the ListTopics operation: Rate exceeded".

Definition interrupted_listing : Backend Emulator := {|
  invoke := emu_invoke;
  topic_pages :=
    λ b, (map (λ n, Return (mkPage (Some [mkTopic (Some (topic_arn_of n))])))
              (emu_topics b)
          ++ [Raise throttled])%list |}.

Section QueueDiscipline.

Context {B : Type} `{!Backend B}.

(** From [w] to [w'] the queue [name] was looked up, and at most one more
    call was issued, on the URL the lookup returned. *)
Definition queue_discipline (name : string) (w w' : World B) : Prop :=
  trace w' = (trace w ++ [SqsGetQueueUrl (JStr name)])%list
  ∨ ∃ url b c,
      invoke (SqsGetQueueUrl (JStr name)) (state w) = (Return (Some url), b)
      ∧ call_queue_url c = Some url
      ∧ trace w' = (trace w ++ [SqsGetQueueUrl (JStr name); c])%list.

End QueueDiscipline.

(* ===================================================================== *)
(** * Facts about [split_on], [last_segment], [join] and [mentions] *)
(* ===================================================================== *)

Section SplitFacts.

Lemma split_on_not_nil sep s : split_on sep s ≠ [].
Proof.
  destruct s as [|c s]; simpl; [discriminate|].
  destruct (Ascii.eqb c sep); [discriminate|].
  destruct (split_on sep s); discriminate.
Qed.

Lemma last_cons_not_nil {A : Type} (x d : A) (l : list A) :
  l ≠ [] → List.last (x :: l) d = List.last l d.
Proof. destruct l; [congruence | reflexivity]. Qed.

Lemma last_app_not_nil {A : Type} (d : A) (l1 l2 : list A) :
  l2 ≠ [] → List.last (l1 ++ l2)%list d = List.last l2 d.
Proof.
  intros Hne. induction l1 as [|x l1 IH]; [reflexivity|].
  change ((x :: l1) ++ l2)%list with (x :: (l1 ++ l2))%list.
  rewrite last_cons_not_nil; [exact IH|].
  destruct l1; simpl; [exact Hne | discriminate].
Qed.

Lemma empty_has_no_colon : ¬ has_colon "".
Proof. intros (pre & post & H). destruct pre; discriminate. Qed.

Lemma has_colon_cons c s : has_colon s → has_colon (String c s).
Proof. intros (pre & post & ->). exists (String c pre), post. reflexivity. Qed.

Lemma has_colon_head s : has_colon (String ":" s).
Proof. exists "", s. reflexivity. Qed.

Lemma has_colon_inv c s :
  has_colon (String c s) → c = ":"%char ∨ has_colon s.
Proof.
  intros (pre & post & H). destruct pre as [|c' pre]; simpl in H.
  - left. congruence.
  - right. exists pre, post. injection H as _ ->. reflexivity.
Qed.

(** A string without [':'] is its own single piece. *)
Lemma split_on_no_colon s : ¬ has_colon s → split_on ":" s = [s].
Proof.
  induction s as [|c s IH]; intros Hno; [reflexivity|].
  simpl. destruct (Ascii.eqb_spec c ":") as [->|Hc].
  - destruct Hno. apply has_colon_head.
  - rewrite IH; [reflexivity|]. intros H. apply Hno, has_colon_cons, H.
Qed.

(** No piece of a split contains the separator. *)
Lemma split_on_pieces s : Forall (λ p, ¬ has_colon p) (split_on ":" s).
Proof.
  induction s as [|c s IH]; simpl.
  - constructor; [apply empty_has_no_colon | constructor].
  - destruct (Ascii.eqb_spec c ":") as [->|Hc].
    + constructor; [apply empty_has_no_colon | exact IH].
    + destruct (split_on ":" s) as [|p ps]; simpl.
      * constructor; [|constructor].
        intros H. apply has_colon_inv in H as [H|H]; [congruence|].
        exact (empty_has_no_colon H).
      * inversion IH as [|? ? Hp Hps]; subst. constructor; [|exact Hps].
        intros H. apply has_colon_inv in H as [H|H]; [congruence | exact (Hp H)].
Qed.

(** What precedes a [':'] only adds pieces in front. *)
Lemma split_on_app pre s :
  ∃ l, l ≠ [] ∧ split_on ":" (pre ++ ":" ++ s) = (l ++ split_on ":" s)%list.
Proof.
  induction pre as [|c pre (l & Hl & IH)]; simpl.
  - exists [""]. split; [discriminate | reflexivity].
  - simpl in IH. rewrite IH. destruct (Ascii.eqb c ":").
    + exists ("" :: l). split; [discriminate | reflexivity].
    + destruct l as [|p l]; [congruence|]. simpl.
      exists (String c p :: l). split; [discriminate | reflexivity].
Qed.

Lemma last_segment_no_colon s : ¬ has_colon s → last_segment s = s.
Proof. intros H. unfold last_segment. rewrite split_on_no_colon; done. Qed.

Lemma last_segment_app pre s : last_segment (pre ++ ":" ++ s) = last_segment s.
Proof.
  unfold last_segment. destruct (split_on_app pre s) as (l & _ & ->).
  apply last_app_not_nil, split_on_not_nil.
Qed.

Lemma last_segment_has_no_colon s : ¬ has_colon (last_segment s).
Proof.
  unfold last_segment.
  pose proof (split_on_pieces s) as H. pose proof (split_on_not_nil ":" s) as Hne.
  induction H as [|p ps Hp Hps IH]; [congruence|].
  destruct ps as [|q ps]; [exact Hp|].
  rewrite last_cons_not_nil by discriminate. apply IH. discriminate.
Qed.

(** The last piece is the whole string or what follows a [':']. *)
Lemma last_segment_suffix s :
  s = last_segment s ∨ ∃ pre, s = pre ++ ":" ++ last_segment s.
Proof.
  induction s as [|c s IH]; [left; reflexivity|].
  destruct (Ascii.eqb_spec c ":") as [->|Hc].
  - right. change (String ":" s) with ("" ++ ":" ++ s) at 2.
    rewrite last_segment_app.
    destruct IH as [IH|(pre & IH)].
    + exists "". simpl. congruence.
    + exists (String ":" pre). simpl. simpl in IH. congruence.
  - destruct IH as [IH|(pre & IH)].
    + left. rewrite last_segment_no_colon; [reflexivity|].
      intros H. apply has_colon_inv in H as [H|H]; [congruence|].
      rewrite IH in H. exact (last_segment_has_no_colon s H).
    + right. exists (String c pre).
      assert (last_segment (String c s) = last_segment s) as ->.
      { rewrite IH at 1. change (String c (pre ++ ":" ++ last_segment s))
          with (String c pre ++ ":" ++ last_segment s).
        rewrite last_segment_app. apply last_segment_no_colon,
          last_segment_has_no_colon. }
      simpl. simpl in IH. congruence.
Qed.

(** [arn.split(":")[-1]] is the short name in the spec's sense. *)
Lemma last_segment_short_name arn name :
  last_segment arn = name ↔ short_name_is arn name.
Proof.
  split.
  - intros <-. split; [apply last_segment_has_no_colon|].
    apply last_segment_suffix.
  - intros [Hno [->|(pre & ->)]].
    + apply last_segment_no_colon, Hno.
    + rewrite last_segment_app. apply last_segment_no_colon, Hno.
Qed.

End SplitFacts.

Section MentionFacts.

Lemma append_assoc (a b c : string) : (a ++ b) ++ c = a ++ b ++ c.
Proof. induction a as [|x a IH]; simpl; congruence. Qed.

Lemma prefix_app n s : String.prefix n (n ++ s) = true.
Proof.
  induction n as [|c n IH]; simpl; [destruct s; reflexivity|].
  destruct (ascii_dec c c); [exact IH | congruence].
Qed.

Lemma mentions_unfold msg n :
  mentions msg n =
  String.prefix n msg
  || match msg with EmptyString => false | String _ rest => mentions rest n end.
Proof. destruct msg; reflexivity. Qed.

Lemma mentions_infix pre n post : mentions (pre ++ n ++ post) n = true.
Proof.
  induction pre as [|c pre IH].
  - simpl. rewrite mentions_unfold, prefix_app. reflexivity.
  - change (String c pre ++ n ++ post) with (String c (pre ++ n ++ post)).
    rewrite mentions_unfold, IH. apply orb_true_r.
Qed.

Lemma join_infix sep n pieces :
  In n pieces → ∃ pre post, join sep pieces = pre ++ n ++ post.
Proof.
  induction pieces as [|p rest IH]; [intros []|].
  intros [->|Hin].
  - destruct rest as [|q rest].
    + exists "", "". simpl. clear. induction n as [|c n IH]; simpl; congruence.
    + exists "", (sep ++ join sep (q :: rest)). reflexivity.
  - destruct (IH Hin) as (pre & post & Heq).
    destruct rest as [|q rest]; [destruct Hin|].
    exists (p ++ sep ++ pre), post.
    change (join sep (p :: q :: rest)) with (p ++ sep ++ join sep (q :: rest)).
    rewrite Heq.
    rewrite !append_assoc. reflexivity.
Qed.

Lemma mentions_join prefix sep n pieces :
  In n pieces → mentions (prefix ++ join sep pieces) n = true.
Proof.
  intros Hin. destruct (join_infix sep n pieces Hin) as (pre & post & ->).
  replace (prefix ++ pre ++ n ++ post) with ((prefix ++ pre) ++ n ++ post).
  - apply mentions_infix.
  - apply append_assoc.
Qed.

End MentionFacts.

(* ===================================================================== *)
(** * Topic resolution *)
(* ===================================================================== *)

Section FirstMatch.

Variable name : string.

Lemma first_with_skip a ids r :
  ¬ short_name_is a name →
  first_with_short_name name ids r →
  first_with_short_name name (a :: ids) r.
Proof.
  intros Ha. destruct r as [arn|]; simpl.
  - intros (before & after & -> & Harn & Hbefore).
    exists (a :: before), after. split_and!; [reflexivity|exact Harn|].
    constructor; assumption.
  - intros Hall. constructor; assumption.
Qed.

Lemma first_with_hit arn ids :
  short_name_is arn name → first_with_short_name name (arn :: ids) (Some arn).
Proof.
  intros Harn. exists [], ids. split_and!; [reflexivity | exact Harn | constructor].
Qed.

Lemma first_with_app_hit ids more arn :
  first_with_short_name name ids (Some arn) →
  first_with_short_name name (ids ++ more)%list (Some arn).
Proof.
  intros (before & after & -> & Harn & Hbefore).
  exists before, (after ++ more)%list. split_and!; [|exact Harn|exact Hbefore].
  rewrite <- List.app_assoc. reflexivity.
Qed.

Lemma first_with_app_miss ids more r :
  first_with_short_name name ids None →
  first_with_short_name name more r →
  first_with_short_name name (ids ++ more)%list r.
Proof.
  simpl. induction 1 as [|a ids Ha _ IH]; intros Hmore; [exact Hmore|].
  apply first_with_skip; [exact Ha | exact (IH Hmore)].
Qed.

Hypothesis name_not_empty : name ≠ "".

Lemma empty_arn_is_no_match : ¬ short_name_is "" name.
Proof.
  intros H. apply last_segment_short_name in H. apply name_not_empty.
  rewrite <- H. reflexivity.
Qed.

(** The inner loop answers for the identifiers of its page. *)
Lemma scan_topics_first topics :
  first_with_short_name name (omap TopicArn topics)
    (scan_topics topics (JStr name)).
Proof.
  induction topics as [|[[arn|]] rest IH]; simpl.
  - constructor.
  - destruct (String.eqb_spec arn "") as [->|Hne].
    + apply first_with_skip; [apply empty_arn_is_no_match | exact IH].
    + destruct (String.eqb_spec name (last_segment arn)) as [Heq|Hneq].
      * apply first_with_hit, last_segment_short_name. congruence.
      * apply first_with_skip; [|exact IH].
        intros H. apply last_segment_short_name in H. congruence.
  - exact IH.
Qed.

End FirstMatch.

Section Resolution.

Context {B : Type} `{!Backend B}.

(** Over pages that all arrive, the outer loop returns the first match of the
    whole listing, leaves the backend state alone, requests the pages in
    order, and requests all of them before it answers "absent". *)
Lemma scan_pages_first name pages :
  name ≠ "" →
  ∀ (index : nat) (w : World B),
  ∃ (r : option string) (fetched : nat),
    scan_pages (map Return pages) index (JStr name) w
    = (Return r,
       mkWorld (state w) (trace w ++ map SnsListTopics (seq index fetched)))
    ∧ first_with_short_name name (listed_arns pages) r
    ∧ (fetched ≤ length pages)%nat
    ∧ (r = None → fetched = length pages).
Proof.
  intros Hname. induction pages as [|page pages IH]; intros index w.
  - exists None, 0%nat. simpl. rewrite List.app_nil_r. destruct w.
    split_and!; [reflexivity | constructor | lia | reflexivity].
  - pose proof (scan_topics_first name Hname (default [] (Topics page))) as Hpage.
    simpl. unfold bind, fetch_page. simpl.
    destruct (scan_topics (default [] (Topics page)) (JStr name)) as [arn|] eqn:Hscan.
    + exists (Some arn), 1%nat. simpl.
      split_and!; [reflexivity| |lia|discriminate].
      apply first_with_app_hit, Hpage.
    + destruct (IH (S index) (mkWorld (state w) (trace w ++ [SnsListTopics index])))
        as (r & fetched & Hrun & Hfirst & Hle & Hall).
      exists r, (S fetched). rewrite Hrun. simpl.
      rewrite <- List.app_assoc. simpl.
      split_and!; [reflexivity| |lia|intros Hr; rewrite (Hall Hr); reflexivity].
      apply first_with_app_miss; [exact Hpage | exact Hfirst].
Qed.

End Resolution.

(** C4: over any listing whose pages all arrive, and for any non-empty
    logical name, [resolve_topic_arn_by_name] returns (it does not raise) the
    first identifier whose text after the last [':'] is exactly that name, or
    [None] when no identifier on any page has it, in which case every page
    was requested; an address it returns has the requested short name. *)
Theorem resolve_topic_first_exact_match
    {B : Type} `{!Backend B} (w : World B)
    (name : string) (pages : list TopicsPage) :
  name ≠ "" →
  topic_pages (state w) = map Return pages →
  ∃ (r : option string) (fetched : nat),
    resolve_topic_arn_by_name (JStr name) w
    = (Return r,
       mkWorld (state w) (trace w ++ map SnsListTopics (seq 0 fetched)))
    ∧ first_with_short_name name (listed_arns pages) r
    ∧ (r = None → fetched = length pages)
    ∧ (∀ arn, r = Some arn → last_segment arn = name).
Proof.
  intros Hname Hpages. unfold resolve_topic_arn_by_name. rewrite Hpages.
  destruct (scan_pages_first name pages Hname 0%nat w)
    as (r & fetched & Hrun & Hfirst & _ & Hall).
  exists r, fetched. split_and!; [exact Hrun | exact Hfirst | exact Hall |].
  intros arn ->. destruct Hfirst as (_ & _ & _ & Harn & _).
  apply last_segment_short_name, Harn.
Qed.

(** The listing of the emulator holding the topics [orders], [Orders] and
    [x:y]: [Orders] is found on the second page, not confused with
    [orders]. *)
Lemma resolve_topic_first_exact_match_witness :
  "Orders" ≠ ""
  ∧ ∃ (r : option string) (fetched : nat),
      resolve_topic_arn_by_name (JStr "Orders")
        (fresh (mkEmulator [] ["orders"; "Orders"; "x:y"]))
      = (Return r,
         mkWorld (mkEmulator [] ["orders"; "Orders"; "x:y"])
                 ([] ++ map SnsListTopics (seq 0 fetched)))
      ∧ first_with_short_name "Orders"
          (listed_arns
             [mkPage (Some [mkTopic (Some (topic_arn_of "orders"))]);
              mkPage (Some [mkTopic (Some (topic_arn_of "Orders"))]);
              mkPage (Some [mkTopic (Some (topic_arn_of "x:y"))])]) r
      ∧ (r = None → fetched = 3%nat)
      ∧ (∀ arn, r = Some arn → last_segment arn = "Orders").
Proof.
  split; [discriminate|].
  apply (resolve_topic_first_exact_match
           (fresh (mkEmulator [] ["orders"; "Orders"; "x:y"])) "Orders"
           [mkPage (Some [mkTopic (Some (topic_arn_of "orders"))]);
            mkPage (Some [mkTopic (Some (topic_arn_of "Orders"))]);
            mkPage (Some [mkTopic (Some (topic_arn_of "x:y"))])]);
    [discriminate | reflexivity].
Defined.

(** Matching is exact and case-sensitive, and a request is answered from the
    first page that has a match. *)
Example resolve_is_case_sensitive :
  resolve_topic_arn_by_name (JStr "Orders")
    (fresh (mkEmulator [] ["orders"; "Orders"; "x:y"]))
  = (Return (Some "arn:aws:sns:us-east-1:000000000000:Orders"),
     mkWorld (mkEmulator [] ["orders"; "Orders"; "x:y"])
             [SnsListTopics 0; SnsListTopics 1])
  ∧ fst (resolve_topic_arn_by_name (JStr "ORDERS")
           (fresh (mkEmulator [] ["orders"; "Orders"; "x:y"])))
    = Return None.
Proof. split; reflexivity. Qed.

(* ===================================================================== *)
(** * Running the views *)
(* ===================================================================== *)

(** Open the monad: the helpers of [app/utils/aws.py] first, then the
    plumbing. *)
Ltac open_monad :=
  unfold resolve_queue_arn_by_name; unfold get_queue_url_by_name, int_of_str;
  unfold try_view, bind, lift, call, ret, raise.

Section ViewFacts.

Context {B : Type} `{!Backend B}.

Lemma has_arg_truthy req n v :
  has_arg req n v → arg_truthy (assoc_get (args req) n) = true.
Proof.
  intros [-> Hne]. simpl. apply negb_true_iff, String.eqb_neq, Hne.
Qed.

Lemma has_arg_value req n v :
  has_arg req n v → default "" (assoc_get (args req) n) = v.
Proof. intros [-> _]. reflexivity. Qed.

Lemma str_truthy s : s ≠ "" → truthy (JStr s) = true.
Proof. intros Hne. simpl. apply negb_true_iff, String.eqb_neq, Hne. Qed.

(** With every decorated parameter there, the decorator runs the view on
    their values. *)
Lemma require_query_params_pass names func req (w : World B) :
  missing_params names req = [] →
  require_query_params names func req w
  = func (λ n, default "" (assoc_get (args req) n)) req w.
Proof. intros H. unfold require_query_params. rewrite H. reflexivity. Qed.

Lemma missing_params_one req n v :
  has_arg req n v → missing_params [n] req = [].
Proof.
  intros H. unfold missing_params. simpl.
  rewrite (has_arg_truthy _ _ _ H). reflexivity.
Qed.

(** With one missing, the view is not run at all. *)
Lemma require_query_params_reject names func req (w : World B) :
  missing_params names req ≠ [] →
  require_query_params names func req w
  = (jsonify [("error",
               JStr ("Missing required query parameters: "
                     ++ join ", " (missing_params names req)))] 400, w).
Proof.
  intros H. unfold require_query_params.
  destruct (missing_params names req); [congruence | reflexivity].
Qed.

Lemma missing_params_In names req n :
  In n names → arg_truthy (assoc_get (args req) n) = false →
  In n (missing_params names req).
Proof.
  intros Hin Hfalse. unfold missing_params. apply List.filter_In.
  split; [exact Hin | rewrite Hfalse; reflexivity].
Qed.

Lemma object_body_json req members :
  object_body req members → get_json_silent req = JObj members.
Proof. unfold object_body, get_json_silent. intros ->. reflexivity. Qed.

End ViewFacts.

(* ===================================================================== *)
(** * Publishing to a topic that is not there *)
(* ===================================================================== *)

Section Publish.

Context {B : Type} `{!Backend B}.

Lemma first_with_none_of name ids r :
  Forall (λ arn, ¬ short_name_is arn name) ids →
  first_with_short_name name ids r → r = None.
Proof.
  intros Hall. destruct r as [arn|]; [|reflexivity].
  intros (before & after & -> & Harn & _).
  apply Forall_app in Hall as [_ Hall].
  inversion Hall as [|? ? Hno _]; subst. destruct (Hno Harn).
Qed.

Lemma listing_calls_are_listings index n :
  Forall (λ c, is_listing c = true) (map SnsListTopics (seq index n)).
Proof.
  apply List.Forall_forall. intros c Hc.
  apply List.in_map_iff in Hc as (i & <- & _). reflexivity.
Qed.

End Publish.

(** C3: a publish request that names a topic no listed identifier has as
    its short name is answered 404 "Topic not found"; the only calls made are
    the page requests of the listing (no [publish], no [create_topic]), and
    the backend state is the one it started from. *)
Theorem publish_unresolved_topic_is_404
    {B : Type} `{!Backend B} (w : World B) (req : Request)
    (name : string) (pages : list TopicsPage) :
  has_arg req "topic_name" name →
  topic_pages (state w) = map Return pages →
  Forall (λ arn, ¬ short_name_is arn name) (listed_arns pages) →
  publish_message req w
  = (topic_not_found name,
     mkWorld (state w)
       (trace w ++ map SnsListTopics (seq 0 (length pages))))
  ∧ status (topic_not_found name) = 404
  ∧ error_of (topic_not_found name) = Some "Topic not found"
  ∧ Forall (λ c, is_listing c = true)
      (map SnsListTopics (seq 0 (length pages))).
Proof.
  intros Hname Hpages Habsent.
  destruct (scan_pages_first name pages (proj2 Hname) 0%nat w)
    as (r & fetched & Hrun & Hfirst & _ & Hall).
  pose proof (first_with_none_of _ _ _ Habsent Hfirst) as ->.
  rewrite (Hall eq_refl) in Hrun. split_and!.
  - unfold publish_message.
    rewrite require_query_params_pass by (eapply missing_params_one, Hname).
    rewrite (has_arg_value _ _ _ Hname).
    unfold publish_message_view, try_view, bind, resolve_topic_arn_by_name.
    rewrite Hpages, Hrun. reflexivity.
  - reflexivity.
  - reflexivity.
  - apply listing_calls_are_listings.
Qed.

(** The scenario of the specification: [missing-topic] on an emulator that
    holds [orders] only. *)
Lemma publish_unresolved_topic_is_404_witness :
  has_arg (mkRequest [("topic_name", "missing-topic")]
                     (Some (JObj [("message", JStr "hi")])))
          "topic_name" "missing-topic"
  ∧ publish_message
      (mkRequest [("topic_name", "missing-topic")]
                 (Some (JObj [("message", JStr "hi")])))
      (fresh (mkEmulator [] ["orders"]))
    = (topic_not_found "missing-topic",
       mkWorld (mkEmulator [] ["orders"]) [SnsListTopics 0]).
Proof.
  split; [split; [reflexivity | discriminate]|].
  refine (proj1 (publish_unresolved_topic_is_404
                   (fresh (mkEmulator [] ["orders"])) _ "missing-topic"
                   [mkPage (Some [mkTopic (Some (topic_arn_of "orders"))])]
                   _ _ _)).
  - split; [reflexivity | discriminate].
  - reflexivity.
  - constructor; [|constructor].
    intros H. apply last_segment_short_name in H. discriminate H.
Defined.

(* ===================================================================== *)
(** * Validation of bodies and query parameters *)
(* ===================================================================== *)

Section BodyValidation.

(** On an object, the loop of [get_json_body] stops at the first required
    field that is absent, null or empty, and otherwise hands the object
    back as it came. *)
Lemma check_required_object members fields :
  check_required (JObj members) fields
  = match List.find (field_missing members) fields with
    | Some field =>
        Return (inl (jsonify
          [("error", JStr ("Missing required field in body: " ++ field))] 400))
    | None => Return (inr (JObj members))
    end.
Proof.
  induction fields as [|field rest IH]; [reflexivity|].
  simpl. unfold field_missing at 1.
  destruct (assoc_get members field) as [[| | |s| |]|]; simpl; try exact IH;
    try reflexivity.
  destruct (String.eqb s ""); [reflexivity | exact IH].
Qed.


End BodyValidation.




Section QueryValidation.

Context {B : Type} `{!Backend B}.

Lemma decorated_view (py_int : string → option Z) e req (w : World B) :
  missing_params (decorated_params e) req ≠ [] →
  view_of py_int e req w
  = (jsonify [("error",
               JStr ("Missing required query parameters: "
                     ++ join ", " (missing_params (decorated_params e) req)))]
       400, w).
Proof.
  destruct e; simpl; intros Hmissing;
    solve [ apply require_query_params_reject, Hmissing
          | destruct Hmissing; reflexivity ].
Qed.

End QueryValidation.

(** C6, as amended: on every route, all the parameters given to its
    [require_query_params] decorator that are missing or empty are named
    together in one 400, before the view runs.  Delete-one-message gives the
    decorator [queue_name] only and checks [receipt_handle] in the view: a
    request without [queue_name] is answered by naming [queue_name] alone,
    and one with it but without [receipt_handle] by naming
    [receipt_handle]. *)
Theorem missing_params_reported_together
    {B : Type} `{!Backend B} (py_int : string → option Z)
    (req : Request) (w : World B) :
  (∀ e,
     missing_params (decorated_params e) req ≠ [] →
     ∃ msg,
       view_of py_int e req w = (jsonify [("error", JStr msg)] 400, w)
       ∧ ∀ n, In n (decorated_params e) →
              arg_truthy (assoc_get (args req) n) = false →
              mentions msg n = true)
  ∧ (arg_truthy (assoc_get (args req) "queue_name") = false →
     delete_message req w
     = (jsonify [("error",
                  JStr "Missing required query parameters: queue_name")] 400,
        w))
  ∧ (∀ name,
       has_arg req "queue_name" name →
       arg_truthy (assoc_get (args req) "receipt_handle") = false →
       delete_message req w
       = (jsonify [("error",
                    JStr "Missing required query parameter: receipt_handle")]
            400, w)).
Proof.
  split_and!.
  - intros e Hmissing. eexists. split; [apply decorated_view, Hmissing|].
    intros n Hin Hfalse. apply mentions_join.
    apply missing_params_In; assumption.
  - intros Hq. unfold delete_message, require_query_params, missing_params.
    simpl. rewrite Hq. reflexivity.
  - intros name Hq Hhandle. unfold delete_message.
    rewrite require_query_params_pass by (eapply missing_params_one, Hq).
    unfold delete_message_view. open_monad. rewrite Hhandle. reflexivity.
Qed.

(** The example of the specification: get-one-item without
    [partition_key_name] and [partition_key_value]. *)
Lemma missing_params_reported_together_witness :
  missing_params (decorated_params GetDynamodbItem)
    (mkRequest [("table_name", "Users")] None) ≠ []
  ∧ ∃ msg,
      get_item (mkRequest [("table_name", "Users")] None)
        (fresh (mkEmulator [] []))
      = (jsonify [("error", JStr msg)] 400, fresh (mkEmulator [] []))
      ∧ mentions msg "partition_key_name" = true
      ∧ mentions msg "partition_key_value" = true.
Proof.
  split; [discriminate|].
  destruct (proj1 (missing_params_reported_together decimal_int
                     (mkRequest [("table_name", "Users")] None)
                     (fresh (mkEmulator [] []))) GetDynamodbItem)
    as (msg & Hrun & Hnames); [discriminate|].
  exists msg. split; [exact Hrun|].
  split; apply Hnames; simpl; auto.
Defined.

(** C6 as stated fails for delete-one-message: with both [queue_name] and
    [receipt_handle] missing, the one 400 names [queue_name] and does not
    mention [receipt_handle]. *)
Lemma delete_message_names_queue_name_only :
  delete_message (mkRequest [] None) (fresh (mkEmulator [] []))
  = (jsonify [("error", JStr "Missing required query parameters: queue_name")]
       400, fresh (mkEmulator [] []))
  ∧ mentions "Missing required query parameters: queue_name" "receipt_handle"
    = false.
Proof. split; reflexivity. Qed.

(* ===================================================================== *)
(** * Receiving messages: the clamps *)
(* ===================================================================== *)

Section Clamp.

(** [max(min(x, hi), lo)] is the clamp. *)
Lemma max_min_clamp lo hi x : lo <= hi → Z.max (Z.min x hi) lo = clamp lo hi x.
Proof.
  intros Hle. unfold clamp.
  destruct (Z.ltb_spec x lo), (Z.ltb_spec hi x); lia.
Qed.

Lemma clamp_range lo hi x : lo <= hi → lo <= clamp lo hi x <= hi.
Proof.
  intros Hle. unfold clamp.
  destruct (Z.ltb_spec x lo), (Z.ltb_spec hi x); lia.
Qed.

Lemma clamp_inside lo hi x : lo <= x <= hi → clamp lo hi x = x.
Proof.
  intros Hle. unfold clamp.
  destruct (Z.ltb_spec x lo), (Z.ltb_spec hi x); lia.
Qed.

(** What the view reads is what the request asks for, once [int] reads its
    own defaults. *)
Lemma requested_value_read py_int param literal dflt v :
  py_int literal = Some dflt →
  requested_value py_int param dflt = Some v →
  py_int (default literal param) = Some v.
Proof. destruct param; simpl; congruence. Qed.

End Clamp.

(** How [int] answers, by what the request asks for. *)
Lemma int_of_str_read py_int param literal dflt :
  py_int literal = Some dflt →
  int_of_str py_int (default literal param)
  = match requested_value py_int param dflt with
    | Some v => Return v
    | None => Raise (PyException (int_error_text (default literal param)))
    end.
Proof.
  intros Hdflt. unfold int_of_str.
  destruct param as [s|]; simpl; [|rewrite Hdflt; reflexivity].
  destruct (py_int s); reflexivity.
Qed.

(** C7, as amended: for the integers [int] reads off a receive request (1
    and 0 when it does not say), the backend is asked for the count clamped
    into [[1,10]] and the wait clamped into [[0,20]], whatever it answers,
    and nothing is raised on the way: with the queue there and the call
    served, the answer is 200 with the messages as [jsonify] writes them
    (500 only if it cannot write them).  A value [int] refuses, an integer of more than 4300 digits
    among them, is not clamped: the answer is 500 and no call is issued. *)
Theorem receive_clamps_what_int_reads
    {B : Type} `{!Backend B} (py_int : string → option Z)
    (w : World B) (req : Request) (name : string) :
  py_int "1" = Some 1 →
  py_int "0" = Some 0 →
  has_arg req "queue_name" name →
  let max_number := requested_value py_int (assoc_get (args req) "max_number") 1 in
  let wait_time :=
    requested_value py_int (assoc_get (args req) "wait_time_seconds") 0 in
  (∀ (m t : Z) (url : string) (b1 : B),
     max_number = Some m →
     wait_time = Some t →
     invoke (SqsGetQueueUrl (JStr name)) (state w) = (Return (Some url), b1) →
     trace (snd (receive_messages py_int req w))
     = (trace w ++ [SqsGetQueueUrl (JStr name);
                    SqsReceiveMessage url (clamp 1 10 m) (clamp 0 20 t)])%list
     ∧ (∀ (msgs : option (list pyval)) (b2 : B),
          invoke (SqsReceiveMessage url (clamp 1 10 m) (clamp 0 20 t)) b1
          = (Return msgs, b2) →
          receive_messages py_int req w
          = (match render (PList (default [] msgs)) with
             | Return rendered =>
                 jsonify [("queue_name", JStr name); ("messages", rendered)] 200
             | Raise e => error_response e
             end,
             mkWorld b2
               (trace w
                ++ [SqsGetQueueUrl (JStr name);
                    SqsReceiveMessage url (clamp 1 10 m) (clamp 0 20 t)])))
     ∧ 1 <= clamp 1 10 m <= 10
     ∧ 0 <= clamp 0 20 t <= 20
     ∧ (1 <= m <= 10 → clamp 1 10 m = m)
     ∧ (0 <= t <= 20 → clamp 0 20 t = t))
  ∧ (max_number = None ∨ wait_time = None →
     status (fst (receive_messages py_int req w)) = 500
     ∧ snd (receive_messages py_int req w) = w).
Proof.
  intros Hone Hzero Hq max_number wait_time.
  assert (Hview : receive_messages py_int req w
                  = receive_messages_view py_int name req w).
  { unfold receive_messages.
    rewrite require_query_params_pass by (eapply missing_params_one, Hq).
    rewrite (has_arg_value _ _ _ Hq). reflexivity. }
  rewrite Hview. unfold receive_messages_view, try_view, bind, lift.
  rewrite (int_of_str_read _ _ _ _ Hone), (int_of_str_read _ _ _ _ Hzero).
  fold max_number wait_time.
  split.
  - intros m t url b1 -> -> Hurl.
    rewrite !max_min_clamp by lia.
    unfold get_queue_url_by_name, bind, call, ret. rewrite Hurl. simpl.
    split; [|split; [|split_and!]].
    + destruct (invoke (SqsReceiveMessage url _ _) b1)
        as [[msgs|[message text|text]] b2]; simpl;
        rewrite <- ?List.app_assoc; try reflexivity.
      destruct (render _) as [rendered|[message text|text]]; reflexivity.
    + intros msgs b2 Hreceive.
      rewrite Hreceive. simpl. rewrite <- List.app_assoc. simpl.
      destruct (render _) as [rendered|[message text|text]]; reflexivity.
    + apply clamp_range. lia.
    + apply clamp_range. lia.
    + apply clamp_range. lia.
    + apply clamp_range. lia.
    + apply clamp_inside.
    + apply clamp_inside.
  - intros [-> | Hwait].
    + split; [reflexivity | destruct w; reflexivity].
    + rewrite Hwait. destruct max_number; split; try reflexivity;
        destruct w; reflexivity.
Qed.

(** The example of the specification, [max_number=500] served as 10 and
    [wait_time_seconds=-5] as 0; and a count of 4301 digits, refused. *)
Lemma receive_clamps_what_int_reads_witness :
  decimal_int "1" = Some 1
  ∧ decimal_int "0" = Some 0
  ∧ receive_messages decimal_int
      (mkRequest [("queue_name", "q1"); ("max_number", "500");
                  ("wait_time_seconds", "-5")] None)
      (fresh (mkEmulator ["q1"] []))
    = (jsonify [("queue_name", JStr "q1"); ("messages", JArr [])] 200,
       mkWorld (mkEmulator ["q1"] [])
         [SqsGetQueueUrl (JStr "q1");
          SqsReceiveMessage (queue_url_of "q1") 10 0])
  ∧ status (fst (receive_messages decimal_int
                   (mkRequest [("queue_name", "q1");
                               ("max_number", String "1" (zeros 4300))] None)
                   (fresh (mkEmulator ["q1"] []))))
    = 500.
Proof.
  split; [reflexivity|]. split; [reflexivity|]. split.
  - refine (proj1 (proj2 (proj1 (receive_clamps_what_int_reads decimal_int
                     (fresh (mkEmulator ["q1"] []))
                     (mkRequest [("queue_name", "q1"); ("max_number", "500");
                                 ("wait_time_seconds", "-5")] None)
                     "q1" _ _ _)
                   500 (-5) (queue_url_of "q1") (mkEmulator ["q1"] [])
                   _ _ _))
              None (mkEmulator ["q1"] []) _);
      try reflexivity.
    split; [reflexivity | discriminate].
  - refine (proj1 (proj2 (receive_clamps_what_int_reads decimal_int
                     (fresh (mkEmulator ["q1"] []))
                     (mkRequest [("queue_name", "q1");
                                 ("max_number", String "1" (zeros 4300))] None)
                     "q1" _ _ _) _));
      try reflexivity.
    + split; [reflexivity | discriminate].
    + left. vm_compute. reflexivity.
Defined.

(** An integer far out of range, [10 ** 4300]: [int] refuses its 4301
    digits, so the request is answered 500 and the backend is not called;
    one digit less and it is served, clamped to 10. *)
Theorem out_of_range_count_is_an_error :
  receive_messages decimal_int
    (mkRequest [("queue_name", "q1"); ("max_number", String "1" (zeros 4300))]
               None)
    (fresh (mkEmulator ["q1"] []))
  = (jsonify
       [("error",
         JStr "Exceeds the limit (4300 digits) for integer string conversion: value has 4301 digits; use sys.set_int_max_str_digits() to increase the limit")]
       500,
     fresh (mkEmulator ["q1"] []))
  ∧ receive_messages decimal_int
      (mkRequest [("queue_name", "q1"); ("max_number", String "1" (zeros 4299))]
                 None)
      (fresh (mkEmulator ["q1"] []))
    = (jsonify [("queue_name", JStr "q1"); ("messages", JArr [])] 200,
       mkWorld (mkEmulator ["q1"] [])
         [SqsGetQueueUrl (JStr "q1");
          SqsReceiveMessage (queue_url_of "q1") 10 0]).
Proof. split; vm_compute; reflexivity. Qed.

(* ===================================================================== *)
(** * Reading one item: the lookup key *)
(* ===================================================================== *)

Section ItemKey.

Context {B : Type} `{!Backend B}.

Lemma missing_params_item req table pk pv :
  has_arg req "table_name" table →
  has_arg req "partition_key_name" pk →
  has_arg req "partition_key_value" pv →
  missing_params ["table_name"; "partition_key_name"; "partition_key_value"] req
  = [].
Proof.
  intros Ht Hk Hv. unfold missing_params. simpl.
  rewrite (has_arg_truthy _ _ _ Ht), (has_arg_truthy _ _ _ Hk),
          (has_arg_truthy _ _ _ Hv). reflexivity.
Qed.

(** The view issues exactly one call, the lookup under its key, and
    answers 200, 404 or 500. *)
Lemma get_item_view_run table pk pv req (w : World B) :
  trace (snd (get_item_view table pk pv req w))
  = (trace w ++ [DdbGetItem table
                   (item_key pk pv (assoc_get (args req) "sort_key_name")
                                   (assoc_get (args req) "sort_key_value"))])%list
  ∧ status (fst (get_item_view table pk pv req w)) ≠ 400.
Proof.
  unfold get_item_view. open_monad.
  destruct (invoke _ (state w)) as [[[[|member item]|]|[message text|text]] b];
    simpl; try (split; [reflexivity | discriminate]).
  destruct (render _) as [rendered|[message text|text]]; simpl;
    (split; [reflexivity | discriminate]).
Qed.

(** The view reads the request only through its two sort-key parameters. *)
Lemma get_item_view_same_key table pk pv req req' (w : World B) :
  item_key pk pv (assoc_get (args req) "sort_key_name")
                 (assoc_get (args req) "sort_key_value")
  = item_key pk pv (assoc_get (args req') "sort_key_name")
                   (assoc_get (args req') "sort_key_value") →
  get_item_view table pk pv req w = get_item_view table pk pv req' w.
Proof. intros Hkey. unfold get_item_view. rewrite Hkey. reflexivity. Qed.

End ItemKey.

(** C9: get-one-item looks the item up under the partition key plus the
    sort key when [sort_key_name] and [sort_key_value] are both present and
    not empty, and under the partition key alone otherwise; a request with
    only one of the two is served exactly as the same request with neither,
    and is never answered 400. *)
Theorem get_item_sort_key_needs_both
    {B : Type} `{!Backend B} (w : World B) (req : Request)
    (table pk pv : string) :
  has_arg req "table_name" table →
  has_arg req "partition_key_name" pk →
  has_arg req "partition_key_value" pv →
  let sort_key_name := assoc_get (args req) "sort_key_name" in
  let sort_key_value := assoc_get (args req) "sort_key_value" in
  let both := arg_truthy sort_key_name && arg_truthy sort_key_value in
  let partition_only : gmap string string := {[ pk := pv ]} in
  trace (snd (get_item req w))
  = (trace w
     ++ [DdbGetItem table
           (if both
            then <[ default "" sort_key_name := default "" sort_key_value ]>
                   partition_only
            else partition_only)])%list
  ∧ (both = false →
     get_item req w
     = get_item (mkRequest [("table_name", table);
                            ("partition_key_name", pk);
                            ("partition_key_value", pv)] (body req)) w)
  ∧ status (fst (get_item req w)) ≠ 400.
Proof.
  intros Ht Hk Hv sort_key_name sort_key_value both partition_only.
  unfold get_item.
  rewrite require_query_params_pass
    by (eapply missing_params_item; eassumption).
  rewrite (has_arg_value _ _ _ Ht), (has_arg_value _ _ _ Hk),
          (has_arg_value _ _ _ Hv).
  destruct (get_item_view_run table pk pv req w) as [Htrace Hstatus].
  split; [exact Htrace|]. split; [|exact Hstatus].
  intros Hboth.
  destruct Ht as [_ Ht], Hk as [_ Hk], Hv as [_ Hv].
  rewrite require_query_params_pass.
  - simpl. apply get_item_view_same_key. unfold item_key.
    fold sort_key_name sort_key_value both. rewrite Hboth. reflexivity.
  - unfold missing_params. simpl.
    apply String.eqb_neq in Ht, Hk, Hv. rewrite Ht, Hk, Hv. reflexivity.
Qed.

(** [sort_key_name] without [sort_key_value]: the lookup is by [id]
    alone. *)
Lemma get_item_sort_key_needs_both_witness :
  has_arg (mkRequest [("table_name", "Users"); ("partition_key_name", "id");
                      ("partition_key_value", "42"); ("sort_key_name", "at")]
                     None) "table_name" "Users"
  ∧ trace (snd (get_item
                  (mkRequest [("table_name", "Users");
                              ("partition_key_name", "id");
                              ("partition_key_value", "42");
                              ("sort_key_name", "at")] None)
                  (fresh (mkEmulator [] []))))
    = [DdbGetItem "Users" {[ "id" := "42" ]}].
Proof.
  split; [split; [reflexivity | discriminate]|].
  refine (proj1 (get_item_sort_key_needs_both (fresh (mkEmulator [] []))
                   (mkRequest [("table_name", "Users");
                               ("partition_key_name", "id");
                               ("partition_key_value", "42");
                               ("sort_key_name", "at")] None)
                   "Users" "id" "42" _ _ _));
    (split; [reflexivity | discriminate]).
Defined.

(** With both, the sort key joins the key. *)
Example get_item_with_sort_key :
  trace (snd (get_item
                (mkRequest [("table_name", "Users");
                            ("partition_key_name", "id");
                            ("partition_key_value", "42");
                            ("sort_key_name", "at");
                            ("sort_key_value", "7")] None)
                (fresh (mkEmulator [] []))))
  = [DdbGetItem "Users" (<[ "at" := "7" ]> {[ "id" := "42" ]})].
Proof. reflexivity. Qed.

(* ===================================================================== *)
(** * Rules for the trace of a run *)
(* ===================================================================== *)

Section DisciplineRules.

Context {B : Type} `{!Backend B}.
Variable allowed : Call → bool.

#[local] Abbreviation extends_by := (extends_by (B := B) allowed).
#[local] Abbreviation steps := (steps (B := B) allowed).
#[local] Abbreviation safe400 := (safe400 (B := B) allowed).
#[local] Abbreviation never400 := (never400 (B := B)).

Lemma extends_by_refl (w : World B) : extends_by w w.
Proof.
  exists []. rewrite List.app_nil_r. split_and!; reflexivity.
Qed.

Lemma extends_by_trans (w1 w2 w3 : World B) :
  extends_by w1 w2 → extends_by w2 w3 → extends_by w1 w3.
Proof.
  intros (a1 & Ht1 & Ha1 & Hs1) (a2 & Ht2 & Ha2 & Hs2).
  exists (a1 ++ a2)%list. split_and!.
  - rewrite Ht2, Ht1, List.app_assoc. reflexivity.
  - rewrite forallb_app, Ha1, Ha2. reflexivity.
  - rewrite forallb_app. intros [H1 H2]%andb_true_iff.
    rewrite (Hs2 H2). exact (Hs1 H1).
Qed.

Lemma extends_by_call c b (w : World B) :
  allowed c = true → is_listing c = false →
  extends_by w (mkWorld b (trace w ++ [c])).
Proof.
  intros Hc Hl. exists [c]. simpl. rewrite Hc, Hl.
  split_and!; [reflexivity | reflexivity | discriminate].
Qed.

Lemma steps_ret {A : Type} (a : A) : steps (ret a).
Proof. intros w o w' [= _ <-]. apply extends_by_refl. Qed.

Lemma steps_lift {A : Type} (o : outcome A) : steps (lift o).
Proof. intros w o' w' [= _ <-]. apply extends_by_refl. Qed.

Lemma steps_raise {A : Type} (e : exn) : steps (raise (A := A) e).
Proof. intros w o w' [= _ <-]. apply extends_by_refl. Qed.

Lemma steps_call c :
  allowed c = true → is_listing c = false → steps (call c).
Proof.
  intros Hc Hl w o w'. unfold call.
  destruct (invoke c (state w)) as [o' b]. intros [= _ <-].
  apply extends_by_call; assumption.
Qed.

Lemma steps_bind {A C : Type} (m : M A) (k : A → M C) :
  steps m → (∀ a, steps (k a)) → steps (bind m k).
Proof.
  intros Hm Hk w o w'. unfold bind.
  destruct (m w) as [[a|e] w1] eqn:Hrun.
  - intros Hrun'.
    eapply extends_by_trans; [eapply Hm, Hrun | eapply Hk, Hrun'].
  - intros [= _ <-]. eapply Hm, Hrun.
Qed.

(** A step that only hands a value on. *)
Lemma steps_bind_pure {A C : Type} (a : A) (k : A → M C) :
  steps (k a) → steps (bind (lift (Return a)) k).
Proof. intros Hk w o w' Hrun. exact (Hk w o w' Hrun). Qed.

(** [try_view] turns what was raised into a response and issues nothing. *)
Lemma try_view_steps (m : M Response) (w : World B) :
  steps m → extends_by w (snd (try_view m w)).
Proof.
  intros Hm. unfold try_view.
  destruct (m w) as [[r|[message text|text]] w'] eqn:Hrun; simpl;
    eapply Hm, Hrun.
Qed.

Lemma safe400_ret r : safe400 (ret r).
Proof. intros w r' w' [= <- <-] _. apply extends_by_refl. Qed.

Lemma safe400_raise e : safe400 (raise e).
Proof. intros w r' w' [= ]. Qed.

Lemma safe400_bind {A : Type} (m : M A) (k : A → M Response) :
  steps m → (∀ a, safe400 (k a)) → safe400 (bind m k).
Proof.
  intros Hm Hk w r w'. unfold bind.
  destruct (m w) as [[a|e] w1] eqn:Hrun; [|discriminate].
  intros Hrun' Hstatus.
  eapply extends_by_trans; [eapply Hm, Hrun | eapply Hk; eassumption].
Qed.

Lemma safe400_never (m : M Response) : never400 m → safe400 m.
Proof. intros Hm w r w' Hrun Hstatus. destruct (Hm w r w' Hrun Hstatus). Qed.

Lemma never400_ret (r : Response) : status r ≠ 400 → never400 (ret r).
Proof. intros Hr w r' w' [= <- <-]. exact Hr. Qed.

Lemma never400_raise e : never400 (raise e).
Proof. intros w r' w' [= ]. Qed.

Lemma never400_bind {A : Type} (m : M A) (k : A → M Response) :
  (∀ a, never400 (k a)) → never400 (bind m k).
Proof.
  intros Hk w r w'. unfold bind.
  destruct (m w) as [[a|e] w1]; [|discriminate]. apply Hk.
Qed.

(** What [try_view] answers with 400 is what its body returned. *)
Lemma try_view_400 (m : M Response) (w : World B) :
  safe400 m →
  status (fst (try_view m w)) = 400 → extends_by w (snd (try_view m w)).
Proof.
  intros Hm. unfold try_view.
  destruct (m w) as [[r|[message text|text]] w'] eqn:Hrun; simpl;
    [|discriminate|discriminate].
  intros Hstatus. exact (Hm w r w' Hrun Hstatus).
Qed.

(** The resolver issues page requests only, whatever the pages hold. *)
Lemma steps_scan_pages pages :
  (∀ i, allowed (SnsListTopics i) = true) →
  ∀ index topic_name, steps (scan_pages pages index topic_name).
Proof.
  intros Hlisting. induction pages as [|next rest IH]; intros index topic_name.
  - apply steps_ret.
  - simpl. apply steps_bind.
    + intros w page w'. unfold fetch_page. intros [= _ <-].
      exists [SnsListTopics index]. simpl. rewrite Hlisting.
      split_and!; reflexivity.
    + intros page. destruct (scan_topics _ _); [apply steps_ret | apply IH].
Qed.

Lemma steps_resolve_topic topic_name :
  (∀ i, allowed (SnsListTopics i) = true) →
  steps (resolve_topic_arn_by_name topic_name).
Proof.
  intros Hlisting w r w'. unfold resolve_topic_arn_by_name.
  apply steps_scan_pages, Hlisting.
Qed.

Lemma steps_resolve_queue queue_name :
  allowed (SqsGetQueueUrl queue_name) = true →
  (∀ url, allowed (SqsGetQueueAttributes url) = true) →
  steps (resolve_queue_arn_by_name queue_name).
Proof.
  intros Hurl Hattributes.
  unfold resolve_queue_arn_by_name, get_queue_url_by_name.
  apply steps_bind.
  - apply steps_bind; [apply steps_call; [exact Hurl | reflexivity]|].
    intros [url|]; [apply steps_ret | apply steps_raise].
  - intros url. apply steps_bind;
      [apply steps_call; [apply Hattributes | reflexivity]|].
    intros [attributes|]; [|apply steps_raise].
    destruct (assoc_get attributes "QueueArn");
      [apply steps_ret | apply steps_raise].
Qed.

End DisciplineRules.

(** With nothing allowed, nothing was issued. *)
Lemma extends_by_nothing {B : Type} `{!Backend B} (w w' : World B) :
  extends_by (λ _, false) w w' → w' = w.
Proof.
  intros ([|c added] & Htrace & Hallowed & Hstate); [|discriminate].
  rewrite List.app_nil_r in Htrace. specialize (Hstate eq_refl).
  destruct w, w'. simpl in *. congruence.
Qed.

(* ===================================================================== *)
(** * Validation and the backend: what precedes a 400 *)
(* ===================================================================== *)

Ltac steps_rule :=
  repeat first
    [ apply steps_ret
    | apply steps_lift
    | apply steps_raise
    | apply steps_resolve_topic; intros ?; reflexivity
    | apply steps_resolve_queue; [reflexivity | intros ?; reflexivity]
    | match goal with
      | |- steps _ (call ?c) => apply (steps_call _ c); reflexivity
      end
    | apply steps_bind; [|intros ?]
    | match goal with
      | |- steps _ (if ?b then _ else _) => destruct b
      | |- steps _ (match ?x with _ => _ end) => destruct x
      end
    | progress cbv zeta ].

Ltac never_rule :=
  repeat first
    [ apply never400_ret; simpl; discriminate
    | apply never400_raise
    | apply never400_bind; intros ?
    | match goal with
      | |- never400 (if ?b then _ else _) => destruct b
      | |- never400 (match ?x with _ => _ end) => destruct x
      end
    | progress cbv zeta ].

Ltac safe_rule :=
  repeat first
    [ apply safe400_ret
    | apply safe400_raise
    | apply safe400_bind; [solve [steps_rule] | intros ?]
    | match goal with
      | |- safe400 _ (if ?b then _ else _) => destruct b
      | |- safe400 _ (match ?x with _ => _ end) => destruct x
      end
    | progress cbv zeta
    | apply safe400_never; solve [never_rule] ].

Section Order.

Context {B : Type} `{!Backend B}.
Variable py_int : string → option Z.

#[local] Abbreviation nothing := (λ _ : Call, false).

(** The views that resolve no name: a 400 comes before every call. *)
Lemma send_message_view_400 name req (w : World B) :
  status (fst (send_message_view py_int name req w)) = 400 →
  extends_by nothing w (snd (send_message_view py_int name req w)).
Proof. apply try_view_400. safe_rule. Qed.

Lemma receive_messages_view_400 name req (w : World B) :
  status (fst (receive_messages_view py_int name req w)) = 400 →
  extends_by nothing w (snd (receive_messages_view py_int name req w)).
Proof. apply try_view_400. safe_rule. Qed.

Lemma list_queues_400 req (w : World B) :
  status (fst (list_queues req w)) = 400 →
  extends_by nothing w (snd (list_queues req w)).
Proof. apply try_view_400. safe_rule. Qed.

Lemma delete_message_view_400 name req (w : World B) :
  status (fst (delete_message_view name req w)) = 400 →
  extends_by nothing w (snd (delete_message_view name req w)).
Proof. apply try_view_400. safe_rule. Qed.

Lemma purge_queue_view_400 name req (w : World B) :
  status (fst (purge_queue_view name req w)) = 400 →
  extends_by nothing w (snd (purge_queue_view name req w)).
Proof. apply try_view_400. safe_rule. Qed.

Lemma get_all_items_view_400 table req (w : World B) :
  status (fst (get_all_items_view table req w)) = 400 →
  extends_by nothing w (snd (get_all_items_view table req w)).
Proof. apply try_view_400. safe_rule. Qed.

Lemma get_item_view_400 table pk pv req (w : World B) :
  status (fst (get_item_view table pk pv req w)) = 400 →
  extends_by nothing w (snd (get_item_view table pk pv req w)).
Proof. apply try_view_400. safe_rule. Qed.

Lemma create_topic_400 req (w : World B) :
  status (fst (create_topic req w)) = 400 →
  extends_by nothing w (snd (create_topic req w)).
Proof. apply try_view_400. safe_rule. Qed.

Lemma list_topics_400 req (w : World B) :
  status (fst (list_topics req w)) = 400 →
  extends_by nothing w (snd (list_topics req w)).
Proof. apply try_view_400. safe_rule. Qed.

(** Publish resolves the topic first: page requests may precede its 400. *)
Lemma publish_message_view_400 name req (w : World B) :
  status (fst (publish_message_view name req w)) = 400 →
  extends_by is_listing w (snd (publish_message_view name req w)).
Proof. apply try_view_400. safe_rule. Qed.

(** Create-subscription resolves the topic, and the queue, before it is
    done checking the body: lookups may precede its 400. *)
Lemma create_subscription_400 req (w : World B) :
  status (fst (create_subscription req w)) = 400 →
  extends_by is_lookup w (snd (create_subscription req w)).
Proof. apply try_view_400. safe_rule. Qed.

End Order.

Section Decorated.

Context {B : Type} `{!Backend B}.

(** The decorator adds no call of its own. *)
Lemma require_query_params_400 allowed names func req (w : World B) :
  (∀ kwargs, status (fst (func kwargs req w)) = 400 →
             extends_by allowed w (snd (func kwargs req w))) →
  status (fst (require_query_params names func req w)) = 400 →
  extends_by allowed w (snd (require_query_params names func req w)).
Proof.
  intros Hfunc. unfold require_query_params.
  destruct (missing_params names req); [apply Hfunc|].
  intros _. apply extends_by_refl.
Qed.

Lemma extends_by_weaken (allowed allowed' : Call → bool) (w w' : World B) :
  (∀ c, allowed c = true → allowed' c = true) →
  extends_by allowed w w' → extends_by allowed' w w'.
Proof.
  intros Himp (added & Htrace & Hallowed & Hstate).
  exists added. split_and!; [exact Htrace | | exact Hstate].
  apply forallb_forall. intros c Hc. apply Himp.
  exact (proj1 (forallb_forall _ _) Hallowed c Hc).
Qed.

(** Route by route. *)
Lemma view_400 py_int e req (w : World B) :
  status (fst (view_of py_int e req w)) = 400 →
  extends_by (if resolves_first e
              then (if e is PostSnsPublish then is_listing else is_lookup)
              else λ _, false)
    w (snd (view_of py_int e req w)).
Proof.
  destruct e; simpl;
    try (apply require_query_params_400; intros kwargs).
  - apply send_message_view_400.
  - apply receive_messages_view_400.
  - apply list_queues_400.
  - apply delete_message_view_400.
  - apply purge_queue_view_400.
  - apply get_all_items_view_400.
  - apply get_item_view_400.
  - apply create_topic_400.
  - apply publish_message_view_400.
  - apply list_topics_400.
  - apply create_subscription_400.
Qed.

End Decorated.

(** C2, as amended: on every route, a missing or empty decorated query
    parameter is answered 400 with the world untouched; and whenever a route
    answers 400, no call has been issued at all, except on publish, where
    only page requests of the topic listing can have been (the body is
    checked after the topic is resolved), and on create-subscription, where
    only name lookups can have been.  No 400 follows a call that sends,
    publishes, subscribes, creates, deletes or purges. *)
Theorem validation_precedes_mutation
    {B : Type} `{!Backend B} (py_int : string → option Z)
    (e : Endpoint) (req : Request) (w : World B) :
  (missing_params (decorated_params e) req ≠ [] →
   status (fst (view_of py_int e req w)) = 400
   ∧ snd (view_of py_int e req w) = w)
  ∧ (status (fst (view_of py_int e req w)) = 400 →
     extends_by is_lookup w (snd (view_of py_int e req w))
     ∧ (resolves_first e = false → snd (view_of py_int e req w) = w)
     ∧ (e = PostSnsPublish →
        extends_by is_listing w (snd (view_of py_int e req w)))).
Proof.
  split.
  - intros Hmissing. rewrite (decorated_view py_int e req w Hmissing).
    split; reflexivity.
  - intros Hstatus. pose proof (view_400 py_int e req w Hstatus) as Hrun.
    split_and!.
    + eapply extends_by_weaken; [|exact Hrun].
      intros c. destruct (resolves_first e); [|discriminate].
      destruct e; try exact id. destruct c; simpl; congruence.
    + intros Hplain. rewrite Hplain in Hrun. apply extends_by_nothing, Hrun.
    + intros ->. exact Hrun.
Qed.

(** A send without a body to a queue that exists: 400, and the world is
    the one it started from. *)
Lemma validation_precedes_mutation_witness :
  status (fst (view_of decimal_int PostSqsSend
                 (mkRequest [("queue_name", "q1")] None)
                 (fresh (mkEmulator ["q1"] [])))) = 400
  ∧ snd (view_of decimal_int PostSqsSend
           (mkRequest [("queue_name", "q1")] None)
           (fresh (mkEmulator ["q1"] [])))
    = fresh (mkEmulator ["q1"] []).
Proof.
  split; [reflexivity|].
  destruct (proj2 (validation_precedes_mutation decimal_int PostSqsSend
                     (mkRequest [("queue_name", "q1")] None)
                     (fresh (mkEmulator ["q1"] []))) eq_refl)
    as (_ & Hplain & _).
  exact (Hplain eq_refl).
Defined.

(** C2 as stated fails on publish: without a body, and with a topic that
    exists, the 400 comes after a page of the topic listing was requested. *)
Lemma publish_lists_topics_before_400 :
  publish_message (mkRequest [("topic_name", "orders")] None)
    (fresh (mkEmulator [] ["orders"]))
  = (jsonify [("error", JStr "Invalid or missing JSON body")] 400,
     mkWorld (mkEmulator [] ["orders"]) [SnsListTopics 0])
  ∧ trace (snd (publish_message (mkRequest [("topic_name", "orders")] None)
                  (fresh (mkEmulator [] ["orders"])))) ≠ [].
Proof. split; [reflexivity | discriminate]. Qed.

(* ===================================================================== *)
(** * Creating a topic twice *)
(* ===================================================================== *)

Section CreateTopic.

Context {B : Type} `{!Backend B}.

(** A 201 of create-topic comes from one successful [create_topic] call
    on the [name] of an object body. *)
Lemma create_topic_201 req (w : World B) r w' :
  create_topic req w = (r, w') → status r = 201 →
  ∃ members name arn b,
    object_body req members
    ∧ get_json_body req ["name"] = Return (inr (JObj members))
    ∧ py_getitem (JObj members) "name" = Return name
    ∧ invoke (SnsCreateTopic name) (state w) = (Return arn, b)
    ∧ r = jsonify [("name", name); ("topic_arn", json_of_opt arn)] 201
    ∧ w' = mkWorld b (trace w ++ [SnsCreateTopic name]).
Proof.
  unfold create_topic, object_body. open_monad.
  destruct (get_json_body req ["name"]) as [[error|data]|[message text|text]]
    eqn:Hbody; simpl.
  - unfold get_json_body in Hbody.
    destruct (is_none (get_json_silent req)); [injection Hbody as <-|];
      [intros [= <- _]; discriminate|].
    simpl in Hbody. destruct (py_get _ _) as [value|]; [|discriminate].
    destruct (is_none value || is_empty_str value); [|discriminate].
    injection Hbody as <-. intros [= <- _]. discriminate.
  - assert (∃ members, body req = Some (JObj members) ∧ data = JObj members)
      as (members & Hreq & ->).
    { unfold get_json_body, get_json_silent in Hbody.
      destruct (body req) as [[| | | | |members]|]; simpl in Hbody;
        try discriminate.
      exists members. split; [reflexivity|].
      destruct (is_none _ || is_empty_str _); [discriminate|].
      injection Hbody as <-. reflexivity. }
    destruct (py_getitem (JObj members) "name") as [name|[message text|text]]
      eqn:Hname; simpl; try (intros [= <- _]; discriminate).
    destruct (invoke (SnsCreateTopic name) (state w))
      as [[arn|[message text|text]] b] eqn:Hcall; simpl;
      try (intros [= <- _]; discriminate).
    intros [= <- <-] _. exists members, name, arn, b.
    split_and!; reflexivity || assumption.
  - intros [= <- _]. discriminate.
  - intros [= <- _]. discriminate.
Qed.

End CreateTopic.

(** C8: over a backend whose [create_topic] is idempotent, a create-topic
    request that was answered 201 is, when repeated, answered with the same
    201 and the same address, and the repeat leaves the backend state as it
    found it. *)
Theorem create_topic_twice
    {B : Type} `{!Backend B} (req : Request) (w w1 : World B) (r : Response) :
  idempotent_create_topic B →
  create_topic req w = (r, w1) →
  status r = 201 →
  ∃ w2,
    create_topic req w1 = (r, w2)
    ∧ state w2 = state w1
    ∧ ∃ name arn, r = jsonify [("name", name); ("topic_arn", arn)] 201.
Proof.
  intros Hidem Hrun Hstatus.
  destruct (create_topic_201 req w r w1 Hrun Hstatus)
    as (members & name & arn & b & _ & Hbody & Hname & Hcall & -> & ->).
  exists (mkWorld b ((trace w ++ [SnsCreateTopic name]) ++ [SnsCreateTopic name])).
  split_and!; [|reflexivity|eauto].
  unfold create_topic. open_monad. rewrite Hbody, Hname. simpl.
  rewrite (Hidem name (state w) b arn Hcall). reflexivity.
Qed.

Lemma has_name_app names n : has_name (names ++ [n]) n = true.
Proof.
  unfold has_name. rewrite existsb_app. simpl.
  rewrite String.eqb_refl. apply orb_true_iff. right. reflexivity.
Qed.

Lemma emulator_create_topic_idempotent : idempotent_create_topic Emulator.
Proof.
  intros name b b1 arn. simpl.
  destruct name as [| | |n| |]; try discriminate.
  destruct (has_name (emu_topics b) n) eqn:Hhas; intros [= <- <-].
  - rewrite Hhas. reflexivity.
  - simpl. rewrite has_name_app. reflexivity.
Qed.

(** The scenario of the specification, twice: [orders] is created by the
    first request and is still the only topic after the second. *)
Lemma create_topic_twice_witness :
  create_topic (mkRequest [] (Some (JObj [("name", JStr "orders")])))
    (fresh (mkEmulator [] []))
  = (jsonify [("name", JStr "orders");
              ("topic_arn", JStr (topic_arn_of "orders"))] 201,
     mkWorld (mkEmulator [] ["orders"]) [SnsCreateTopic (JStr "orders")])
  ∧ ∃ w2,
      create_topic (mkRequest [] (Some (JObj [("name", JStr "orders")])))
        (mkWorld (mkEmulator [] ["orders"]) [SnsCreateTopic (JStr "orders")])
      = (jsonify [("name", JStr "orders");
                  ("topic_arn", JStr (topic_arn_of "orders"))] 201, w2)
      ∧ state w2 = mkEmulator [] ["orders"].
Proof.
  split; [reflexivity|].
  destruct (create_topic_twice
              (mkRequest [] (Some (JObj [("name", JStr "orders")])))
              (fresh (mkEmulator [] []))
              (mkWorld (mkEmulator [] ["orders"])
                       [SnsCreateTopic (JStr "orders")])
              (jsonify [("name", JStr "orders");
                        ("topic_arn", JStr (topic_arn_of "orders"))] 201)
              emulator_create_topic_idempotent eq_refl eq_refl)
    as (w2 & Hrun & Hstate & _).
  exists w2. split; [exact Hrun | exact Hstate].
Defined.

(* ===================================================================== *)
(** * Subscribing: addresses before names *)
(* ===================================================================== *)

Section Subscription.

Context {B : Type} `{!Backend B}.

Lemma is_str_truthy v s : s ≠ "" → is_str v s = true → truthy v = true.
Proof.
  intros Hne. destruct v as [| | |s'| |]; try discriminate.
  simpl. intros ->%String.eqb_eq. apply negb_true_iff, String.eqb_neq, Hne.
Qed.

(** What the view does with the members it reads, once the body is known to
    be an object: the reads of [data.get] are the [member]s. *)
Lemma create_subscription_object req members (w : World B) :
  object_body req members →
  create_subscription req w
  = create_subscription (mkRequest [] (Some (JObj members))) w.
Proof.
  intros Hbody. unfold create_subscription, get_json_body.
  rewrite (object_body_json _ _ Hbody). reflexivity.
Qed.

(** With a topic address in the body, the view never reads a page of the
    topic listing, and does not depend on [topic_name]. *)
Lemma create_subscription_given_topic members members' (w : World B) :
  truthy (member members "topic_arn") = true →
  (∀ k, k ≠ "topic_name" → member members' k = member members k) →
  create_subscription (mkRequest [] (Some (JObj members'))) w
  = create_subscription (mkRequest [] (Some (JObj members))) w.
Proof.
  intros Harn Hsame.
  unfold create_subscription, get_json_body. open_monad. simpl.
  fold (member members "topic_arn") (member members' "topic_arn")
       (member members "type") (member members' "type")
       (member members "queue_arn") (member members' "queue_arn")
       (member members "queue_name") (member members' "queue_name")
       (member members "lambda_arn") (member members' "lambda_arn")
       (member members "topic_name") (member members' "topic_name").
  rewrite !(Hsame "topic_arn"), !(Hsame "type"), !(Hsame "queue_arn"),
          !(Hsame "queue_name"), !(Hsame "lambda_arn") by discriminate.
  rewrite Harn. reflexivity.
Qed.

Lemma create_subscription_no_listing members (w : World B) :
  truthy (member members "topic_arn") = true →
  extends_by (λ c, negb (is_listing c)) w
    (snd (create_subscription (mkRequest [] (Some (JObj members))) w)).
Proof.
  intros Harn. unfold create_subscription. apply try_view_steps.
  unfold get_json_body. simpl.
  do 4 (apply steps_bind_pure; simpl).
  fold (member members "topic_arn") (member members "type")
       (member members "topic_name").
  destruct (negb (truthy (member members "type")) || _); [apply steps_ret|].
  rewrite Harn. simpl. apply (steps_bind_pure _ (member members "topic_arn")).
  rewrite Harn. simpl. steps_rule.
Qed.

(** With a queue address as well, for type [sqs], the one call is
    [subscribe], and [queue_name] is not read either. *)
Lemma create_subscription_given_both members members' (w : World B) :
  is_str (member members "type") "sqs" = true →
  truthy (member members "topic_arn") = true →
  truthy (member members "queue_arn") = true →
  (∀ k, k ≠ "topic_name" → k ≠ "queue_name" →
        member members' k = member members k) →
  create_subscription (mkRequest [] (Some (JObj members'))) w
  = create_subscription (mkRequest [] (Some (JObj members))) w
  ∧ trace (snd (create_subscription (mkRequest [] (Some (JObj members))) w))
    = (trace w ++ [SnsSubscribe (member members "topic_arn") "sqs"
                     (member members "queue_arn") true])%list.
Proof.
  intros Htype Harn Hqueue Hsame.
  pose proof (is_str_truthy _ "sqs" ltac:(discriminate) Htype) as Htruthy.
  unfold create_subscription, get_json_body. open_monad. simpl.
  fold (member members "topic_arn") (member members' "topic_arn")
       (member members "type") (member members' "type")
       (member members "queue_arn") (member members' "queue_arn")
       (member members "queue_name") (member members' "queue_name")
       (member members "lambda_arn") (member members' "lambda_arn")
       (member members "topic_name") (member members' "topic_name").
  rewrite !(Hsame "topic_arn"), !(Hsame "type"), !(Hsame "queue_arn"),
          !(Hsame "lambda_arn") by discriminate.
  rewrite Htruthy, Htype, Harn. simpl. rewrite Harn. simpl.
  rewrite Hqueue. simpl. rewrite Hqueue. simpl.
  split; [reflexivity|].
  destruct (invoke _ (state w)) as [[arn|[message text|text]] b]; reflexivity.
Qed.

(** With a queue address in a body of type [sqs], however the topic is
    given, the view does not depend on [queue_name]. *)
Lemma create_subscription_given_queue members members' (w : World B) :
  is_str (member members "type") "sqs" = true →
  truthy (member members "queue_arn") = true →
  (∀ k, k ≠ "queue_name" → member members' k = member members k) →
  create_subscription (mkRequest [] (Some (JObj members'))) w
  = create_subscription (mkRequest [] (Some (JObj members))) w.
Proof.
  intros Htype Hqueue Hsame.
  unfold create_subscription, get_json_body. open_monad. simpl.
  fold (member members "topic_arn") (member members' "topic_arn")
       (member members "type") (member members' "type")
       (member members "queue_arn") (member members' "queue_arn")
       (member members "queue_name") (member members' "queue_name")
       (member members "lambda_arn") (member members' "lambda_arn")
       (member members "topic_name") (member members' "topic_name").
  rewrite !(Hsame "topic_arn"), !(Hsame "type"), !(Hsame "queue_arn"),
          !(Hsame "topic_name"), !(Hsame "lambda_arn") by discriminate.
  rewrite Htype, Hqueue. reflexivity.
Qed.

(** And it looks no queue up. *)
Lemma create_subscription_no_queue_lookup members (w : World B) :
  is_str (member members "type") "sqs" = true →
  truthy (member members "queue_arn") = true →
  extends_by (λ c, negb (is_queue_lookup c)) w
    (snd (create_subscription (mkRequest [] (Some (JObj members))) w)).
Proof.
  intros Htype Hqueue. unfold create_subscription. apply try_view_steps.
  unfold get_json_body. simpl.
  do 4 (apply steps_bind_pure; simpl).
  fold (member members "topic_arn") (member members "type")
       (member members "topic_name").
  destruct (negb (truthy (member members "type")) || _); [apply steps_ret|].
  apply steps_bind.
  - destruct (negb (truthy (member members "topic_arn")) && _); steps_rule.
  - intros topic_arn. destruct (negb (truthy topic_arn)); [apply steps_ret|].
    rewrite Htype.
    do 2 (apply steps_bind_pure; simpl).
    fold (member members "queue_arn") (member members "queue_name").
    rewrite Hqueue. simpl.
    apply (steps_bind_pure _ (member members "queue_arn")).
    rewrite Hqueue. simpl. steps_rule.
Qed.

End Subscription.

(** C10: in create-subscription an address in the body wins over a name,
    for the topic and for the queue each on its own.  With a non-empty
    [topic_arn], the answer and the calls do not depend on [topic_name] and
    no page of the topic listing is requested.  With type [sqs] and a
    non-empty [queue_arn], however the topic is given, they do not depend
    on [queue_name] and no queue is looked up.  With both addresses the one
    call issued is [subscribe], with the two addresses as given. *)
Theorem subscription_prefers_addresses
    {B : Type} `{!Backend B} (req : Request)
    (members : list (string * json)) (w : World B) :
  object_body req members →
  (truthy (member members "topic_arn") = true →
   (∀ req' members',
      object_body req' members' →
      (∀ k, k ≠ "topic_name" → member members' k = member members k) →
      create_subscription req' w = create_subscription req w)
   ∧ extends_by (λ c, negb (is_listing c)) w (snd (create_subscription req w)))
  ∧ (is_str (member members "type") "sqs" = true →
     truthy (member members "queue_arn") = true →
     (∀ req' members',
        object_body req' members' →
        (∀ k, k ≠ "queue_name" → member members' k = member members k) →
        create_subscription req' w = create_subscription req w)
     ∧ extends_by (λ c, negb (is_queue_lookup c)) w
         (snd (create_subscription req w)))
  ∧ (is_str (member members "type") "sqs" = true →
     truthy (member members "topic_arn") = true →
     truthy (member members "queue_arn") = true →
     (∀ req' members',
        object_body req' members' →
        (∀ k, k ≠ "topic_name" → k ≠ "queue_name" →
              member members' k = member members k) →
        create_subscription req' w = create_subscription req w)
     ∧ trace (snd (create_subscription req w))
       = (trace w ++ [SnsSubscribe (member members "topic_arn") "sqs"
                        (member members "queue_arn") true])%list).
Proof.
  intros Hbody. rewrite (create_subscription_object _ _ w Hbody).
  split; [|split].
  - intros Harn. split.
    + intros req' members' Hbody' Hsame.
      rewrite (create_subscription_object _ _ w Hbody').
      apply create_subscription_given_topic; assumption.
    + apply create_subscription_no_listing, Harn.
  - intros Htype Hqueue. split.
    + intros req' members' Hbody' Hsame.
      rewrite (create_subscription_object _ _ w Hbody').
      apply create_subscription_given_queue; assumption.
    + apply create_subscription_no_queue_lookup; assumption.
  - intros Htype Harn Hqueue. split.
    + intros req' members' Hbody' Hsame.
      rewrite (create_subscription_object _ _ w Hbody').
      apply create_subscription_given_both; assumption.
    + eapply create_subscription_given_both with (members' := members);
        [assumption..|]. reflexivity.
Qed.

(** Both addresses and both names in one body; the names point to a topic
    and a queue that do not exist, and nobody looks. *)
Lemma subscription_prefers_addresses_witness :
  object_body
    (mkRequest [] (Some (JObj [("type", JStr "sqs");
                               ("topic_arn", JStr "arn:aws:sns:us-east-1:1:t");
                               ("topic_name", JStr "no-such-topic");
                               ("queue_arn", JStr "arn:aws:sqs:us-east-1:1:q");
                               ("queue_name", JStr "no-such-queue")])))
    [("type", JStr "sqs");
     ("topic_arn", JStr "arn:aws:sns:us-east-1:1:t");
     ("topic_name", JStr "no-such-topic");
     ("queue_arn", JStr "arn:aws:sqs:us-east-1:1:q");
     ("queue_name", JStr "no-such-queue")]
  ∧ trace (snd (create_subscription
                  (mkRequest [] (Some (JObj
                     [("type", JStr "sqs");
                      ("topic_arn", JStr "arn:aws:sns:us-east-1:1:t");
                      ("topic_name", JStr "no-such-topic");
                      ("queue_arn", JStr "arn:aws:sqs:us-east-1:1:q");
                      ("queue_name", JStr "no-such-queue")])))
                  (fresh (mkEmulator [] []))))
    = [SnsSubscribe (JStr "arn:aws:sns:us-east-1:1:t") "sqs"
         (JStr "arn:aws:sqs:us-east-1:1:q") true].
Proof.
  split; [reflexivity|].
  destruct (subscription_prefers_addresses
              (mkRequest [] (Some (JObj
                 [("type", JStr "sqs");
                  ("topic_arn", JStr "arn:aws:sns:us-east-1:1:t");
                  ("topic_name", JStr "no-such-topic");
                  ("queue_arn", JStr "arn:aws:sqs:us-east-1:1:q");
                  ("queue_name", JStr "no-such-queue")])))
              _ (fresh (mkEmulator [] [])) eq_refl)
    as (_ & _ & Hboth).
  exact (proj2 (Hboth eq_refl eq_refl eq_refl)).
Defined.

(** A topic by name and a queue by address, the queue name pointing
    nowhere: the topic is looked up in the listing, the queue is not. *)
Example subscription_topic_name_queue_address :
  create_subscription
    (mkRequest [] (Some (JObj [("type", JStr "sqs");
                               ("topic_name", JStr "t1");
                               ("queue_arn", JStr "arn:aws:sqs:us-east-1:1:q");
                               ("queue_name", JStr "no-such-queue")])))
    (fresh (mkEmulator [] ["t1"]))
  = (jsonify [("subscription_arn", JStr (topic_arn_of "t1" ++ ":s-1"));
              ("topic_arn", JStr (topic_arn_of "t1"));
              ("protocol", JStr "sqs");
              ("endpoint", JStr "arn:aws:sqs:us-east-1:1:q")] 201,
     mkWorld (mkEmulator [] ["t1"])
       [SnsListTopics 0;
        SnsSubscribe (JStr (topic_arn_of "t1")) "sqs"
          (JStr "arn:aws:sqs:us-east-1:1:q") true]).
Proof. reflexivity. Qed.

(* ===================================================================== *)
(** * Clients and configuration *)
(* ===================================================================== *)

(** X1: with the configuration [app/main.py] builds, each client gets the
    region of [AWS_REGION] (or [us-east-1]) and the endpoint of its own
    variable (or [http://localhost:4566]), whatever else the environment and
    Flask's defaults hold; the fallbacks written in the factories are never
    what decides. *)
Theorem clients_follow_environment
    (flask_defaults env : gmap string string) :
  let config := app_config flask_defaults env in
  let region := getenv env "AWS_REGION" "us-east-1" in
  make_sqs_client config
  = mkClient "sqs" region
      (Some (getenv env "SQS_ENDPOINT_URL" "http://localhost:4566"))
  ∧ make_sns_client config
    = mkClient "sns" region
        (Some (getenv env "SNS_ENDPOINT_URL" "http://localhost:4566"))
  ∧ make_dynamodb_resource config
    = mkClient "dynamodb" region
        (Some (getenv env "DYNAMODB_ENDPOINT_URL" "http://localhost:4566"))
  ∧ ∀ key fallback,
      In key ["SQS_ENDPOINT_URL"; "SNS_ENDPOINT_URL"; "DYNAMODB_ENDPOINT_URL"] →
      get_aws_endpoint config key fallback
      = Some (getenv env key "http://localhost:4566").
Proof.
  intros config region. subst config region.
  unfold make_sqs_client, make_sns_client, make_dynamodb_resource,
    get_aws_endpoint, get_aws_region, app_config.
  split_and!.
  - by simplify_map_eq.
  - by simplify_map_eq.
  - by simplify_map_eq.
  - intros key fallback Hkey. simpl in Hkey.
    destruct Hkey as [<-|[<-|[<-|[]]]]; by simplify_map_eq.
Qed.

(** Only the SQS endpoint is set in the environment; the factory's own
    fallback (here none) plays no part. *)
Lemma clients_follow_environment_witness :
  In "SQS_ENDPOINT_URL"
     ["SQS_ENDPOINT_URL"; "SNS_ENDPOINT_URL"; "DYNAMODB_ENDPOINT_URL"]
  ∧ get_aws_endpoint
      (app_config ∅ {[ "SQS_ENDPOINT_URL" := "http://sqs:9324" ]})
      "SQS_ENDPOINT_URL" None
    = Some "http://sqs:9324".
Proof.
  split; [simpl; auto|].
  exact (proj2 (proj2 (proj2 (clients_follow_environment ∅
                   {[ "SQS_ENDPOINT_URL" := "http://sqs:9324" ]})))
           "SQS_ENDPOINT_URL" None (or_introl eq_refl)).
Defined.

(* ===================================================================== *)
(** * Listing topics *)
(* ===================================================================== *)

Section Listing.

Context {B : Type} `{!Backend B}.

Lemma topic_entries_listed topics :
  topic_entries topics
  = map topic_entry (List.filter non_empty (omap TopicArn topics)).
Proof.
  induction topics as [|[[arn|]] rest IH]; simpl; [reflexivity| |exact IH].
  unfold non_empty at 1. destruct (String.eqb arn ""); simpl;
    [exact IH | rewrite IH; reflexivity].
Qed.

Lemma collect_pages_all pages :
  ∀ (index : nat) (topics : list json) (w : World B),
    collect_pages (map Return pages) index topics w
    = (Return (topics
               ++ map topic_entry (List.filter non_empty (listed_arns pages)))%list,
       mkWorld (state w)
         (trace w ++ map SnsListTopics (seq index (length pages)))).
Proof.
  induction pages as [|page pages IH]; intros index topics w.
  - simpl. rewrite !List.app_nil_r. destruct w. reflexivity.
  - simpl. unfold bind, fetch_page. simpl. rewrite IH. simpl.
    rewrite topic_entries_listed, List.filter_app, List.map_app,
      <- !List.app_assoc.
    reflexivity.
Qed.

(** A page that fails ends the collection with what it raised. *)
Lemma collect_pages_failure good e rest :
  ∀ (index : nat) (topics : list json) (w : World B),
    collect_pages (map Return good ++ Raise e :: rest) index topics w
    = (Raise e,
       mkWorld (state w)
         (trace w ++ map SnsListTopics (seq index (S (length good))))).
Proof.
  induction good as [|page good IH]; intros index topics w.
  - reflexivity.
  - simpl. unfold bind, fetch_page. simpl. rewrite IH. simpl.
    rewrite <- List.app_assoc. reflexivity.
Qed.

(** The inner loop only ever returns a non-empty identifier whose last
    segment is the name asked for. *)
Lemma scan_topics_sound topics topic_name arn :
  scan_topics topics topic_name = Some arn →
  arn ≠ "" ∧ topic_name = JStr (last_segment arn).
Proof.
  induction topics as [|[[a|]] rest IH]; simpl; [discriminate| |exact IH].
  destruct (String.eqb_spec a "") as [->|Hne]; [exact IH|].
  destruct (is_str topic_name (last_segment a)) eqn:Hstr; [|exact IH].
  intros [= <-]. split; [exact Hne|].
  destruct topic_name as [| | |s| |]; try discriminate.
  simpl in Hstr. apply String.eqb_eq in Hstr as ->. reflexivity.
Qed.

Lemma scan_pages_sound pages :
  ∀ (index : nat) topic_name (w w' : World B) arn,
    scan_pages pages index topic_name w = (Return (Some arn), w') →
    arn ≠ "" ∧ topic_name = JStr (last_segment arn).
Proof.
  induction pages as [|next rest IH]; intros index topic_name w w' arn.
  - intros [= ].
  - simpl. unfold bind, fetch_page.
    destruct next as [page|e]; [|discriminate].
    destruct (scan_topics _ _) as [found|] eqn:Hscan.
    + intros [= <- _]. eapply scan_topics_sound, Hscan.
    + apply IH.
Qed.

(** An identifier that is listed is found under its own short name, unless
    an earlier one with the same short name is. *)
Lemma scan_topics_complete topics arn :
  In arn (omap TopicArn topics) → arn ≠ "" →
  ∃ found, scan_topics topics (JStr (last_segment arn)) = Some found.
Proof.
  intros Hin Hne. induction topics as [|[[a|]] rest IH]; simpl in *.
  - destruct Hin.
  - destruct (String.eqb_spec a "") as [->|Ha].
    + destruct Hin as [Heq|Hin]; [congruence | exact (IH Hin)].
    + destruct (String.eqb_spec (last_segment arn) (last_segment a));
        [eauto|].
      destruct Hin as [Heq|Hin]; [congruence | exact (IH Hin)].
  - exact (IH Hin).
Qed.

Lemma scan_pages_complete pages arn :
  In arn (listed_arns pages) → arn ≠ "" →
  ∀ (index : nat) (w : World B),
  ∃ found w',
    scan_pages (map Return pages) index (JStr (last_segment arn)) w
    = (Return (Some found), w').
Proof.
  intros Hin Hne. induction pages as [|page pages IH]; intros index w.
  - destruct Hin.
  - simpl. unfold bind, fetch_page. simpl.
    destruct (scan_topics _ _) as [found|] eqn:Hscan; [eauto|].
    unfold listed_arns in Hin. simpl in Hin. apply List.in_app_or in Hin.
    destruct Hin as [Hin|Hin]; [|apply IH, Hin].
    destruct (scan_topics_complete _ _ Hin Hne) as (found & Hfound).
    congruence.
Qed.

(** Pages without a match are passed over. *)
Lemma scan_topics_miss topics name :
  Forall (λ arn, ¬ short_name_is arn name) (omap TopicArn topics) →
  scan_topics topics (JStr name) = None.
Proof.
  induction topics as [|[[a|]] rest IH]; simpl; [reflexivity| |exact IH].
  intros Hall. inversion Hall as [|? ? Ha Hrest]; subst.
  destruct (String.eqb a ""); [exact (IH Hrest)|].
  destruct (String.eqb_spec name (last_segment a)) as [Heq|_];
    [|exact (IH Hrest)].
  destruct Ha. apply last_segment_short_name. congruence.
Qed.

Lemma scan_pages_miss good more name :
  Forall (λ arn, ¬ short_name_is arn name) (listed_arns good) →
  ∀ (index : nat) (w : World B),
    scan_pages (map Return good ++ more) index (JStr name) w
    = scan_pages more (index + length good) (JStr name)
        (mkWorld (state w)
           (trace w ++ map SnsListTopics (seq index (length good)))).
Proof.
  induction good as [|page good IH]; intros Hall index w.
  - simpl. rewrite List.app_nil_r, Nat.add_0_r. destruct w. reflexivity.
  - unfold listed_arns in Hall. simpl in Hall.
    apply Forall_app in Hall as [Hpage Hrest].
    simpl. unfold bind at 1, fetch_page. simpl.
    rewrite (scan_topics_miss _ _ Hpage), (IH Hrest). simpl.
    rewrite <- List.app_assoc, Nat.add_succ_r. reflexivity.
Qed.

End Listing.

(** X2: when every page of the listing arrives, [list_topics] answers 200
    with one entry per non-empty identifier, in listing order, each with the
    name derived from its last segment; it requests every page and leaves
    the backend state alone. *)
Theorem list_topics_reports_every_topic
    {B : Type} `{!Backend B} (req : Request) (w : World B)
    (pages : list TopicsPage) :
  topic_pages (state w) = map Return pages →
  list_topics req w
  = (jsonify
       [("topics",
         JArr (map topic_entry (List.filter non_empty (listed_arns pages))))]
       200,
     mkWorld (state w)
       (trace w ++ map SnsListTopics (seq 0 (length pages)))).
Proof.
  intros Hpages. unfold list_topics, try_view, bind.
  rewrite Hpages, collect_pages_all. reflexivity.
Qed.

Lemma list_topics_reports_every_topic_witness :
  list_topics (mkRequest [] None) (fresh (mkEmulator [] ["orders"; "x:y"]))
  = (jsonify
       [("topics",
         JArr [JObj [("topic_arn",
                      JStr "arn:aws:sns:us-east-1:000000000000:orders");
                     ("name", JStr "orders")];
               JObj [("topic_arn",
                      JStr "arn:aws:sns:us-east-1:000000000000:x:y");
                     ("name", JStr "y")]])] 200,
     mkWorld (mkEmulator [] ["orders"; "x:y"])
       [SnsListTopics 0; SnsListTopics 1]).
Proof.
  exact (list_topics_reports_every_topic (mkRequest [] None)
           (fresh (mkEmulator [] ["orders"; "x:y"]))
           [mkPage (Some [mkTopic (Some (topic_arn_of "orders"))]);
            mkPage (Some [mkTopic (Some (topic_arn_of "x:y"))])]
           eq_refl).
Defined.

(** X3: every name [list_topics] reports can be resolved: for each
    non-empty identifier of a listing whose pages all arrive, resolving its
    derived name returns an identifier (the first one) with that same
    derived name. *)
Theorem listed_names_resolve
    {B : Type} `{!Backend B} (w : World B)
    (pages : list TopicsPage) (arn : string) :
  topic_pages (state w) = map Return pages →
  In arn (listed_arns pages) →
  arn ≠ "" →
  ∃ found w',
    resolve_topic_arn_by_name (JStr (last_segment arn)) w
    = (Return (Some found), w')
    ∧ found ≠ ""
    ∧ last_segment found = last_segment arn.
Proof.
  intros Hpages Hin Hne. unfold resolve_topic_arn_by_name. rewrite Hpages.
  destruct (scan_pages_complete pages arn Hin Hne 0%nat w)
    as (found & w' & Hrun).
  exists found, w'. split; [exact Hrun|].
  destruct (scan_pages_sound _ _ _ _ _ _ Hrun) as [Hfound [= Heq]].
  split; [exact Hfound | congruence].
Qed.

(** [x:y] is listed on the second page; its derived name [y] resolves. *)
Lemma listed_names_resolve_witness :
  In (topic_arn_of "x:y")
     (listed_arns
        [mkPage (Some [mkTopic (Some (topic_arn_of "orders"))]);
         mkPage (Some [mkTopic (Some (topic_arn_of "x:y"))])])
  ∧ ∃ found w',
      resolve_topic_arn_by_name (JStr (last_segment (topic_arn_of "x:y")))
        (fresh (mkEmulator [] ["orders"; "x:y"]))
      = (Return (Some found), w')
      ∧ found ≠ ""
      ∧ last_segment found = last_segment (topic_arn_of "x:y").
Proof.
  split; [simpl; auto|].
  apply (listed_names_resolve (fresh (mkEmulator [] ["orders"; "x:y"]))
           [mkPage (Some [mkTopic (Some (topic_arn_of "orders"))]);
            mkPage (Some [mkTopic (Some (topic_arn_of "x:y"))])]
           (topic_arn_of "x:y")); [reflexivity | simpl; auto | discriminate].
Defined.

(* ===================================================================== *)
(** * A listing that fails *)
(* ===================================================================== *)

(** X4: when a page request of the topic listing fails, [list_topics]
    answers with the normalized error (500) and no partial list, and so does
    a publish whose topic was not on the pages before the failure; the
    listing stops at the failed request and nothing is published. *)
Theorem listing_failure_is_reported
    {B : Type} `{!Backend B} (req : Request) (w : World B)
    (good : list TopicsPage) (e : exn) (rest : list (outcome TopicsPage)) :
  topic_pages (state w) = (map Return good ++ Raise e :: rest)%list →
  let stopped :=
    mkWorld (state w)
      (trace w ++ map SnsListTopics (seq 0 (S (length good)))) in
  status (error_response e) = 500
  ∧ list_topics req w = (error_response e, stopped)
  ∧ ∀ name,
      has_arg req "topic_name" name →
      Forall (λ arn, ¬ short_name_is arn name) (listed_arns good) →
      publish_message req w = (error_response e, stopped).
Proof.
  intros Hpages stopped. subst stopped. split_and!.
  - destruct e; reflexivity.
  - unfold list_topics, try_view, bind.
    rewrite Hpages, collect_pages_failure. destruct e; reflexivity.
  - intros name Hname Hmiss. unfold publish_message.
    rewrite require_query_params_pass by (eapply missing_params_one, Hname).
    rewrite (has_arg_value _ _ _ Hname).
    unfold publish_message_view, try_view, bind, resolve_topic_arn_by_name.
    rewrite Hpages, (scan_pages_miss _ _ _ Hmiss). simpl.
    unfold bind, fetch_page. simpl.
    assert (((trace w ++ map SnsListTopics (seq 0 (length good)))
             ++ [SnsListTopics (length good)])%list
            = (trace w ++ map SnsListTopics (seq 0 (S (length good))))%list)
      as -> by (rewrite seq_S, List.map_app, List.app_assoc; reflexivity).
    destruct e; reflexivity.
Qed.

(** The listing of [orders] breaks off after its first page. *)
Lemma listing_failure_is_reported_witness :
  list_topics (Backend0 := interrupted_listing) (mkRequest [] None)
    (fresh (mkEmulator [] ["orders"]))
  = (client_error_response (Some "Rate exceeded") (exn_text throttled),
     mkWorld (mkEmulator [] ["orders"]) [SnsListTopics 0; SnsListTopics 1]).
Proof.
  exact (proj1 (proj2 (listing_failure_is_reported
                         (Backend0 := interrupted_listing)
                         (mkRequest [] None) (fresh (mkEmulator [] ["orders"]))
                         [mkPage (Some [mkTopic (Some (topic_arn_of "orders"))])]
                         throttled [] eq_refl))).
Defined.

(* ===================================================================== *)
(** * The statuses of each route *)
(* ===================================================================== *)

Section StatusRules.

Context {B : Type} `{!Backend B}.
Variable allowed : list Z.

#[local] Abbreviation statuses_in := (statuses_in (B := B) allowed).

Lemma statuses_ret r : In (status r) allowed → statuses_in (ret r).
Proof. intros Hr w r' w' [= <- _]. exact Hr. Qed.

Lemma statuses_raise e : statuses_in (raise e).
Proof. intros w r w' [= ]. Qed.

Lemma statuses_bind {A : Type} (m : M A) (k : A → M Response) :
  (∀ a, statuses_in (k a)) → statuses_in (bind m k).
Proof.
  intros Hk w r w'. unfold bind.
  destruct (m w) as [[a|e] w1]; [apply Hk | discriminate].
Qed.

(** After a pure step, what it returned is known. *)
Lemma statuses_bind_lift {A : Type} (o : outcome A) (k : A → M Response) :
  (∀ a, o = Return a → statuses_in (k a)) → statuses_in (bind (lift o) k).
Proof.
  intros Hk w r w'. unfold bind, lift.
  destruct o as [a|e]; [apply (Hk a eq_refl) | discriminate].
Qed.

Lemma try_view_status (m : M Response) (w : World B) :
  In 500 allowed → statuses_in m →
  In (status (fst (try_view m w))) allowed.
Proof.
  intros H500 Hm. unfold try_view.
  destruct (m w) as [[r|[message text|text]] w'] eqn:Hrun; simpl;
    [exact (Hm w r w' Hrun) | exact H500 | exact H500].
Qed.

Lemma require_query_params_status names func req (w : World B) :
  In 400 allowed →
  (∀ kwargs, In (status (fst (func kwargs req w))) allowed) →
  In (status (fst (require_query_params names func req w))) allowed.
Proof.
  intros H400 Hfunc. unfold require_query_params.
  destruct (missing_params names req); [apply Hfunc | exact H400].
Qed.

End StatusRules.

(** Whatever [get_json_body] hands back as an error is a 400. *)
Lemma check_required_error data fields r :
  check_required data fields = Return (inl r) → status r = 400.
Proof.
  induction fields as [|field rest IH]; simpl; [discriminate|].
  destruct (py_get data field) as [value|]; [|discriminate].
  destruct (is_none value || is_empty_str value); [|exact IH].
  intros [= <-]. reflexivity.
Qed.

Lemma get_json_body_error req fields r :
  get_json_body req fields = Return (inl r) → status r = 400.
Proof.
  unfold get_json_body. destruct (is_none (get_json_silent req)).
  - intros [= <-]. reflexivity.
  - apply check_required_error.
Qed.

Ltac in_list := simpl; repeat first [left; reflexivity | right].

Ltac status_rule :=
  repeat first
    [ apply statuses_raise
    | match goal with
      | H : get_json_body _ _ = Return (inl ?r) |- statuses_in _ (ret ?r) =>
          apply statuses_ret; rewrite (get_json_body_error _ _ _ H); in_list
      end
    | apply statuses_ret; solve [in_list]
    | apply statuses_bind_lift; intros ? ?
    | apply statuses_bind; intros ?
    | match goal with
      | |- statuses_in _ (if ?b then _ else _) => destruct b
      | |- statuses_in _ (match ?x with _ => _ end) => destruct x
      end
    | progress cbv zeta ].

(** X5: every route answers with a status of its own short list: the SQS
    routes and the table scan with 200, 400 or 500 (never 404); the two
    listings with 200 or 500; get-one-item and publish with 200, 400, 404 or
    500; create-topic and create-subscription with 201, 400 or 500. *)
Theorem route_status_table
    {B : Type} `{!Backend B} (py_int : string → option Z)
    (e : Endpoint) (req : Request) (w : World B) :
  In (status (fst (view_of py_int e req w))) (route_statuses e).
Proof.
  destruct e; simpl view_of; simpl route_statuses;
    try (apply require_query_params_status; [in_list | intros kwargs]);
    (apply try_view_status; [in_list|]); status_rule.
Qed.

(* ===================================================================== *)
(** * After the body check *)
(* ===================================================================== *)

Section CheckedBody.

Lemma check_required_passed data fields checked :
  check_required data fields = Return (inr checked) →
  checked = data
  ∧ ∀ field, In field fields →
      ∃ value, py_get data field = Return value
               ∧ is_none value = false ∧ is_empty_str value = false.
Proof.
  induction fields as [|f rest IH]; simpl.
  - intros [= <-]. split; [reflexivity | intros field []].
  - destruct (py_get data f) as [value|] eqn:Hget; [|discriminate].
    destruct (is_none value || is_empty_str value) eqn:Hvalue; [discriminate|].
    intros Hrest. destruct (IH Hrest) as [-> Hfields].
    split; [reflexivity|]. intros field [<-|Hin]; [|exact (Hfields _ Hin)].
    apply orb_false_iff in Hvalue as [Hnone Hempty]. eauto.
Qed.

Lemma py_get_getitem data field value :
  py_get data field = Return value → is_none value = false →
  py_getitem data field = Return value.
Proof.
  destruct data as [| | | | |members]; try discriminate. simpl.
  destruct (assoc_get members field) as [v|]; simpl; intros [= <-];
    [reflexivity | discriminate].
Qed.

End CheckedBody.

(** X6: a body [get_json_body] lets through is handed back unchanged, and
    every required field can then be read from it, by [data.get] and by
    [data[...]] alike, with a value that is neither [None] nor the empty
    string: the subscript in create-topic and publish cannot raise. *)
Theorem checked_body_has_required_fields
    (req : Request) (fields : list string) (data : json) :
  get_json_body req fields = Return (inr data) →
  body req = Some data
  ∧ ∀ field, In field fields →
      ∃ value,
        py_getitem data field = Return value
        ∧ py_get data field = Return value
        ∧ is_none value = false
        ∧ is_empty_str value = false.
Proof.
  unfold get_json_body, get_json_silent.
  destruct (body req) as [sent|]; simpl; [|discriminate].
  destruct (is_none sent); [discriminate|]. intros Hcheck.
  destruct (check_required_passed _ _ _ Hcheck) as [-> Hfields].
  split; [reflexivity|]. intros field Hin.
  destruct (Hfields field Hin) as (value & Hget & Hnone & Hempty).
  exists value. split_and!; try assumption.
  apply py_get_getitem; assumption.
Qed.

Lemma checked_body_has_required_fields_witness :
  get_json_body
    (mkRequest [] (Some (JObj [("subject", JNull); ("message", JNum 0)])))
    ["message"]
  = Return (inr (JObj [("subject", JNull); ("message", JNum 0)]))
  ∧ ∃ value,
      py_getitem (JObj [("subject", JNull); ("message", JNum 0)]) "message"
      = Return value
      ∧ is_none value = false.
Proof.
  split; [reflexivity|].
  destruct (proj2 (checked_body_has_required_fields
                     (mkRequest [] (Some (JObj [("subject", JNull);
                                                ("message", JNum 0)])))
                     ["message"] _ eq_refl) "message")
    as (value & Hitem & _ & Hnone & _); [simpl; auto|].
  exists value. split; assumption.
Defined.

(* ===================================================================== *)
(** * Bodies that are JSON but not objects *)
(* ===================================================================== *)

(** X7: a body that parses to a JSON value other than [null] and other than
    an object is not answered 400: create-topic, create-subscription and
    send-message all fail on their first [data.get] and answer 500 with the
    text of the [AttributeError], before any backend call. *)
Theorem non_object_body_is_500
    {B : Type} `{!Backend B} (py_int : string → option Z)
    (req : Request) (data : json) (w : World B) :
  body req = Some data →
  is_none data = false →
  (∀ members, data ≠ JObj members) →
  let answer :=
    jsonify [("error",
              JStr ("'" ++ type_name data ++ "' object has no attribute 'get'"))]
      500 in
  create_topic req w = (answer, w)
  ∧ create_subscription req w = (answer, w)
  ∧ (∀ name, has_arg req "queue_name" name →
             send_message py_int req w = (answer, w)).
Proof.
  intros Hbody Hnone Hobject answer. subst answer.
  assert (py_get data = λ _, Raise (PyException
            ("'" ++ type_name data ++ "' object has no attribute 'get'")))
    as Hget.
  { destruct data as [| | | | |members]; try reflexivity.
    destruct (Hobject members eq_refl). }
  split_and!.
  - unfold create_topic, get_json_body, get_json_silent. open_monad.
    rewrite Hbody. simpl. rewrite Hnone. simpl. rewrite Hget. reflexivity.
  - unfold create_subscription, get_json_body, get_json_silent. open_monad.
    rewrite Hbody. simpl. rewrite Hnone. simpl. rewrite Hget. reflexivity.
  - intros name Hname. unfold send_message.
    rewrite require_query_params_pass by (eapply missing_params_one, Hname).
    unfold send_message_view, get_json_silent. open_monad.
    rewrite Hbody. simpl. rewrite Hnone. rewrite Hget. reflexivity.
Qed.

Lemma non_object_body_is_500_witness :
  create_subscription (mkRequest [] (Some (JStr "sqs")))
    (fresh (mkEmulator [] []))
  = (jsonify [("error", JStr "'str' object has no attribute 'get'")] 500,
     fresh (mkEmulator [] [])).
Proof.
  refine (proj1 (proj2 (non_object_body_is_500 decimal_int
                          (mkRequest [] (Some (JStr "sqs"))) (JStr "sqs")
                          (fresh (mkEmulator [] [])) eq_refl eq_refl _))).
  intros members. discriminate.
Defined.

(* ===================================================================== *)
(** * Sending a message *)
(* ===================================================================== *)

(** X8: a well-formed send to a queue the backend knows issues the lookup
    and then one [send_message] on the URL the lookup returned, with the
    message as it came, [DelaySeconds] only when [delay_seconds] is given
    (coerced by [int]) and the attributes only when they are not empty; the
    answer is 200 with the backend's message id. *)
Theorem send_message_passes_through
    {B : Type} `{!Backend B} (py_int : string → option Z)
    (req : Request) (w : World B) (name : string)
    (members : list (string * json)) (delay : option Z)
    (url : string) (b1 b2 : B) (message_id : option string) :
  has_arg req "queue_name" name →
  object_body req members →
  truthy (member members "message") = true →
  coerced_delay py_int (member members "delay_seconds") = Return delay →
  invoke (SqsGetQueueUrl (JStr name)) (state w) = (Return (Some url), b1) →
  invoke (SqsSendMessage url (member members "message") delay
            (when_truthy (member members "attributes"))) b1
  = (Return message_id, b2) →
  send_message py_int req w
  = (jsonify [("message_id", json_of_opt message_id);
              ("queue_name", JStr name)] 200,
     mkWorld b2
       (trace w
        ++ [SqsGetQueueUrl (JStr name);
            SqsSendMessage url (member members "message") delay
              (when_truthy (member members "attributes"))])).
Proof.
  intros Hname Hbody Hmessage Hdelay Hurl Hsend. unfold send_message.
  rewrite require_query_params_pass by (eapply missing_params_one, Hname).
  rewrite (has_arg_value _ _ _ Hname).
  unfold send_message_view. open_monad.
  rewrite (object_body_json _ _ Hbody). simpl.
  fold (member members "message") (member members "delay_seconds")
       (member members "attributes").
  rewrite Hmessage. simpl. rewrite Hurl. simpl.
  unfold coerced_delay in Hdelay. unfold when_truthy in Hsend.
  destruct (is_none (member members "delay_seconds")).
  - injection Hdelay as <-. simpl. rewrite Hsend. simpl.
    rewrite <- List.app_assoc. reflexivity.
  - destruct (int_of py_int (member members "delay_seconds")) as [d|];
      [|discriminate].
    injection Hdelay as <-. simpl. rewrite Hsend. simpl.
    rewrite <- List.app_assoc. reflexivity.
Qed.

(** A delay given as the string ["15"], and an empty attribute map. *)
Lemma send_message_passes_through_witness :
  coerced_delay decimal_int (JStr "15") = Return (Some 15)
  ∧ send_message decimal_int
      (mkRequest [("queue_name", "q1")]
         (Some (JObj [("message", JStr "hi"); ("delay_seconds", JStr "15");
                      ("attributes", JObj [])])))
      (fresh (mkEmulator ["q1"] []))
    = (jsonify [("message_id", JStr "m-1"); ("queue_name", JStr "q1")] 200,
       mkWorld (mkEmulator ["q1"] [])
         [SqsGetQueueUrl (JStr "q1");
          SqsSendMessage (queue_url_of "q1") (JStr "hi") (Some 15) None]).
Proof.
  split; [reflexivity|].
  refine (send_message_passes_through decimal_int
            (mkRequest [("queue_name", "q1")]
               (Some (JObj [("message", JStr "hi");
                            ("delay_seconds", JStr "15");
                            ("attributes", JObj [])])))
            (fresh (mkEmulator ["q1"] [])) "q1"
            [("message", JStr "hi"); ("delay_seconds", JStr "15");
             ("attributes", JObj [])]
            (Some 15) (queue_url_of "q1")
            (mkEmulator ["q1"] []) (mkEmulator ["q1"] []) (Some "m-1")
            _ _ _ _ _ _); try reflexivity.
  split; [reflexivity | discriminate].
Defined.

(** X9: a [delay_seconds] that [int] refuses (a word, a list, an object) is
    found out only after the queue lookup: the answer is 500 with the text
    of the exception, the lookup is the only call, and nothing is sent. *)
Theorem send_message_bad_delay
    {B : Type} `{!Backend B} (py_int : string → option Z)
    (req : Request) (w : World B) (name : string)
    (members : list (string * json)) (text : string)
    (url : string) (b1 : B) :
  has_arg req "queue_name" name →
  object_body req members →
  truthy (member members "message") = true →
  coerced_delay py_int (member members "delay_seconds")
  = Raise (PyException text) →
  invoke (SqsGetQueueUrl (JStr name)) (state w) = (Return (Some url), b1) →
  send_message py_int req w
  = (jsonify [("error", JStr text)] 500,
     mkWorld b1 (trace w ++ [SqsGetQueueUrl (JStr name)])).
Proof.
  intros Hname Hbody Hmessage Hdelay Hurl. unfold send_message.
  rewrite require_query_params_pass by (eapply missing_params_one, Hname).
  rewrite (has_arg_value _ _ _ Hname).
  unfold send_message_view. open_monad.
  rewrite (object_body_json _ _ Hbody). simpl.
  fold (member members "message") (member members "delay_seconds")
       (member members "attributes").
  rewrite Hmessage. simpl. rewrite Hurl. simpl.
  unfold coerced_delay in Hdelay.
  destruct (is_none (member members "delay_seconds")); [discriminate|].
  destruct (int_of py_int (member members "delay_seconds")) as [d|e];
    [discriminate|].
  injection Hdelay as ->. reflexivity.
Qed.

Lemma send_message_bad_delay_witness :
  coerced_delay decimal_int (JStr "soon")
  = Raise (PyException "invalid literal for int() with base 10: 'soon'")
  ∧ send_message decimal_int
      (mkRequest [("queue_name", "q1")]
         (Some (JObj [("message", JStr "hi"); ("delay_seconds", JStr "soon")])))
      (fresh (mkEmulator ["q1"] []))
    = (jsonify [("error",
                 JStr "invalid literal for int() with base 10: 'soon'")] 500,
       mkWorld (mkEmulator ["q1"] []) [SqsGetQueueUrl (JStr "q1")]).
Proof.
  split; [reflexivity|].
  refine (send_message_bad_delay decimal_int
            (mkRequest [("queue_name", "q1")]
               (Some (JObj [("message", JStr "hi");
                            ("delay_seconds", JStr "soon")])))
            (fresh (mkEmulator ["q1"] [])) "q1"
            [("message", JStr "hi"); ("delay_seconds", JStr "soon")]
            _ (queue_url_of "q1") (mkEmulator ["q1"] [])
            _ _ _ _ _); try reflexivity.
  split; [reflexivity | discriminate].
Defined.

(* ===================================================================== *)
(** * Receiving: parameters that are not integers *)
(* ===================================================================== *)

(** X10: a [max_number] or [wait_time_seconds] that [int] refuses (a word,
    or a parameter given empty) is answered 500, and the backend is not
    called at all. *)
Theorem receive_rejects_non_integers
    {B : Type} `{!Backend B} (py_int : string → option Z)
    (req : Request) (w : World B) (name : string) :
  has_arg req "queue_name" name →
  py_int (default "1" (assoc_get (args req) "max_number")) = None
  ∨ py_int (default "0" (assoc_get (args req) "wait_time_seconds")) = None →
  status (fst (receive_messages py_int req w)) = 500
  ∧ snd (receive_messages py_int req w) = w.
Proof.
  intros Hname Hrefused. unfold receive_messages.
  rewrite require_query_params_pass by (eapply missing_params_one, Hname).
  unfold receive_messages_view. open_monad.
  destruct (py_int (default "1" (assoc_get (args req) "max_number")))
    as [m|] eqn:Hmax; [|split; reflexivity].
  destruct Hrefused as [[=]|Hwait]. rewrite Hwait. split; reflexivity.
Qed.

Lemma receive_rejects_non_integers_witness :
  has_arg (mkRequest [("queue_name", "q1"); ("max_number", "")] None)
          "queue_name" "q1"
  ∧ status (fst (receive_messages decimal_int
                   (mkRequest [("queue_name", "q1"); ("max_number", "")] None)
                   (fresh (mkEmulator ["q1"] [])))) = 500
  ∧ snd (receive_messages decimal_int
           (mkRequest [("queue_name", "q1"); ("max_number", "")] None)
           (fresh (mkEmulator ["q1"] [])))
    = fresh (mkEmulator ["q1"] []).
Proof.
  split; [split; [reflexivity | discriminate]|].
  apply (receive_rejects_non_integers decimal_int
           (mkRequest [("queue_name", "q1"); ("max_number", "")] None)
           (fresh (mkEmulator ["q1"] [])) "q1").
  - split; [reflexivity | discriminate].
  - left. reflexivity.
Defined.

(* ===================================================================== *)
(** * Purge and delete: what a 200 means *)
(* ===================================================================== *)

(** X11: purge answers 200 ("purged": true) exactly when the queue lookup
    and the backend's [purge_queue] both returned, and 500 otherwise; the
    same holds for delete-one with [delete_message].  A refused purge is
    never reported as done. *)
Theorem purge_and_delete_report_the_backend
    {B : Type} `{!Backend B} (req : Request) (w : World B) (name : string) :
  has_arg req "queue_name" name →
  (status (fst (purge_queue req w)) = 200
   ↔ ∃ url b1 b2,
       invoke (SqsGetQueueUrl (JStr name)) (state w) = (Return (Some url), b1)
       ∧ invoke (SqsPurgeQueue url) b1 = (Return tt, b2))
  ∧ (status (fst (purge_queue req w)) = 200
     ∨ status (fst (purge_queue req w)) = 500)
  ∧ ∀ handle,
      has_arg req "receipt_handle" handle →
      (status (fst (delete_message req w)) = 200
       ↔ ∃ url b1 b2,
           invoke (SqsGetQueueUrl (JStr name)) (state w)
           = (Return (Some url), b1)
           ∧ invoke (SqsDeleteMessage url handle) b1 = (Return tt, b2))
      ∧ (status (fst (delete_message req w)) = 200
         ∨ status (fst (delete_message req w)) = 500).
Proof.
  intros Hname.
  assert (Hpurge :
    (status (fst (purge_queue req w)) = 200
     ↔ ∃ url b1 b2,
         invoke (SqsGetQueueUrl (JStr name)) (state w) = (Return (Some url), b1)
         ∧ invoke (SqsPurgeQueue url) b1 = (Return tt, b2))
    ∧ (status (fst (purge_queue req w)) = 200
       ∨ status (fst (purge_queue req w)) = 500)).
  { unfold purge_queue.
    rewrite require_query_params_pass by (eapply missing_params_one, Hname).
    rewrite (has_arg_value _ _ _ Hname).
    unfold purge_queue_view. open_monad.
    destruct (invoke (SqsGetQueueUrl (JStr name)) (state w))
      as [[[url|]|[message text|text]] b1]; simpl;
      try (split; [split; [discriminate | intros (? & ? & ? & [= ] & _)]
                  | right; reflexivity]).
    destruct (invoke (SqsPurgeQueue url) b1)
      as [[[]|[message text|text]] b2] eqn:Hcall; simpl;
      try (split; [split; [discriminate
                          | intros (? & ? & ? & [= <- <-] & Hother);
                            rewrite Hcall in Hother; discriminate]
                  | right; reflexivity]).
    split; [split; [eauto | reflexivity] | left; reflexivity]. }
  destruct Hpurge as [Hiff Hstatus]. split; [exact Hiff|].
  split; [exact Hstatus|].
  intros handle Hhandle. unfold delete_message.
  rewrite require_query_params_pass by (eapply missing_params_one, Hname).
  rewrite (has_arg_value _ _ _ Hname).
  unfold delete_message_view. open_monad.
  rewrite (has_arg_truthy _ _ _ Hhandle), (has_arg_value _ _ _ Hhandle). simpl.
  destruct (invoke (SqsGetQueueUrl (JStr name)) (state w))
    as [[[url|]|[message text|text]] b1]; simpl;
    try (split; [split; [discriminate | intros (? & ? & ? & [= ] & _)]
                | right; reflexivity]).
  destruct (invoke (SqsDeleteMessage url handle) b1)
    as [[[]|[message text|text]] b2] eqn:Hcall; simpl;
    try (split; [split; [discriminate
                        | intros (? & ? & ? & [= <- <-] & Hother);
                          rewrite Hcall in Hother; discriminate]
                | right; reflexivity]).
  split; [split; [eauto | reflexivity] | left; reflexivity].
Qed.

(** A purge of a queue the emulator does not have. *)
Lemma purge_and_delete_report_the_backend_witness :
  has_arg (mkRequest [("queue_name", "nope")] None) "queue_name" "nope"
  ∧ status (fst (purge_queue (mkRequest [("queue_name", "nope")] None)
                   (fresh (mkEmulator ["q1"] [])))) = 500.
Proof.
  split; [split; [reflexivity | discriminate]|].
  destruct (purge_and_delete_report_the_backend
              (mkRequest [("queue_name", "nope")] None)
              (fresh (mkEmulator ["q1"] [])) "nope")
    as (Hiff & [H200|H500] & _).
  - split; [reflexivity | discriminate].
  - apply Hiff in H200 as (url & b1 & b2 & Hlookup & _). discriminate Hlookup.
  - exact H500.
Defined.

(* ===================================================================== *)
(** * Subscriptions: the calls that can be issued *)
(* ===================================================================== *)

(** X12: whatever the request, create-subscription only issues page
    requests of the topic listing, queue lookups, and [subscribe] calls whose
    protocol is [sqs] with raw delivery or [lambda] without it. *)
Theorem subscription_calls_are_well_formed
    {B : Type} `{!Backend B} (req : Request) (w : World B) :
  extends_by subscription_call w (snd (create_subscription req w)).
Proof. unfold create_subscription. apply try_view_steps. steps_rule. Qed.

(** X13: a subscription that names a topic no listed identifier has as its
    short name (and gives no [topic_arn]) is answered 400
    "topic_arn or topic_name is required", not 404, after the whole listing
    was read; nothing is subscribed. *)
Theorem subscription_unresolved_topic_is_400
    {B : Type} `{!Backend B} (req : Request) (w : World B)
    (members : list (string * json)) (name : string)
    (pages : list TopicsPage) :
  object_body req members →
  is_str (member members "type") "sqs"
  || is_str (member members "type") "lambda" = true →
  truthy (member members "topic_arn") = false →
  member members "topic_name" = JStr name →
  name ≠ "" →
  topic_pages (state w) = map Return pages →
  Forall (λ arn, ¬ short_name_is arn name) (listed_arns pages) →
  create_subscription req w
  = (jsonify [("error", JStr "topic_arn or topic_name is required")] 400,
     mkWorld (state w)
       (trace w ++ map SnsListTopics (seq 0 (length pages)))).
Proof.
  intros Hbody Htype Harn Htopic Hname Hpages Hmiss.
  assert (truthy (member members "type") = true) as Htruthy.
  { apply orb_true_iff in Htype as [H|H];
      eapply is_str_truthy; try exact H; discriminate. }
  unfold create_subscription, get_json_body. open_monad.
  rewrite (object_body_json _ _ Hbody). simpl.
  fold (member members "topic_arn") (member members "type")
       (member members "topic_name").
  rewrite Htruthy, Htype, Harn, Htopic, (str_truthy _ Hname). simpl.
  unfold resolve_topic_arn_by_name. rewrite Hpages.
  pose proof (scan_pages_miss pages [] name Hmiss 0%nat w) as Hscan.
  rewrite List.app_nil_r in Hscan. rewrite Hscan. reflexivity.
Qed.

Lemma subscription_unresolved_topic_is_400_witness :
  object_body
    (mkRequest [] (Some (JObj [("type", JStr "lambda");
                               ("topic_name", JStr "missing-topic");
                               ("lambda_arn", JStr "arn:aws:lambda:f")])))
    [("type", JStr "lambda"); ("topic_name", JStr "missing-topic");
     ("lambda_arn", JStr "arn:aws:lambda:f")]
  ∧ create_subscription
      (mkRequest [] (Some (JObj [("type", JStr "lambda");
                                 ("topic_name", JStr "missing-topic");
                                 ("lambda_arn", JStr "arn:aws:lambda:f")])))
      (fresh (mkEmulator [] ["orders"]))
    = (jsonify [("error", JStr "topic_arn or topic_name is required")] 400,
       mkWorld (mkEmulator [] ["orders"]) [SnsListTopics 0]).
Proof.
  split; [reflexivity|].
  refine (subscription_unresolved_topic_is_400
            (mkRequest [] (Some (JObj [("type", JStr "lambda");
                                       ("topic_name", JStr "missing-topic");
                                       ("lambda_arn", JStr "arn:aws:lambda:f")])))
            (fresh (mkEmulator [] ["orders"]))
            [("type", JStr "lambda"); ("topic_name", JStr "missing-topic");
             ("lambda_arn", JStr "arn:aws:lambda:f")] "missing-topic"
            [mkPage (Some [mkTopic (Some (topic_arn_of "orders"))])]
            eq_refl eq_refl eq_refl eq_refl _ eq_refl _);
    [discriminate|].
  constructor; [|constructor].
  intros H. apply last_segment_short_name in H. discriminate H.
Defined.

(* ===================================================================== *)
(** * Publishing and subscribing by name *)
(* ===================================================================== *)

Section ByName.

Context {B : Type} `{!Backend B}.

Lemma resolve_topic_sound topic_name (w w' : World B) arn :
  resolve_topic_arn_by_name topic_name w = (Return (Some arn), w') →
  arn ≠ "" ∧ topic_name = JStr (last_segment arn).
Proof. unfold resolve_topic_arn_by_name. apply scan_pages_sound. Qed.

End ByName.

(** X14: when the topic name resolves and the body carries a message,
    publish issues one [publish] on the resolved address, whose short name
    is exactly the name asked for, with the message as it came and the
    subject and attributes only when they are not empty; the answer is 200
    with that address. *)
Theorem publish_sends_to_the_resolved_topic
    {B : Type} `{!Backend B} (req : Request) (w w1 : World B)
    (name arn : string) (members : list (string * json))
    (b2 : B) (message_id : option string) :
  has_arg req "topic_name" name →
  resolve_topic_arn_by_name (JStr name) w = (Return (Some arn), w1) →
  object_body req members →
  field_missing members "message" = false →
  invoke (SnsPublish arn (member members "message")
            (when_truthy (member members "subject"))
            (when_truthy (member members "attributes"))) (state w1)
  = (Return message_id, b2) →
  last_segment arn = name
  ∧ publish_message req w
    = (jsonify [("message_id", json_of_opt message_id);
                ("topic_arn", JStr arn);
                ("topic_name", JStr name)] 200,
       mkWorld b2
         (trace w1
          ++ [SnsPublish arn (member members "message")
                (when_truthy (member members "subject"))
                (when_truthy (member members "attributes"))])).
Proof.
  intros Hname Hresolve Hbody Hmessage Hpublish.
  destruct (resolve_topic_sound _ _ _ _ Hresolve) as [Harn [= Hshort]].
  split; [congruence|]. unfold publish_message.
  rewrite require_query_params_pass by (eapply missing_params_one, Hname).
  rewrite (has_arg_value _ _ _ Hname).
  assert (get_json_body req ["message"] = Return (inr (JObj members)))
    as Hcheck.
  { unfold get_json_body. rewrite (object_body_json _ _ Hbody).
    change (is_none (JObj members)) with false. cbv iota.
    rewrite check_required_object. simpl. rewrite Hmessage. reflexivity. }
  assert (py_getitem (JObj members) "message"
          = Return (member members "message")) as Hitem.
  { unfold field_missing in Hmessage. unfold member. simpl.
    destruct (assoc_get members "message"); [reflexivity | discriminate]. }
  unfold publish_message_view. open_monad.
  rewrite Hresolve. apply String.eqb_neq in Harn. rewrite Harn.
  rewrite Hcheck. cbv beta iota. rewrite Hitem. cbv beta iota.
  change (py_get (JObj members) "subject")
    with (Return (member members "subject")).
  change (py_get (JObj members) "attributes")
    with (Return (member members "attributes")).
  cbv beta iota. fold (when_truthy (member members "subject"))
    (when_truthy (member members "attributes")).
  rewrite Hpublish. reflexivity.
Qed.

Lemma publish_sends_to_the_resolved_topic_witness :
  has_arg (mkRequest [("topic_name", "orders")]
             (Some (JObj [("message", JStr "hi"); ("subject", JStr "")])))
          "topic_name" "orders"
  ∧ publish_message
      (mkRequest [("topic_name", "orders")]
         (Some (JObj [("message", JStr "hi"); ("subject", JStr "")])))
      (fresh (mkEmulator [] ["orders"]))
    = (jsonify [("message_id", JStr "m-1");
                ("topic_arn", JStr (topic_arn_of "orders"));
                ("topic_name", JStr "orders")] 200,
       mkWorld (mkEmulator [] ["orders"])
         [SnsListTopics 0;
          SnsPublish (topic_arn_of "orders") (JStr "hi") None None]).
Proof.
  split; [split; [reflexivity | discriminate]|].
  refine (proj2 (publish_sends_to_the_resolved_topic
                   (mkRequest [("topic_name", "orders")]
                      (Some (JObj [("message", JStr "hi");
                                   ("subject", JStr "")])))
                   (fresh (mkEmulator [] ["orders"]))
                   (mkWorld (mkEmulator [] ["orders"]) [SnsListTopics 0])
                   "orders" (topic_arn_of "orders")
                   [("message", JStr "hi"); ("subject", JStr "")]
                   (mkEmulator [] ["orders"]) (Some "m-1")
                   _ _ _ _ _)); try reflexivity.
  split; [reflexivity | discriminate].
Defined.

(** X15: a queue subscription given by names only resolves the topic by
    the listing, then the queue by its URL and its [QueueArn] attribute, and
    subscribes the one to the other with raw delivery; the answer is 201 with
    the two resolved addresses, and the topic's short name is the name
    asked for. *)
Theorem subscription_by_names
    {B : Type} `{!Backend B} (req : Request) (w w1 : World B)
    (members : list (string * json))
    (topic queue topic_arn url queue_arn : string)
    (attributes : list (string * string))
    (b1 b2 b3 : B) (subscription : option string) :
  object_body req members →
  is_str (member members "type") "sqs" = true →
  truthy (member members "topic_arn") = false →
  member members "topic_name" = JStr topic →
  truthy (member members "queue_arn") = false →
  member members "queue_name" = JStr queue →
  topic ≠ "" → queue ≠ "" → queue_arn ≠ "" →
  resolve_topic_arn_by_name (JStr topic) w = (Return (Some topic_arn), w1) →
  invoke (SqsGetQueueUrl (JStr queue)) (state w1) = (Return (Some url), b1) →
  invoke (SqsGetQueueAttributes url) b1 = (Return (Some attributes), b2) →
  assoc_get attributes "QueueArn" = Some queue_arn →
  invoke (SnsSubscribe (JStr topic_arn) "sqs" (JStr queue_arn) true) b2
  = (Return subscription, b3) →
  last_segment topic_arn = topic
  ∧ create_subscription req w
    = (jsonify [("subscription_arn", json_of_opt subscription);
                ("topic_arn", JStr topic_arn);
                ("protocol", JStr "sqs");
                ("endpoint", JStr queue_arn)] 201,
       mkWorld b3
         (trace w1
          ++ [SqsGetQueueUrl (JStr queue);
              SqsGetQueueAttributes url;
              SnsSubscribe (JStr topic_arn) "sqs" (JStr queue_arn) true])).
Proof.
  intros Hbody Htype Harn Htopic Hqarn Hqueue Htopic_ne Hqueue_ne Hqarn_ne
    Hresolve Hurl Hattributes Hattribute Hsubscribe.
  destruct (resolve_topic_sound _ _ _ _ Hresolve) as [Hfound [= Hshort]].
  split; [congruence|].
  pose proof (is_str_truthy _ "sqs" ltac:(discriminate) Htype) as Htruthy.
  unfold create_subscription, get_json_body. open_monad.
  rewrite (object_body_json _ _ Hbody). simpl.
  fold (member members "topic_arn") (member members "type")
       (member members "topic_name") (member members "queue_arn")
       (member members "queue_name").
  rewrite Htruthy, Htype, Harn, Htopic, (str_truthy _ Htopic_ne). simpl.
  apply String.eqb_neq in Hfound, Hqarn_ne.
  rewrite Hresolve. simpl. rewrite Hfound. simpl.
  rewrite Hqarn, Hqueue, (str_truthy _ Hqueue_ne). simpl.
  rewrite Hurl. simpl. rewrite Hattributes. simpl. rewrite Hattribute.
  simpl. rewrite Hqarn_ne. simpl. rewrite Hsubscribe. simpl.
  rewrite <- !List.app_assoc. reflexivity.
Qed.

Lemma subscription_by_names_witness :
  object_body
    (mkRequest [] (Some (JObj [("type", JStr "sqs");
                               ("topic_name", JStr "orders");
                               ("queue_name", JStr "q1")])))
    [("type", JStr "sqs"); ("topic_name", JStr "orders");
     ("queue_name", JStr "q1")]
  ∧ create_subscription
      (mkRequest [] (Some (JObj [("type", JStr "sqs");
                                 ("topic_name", JStr "orders");
                                 ("queue_name", JStr "q1")])))
      (fresh (mkEmulator ["q1"] ["orders"]))
    = (jsonify [("subscription_arn", JStr (topic_arn_of "orders" ++ ":s-1"));
                ("topic_arn", JStr (topic_arn_of "orders"));
                ("protocol", JStr "sqs");
                ("endpoint", JStr "arn:aws:sqs:us-east-1:000000000000:q1")] 201,
       mkWorld (mkEmulator ["q1"] ["orders"])
         [SnsListTopics 0;
          SqsGetQueueUrl (JStr "q1");
          SqsGetQueueAttributes (queue_url_of "q1");
          SnsSubscribe (JStr (topic_arn_of "orders")) "sqs"
            (JStr "arn:aws:sqs:us-east-1:000000000000:q1") true]).
Proof.
  split; [reflexivity|].
  refine (proj2 (subscription_by_names
                   (mkRequest [] (Some (JObj [("type", JStr "sqs");
                                              ("topic_name", JStr "orders");
                                              ("queue_name", JStr "q1")])))
                   (fresh (mkEmulator ["q1"] ["orders"]))
                   (mkWorld (mkEmulator ["q1"] ["orders"]) [SnsListTopics 0])
                   [("type", JStr "sqs"); ("topic_name", JStr "orders");
                    ("queue_name", JStr "q1")]
                   "orders" "q1" (topic_arn_of "orders") (queue_url_of "q1")
                   "arn:aws:sqs:us-east-1:000000000000:q1"
                   [("QueueArn", "arn:aws:sqs:us-east-1:000000000000:q1")]
                   (mkEmulator ["q1"] ["orders"]) (mkEmulator ["q1"] ["orders"])
                   (mkEmulator ["q1"] ["orders"])
                   (Some (topic_arn_of "orders" ++ ":s-1"))
                   _ _ _ _ _ _ _ _ _ _ _ _ _ _));
    solve [reflexivity | discriminate].
Defined.

(* ===================================================================== *)
(** * Reading one item: the answer and the key *)
(* ===================================================================== *)

(** X16: get-one-item answers 200 exactly when the backend's [get_item]
    returned an item that is not empty and that [jsonify] can write, and
    the payload is then the item as [jsonify] writes it: keys in sorted
    order, a [Decimal] number as a string.  It answers 404 "Item not
    found." exactly when the call returned no item or an empty one.  An
    item that holds a value [jsonify] cannot write (a set, a [Binary]) is
    answered 500 with the text of the [TypeError]. *)
Theorem get_item_answers_with_the_item
    {B : Type} `{!Backend B} (req : Request) (w : World B)
    (table pk pv : string) :
  has_arg req "table_name" table →
  has_arg req "partition_key_name" pk →
  has_arg req "partition_key_value" pv →
  let key := item_key pk pv (assoc_get (args req) "sort_key_name")
                            (assoc_get (args req) "sort_key_value") in
  let answer := fst (get_item req w) in
  (status answer = 200
   ↔ ∃ item b rendered,
       invoke (DdbGetItem table key) (state w) = (Return (Some item), b)
       ∧ item ≠ []
       ∧ render (PDict item) = Return rendered
       ∧ payload answer = rendered)
  ∧ (status answer = 404
     ↔ ∃ found b,
         invoke (DdbGetItem table key) (state w) = (Return found, b)
         ∧ (found = None ∨ found = Some [])
         ∧ error_of answer = Some "Item not found.")
  ∧ (∀ item b e,
       invoke (DdbGetItem table key) (state w) = (Return (Some item), b) →
       item ≠ [] →
       render (PDict item) = Raise e →
       answer = error_response e ∧ status answer = 500).
Proof.
  intros Ht Hk Hv key answer. subst key answer. unfold get_item.
  rewrite require_query_params_pass
    by (eapply missing_params_item; eassumption).
  rewrite (has_arg_value _ _ _ Ht), (has_arg_value _ _ _ Hk),
          (has_arg_value _ _ _ Hv).
  unfold get_item_view. open_monad.
  destruct (invoke _ (state w)) as [[[[|member item]|]|[message text|text]] b];
    simpl.
  - split; [|split]; [split; [discriminate|] | split; [|reflexivity] |].
    + intros (i & b' & r & [= <- _] & Hne & _). congruence.
    + intros _. exists (Some []), b. split_and!; eauto.
    + intros i b' err [= <- _] Hne. congruence.
  - destruct (render (PDict (member :: item)))
      as [rendered|[message text|text]] eqn:Hrender; simpl.
    + split; [|split]; [split; [|reflexivity] | split; [discriminate|] |].
      * intros _. exists (member :: item), b, rendered.
        split_and!; try reflexivity; [discriminate | assumption].
      * intros (found & b' & [= <- _] & [[= ]|[= ]] & _).
      * intros i b' err [= <- _] _. congruence.
    + split; [|split]; [split; [discriminate|] | split; [discriminate|] |].
      * intros (i & b' & r & [= <- _] & _ & Hr & _). congruence.
      * intros (found & b' & [= <- _] & [[= ]|[= ]] & _).
      * intros i b' err [= <- _] _ Hr. rewrite Hrender in Hr.
        injection Hr as <-. split; reflexivity.
    + split; [|split]; [split; [discriminate|] | split; [discriminate|] |].
      * intros (i & b' & r & [= <- _] & _ & Hr & _). congruence.
      * intros (found & b' & [= <- _] & [[= ]|[= ]] & _).
      * intros i b' err [= <- _] _ Hr. rewrite Hrender in Hr.
        injection Hr as <-. split; reflexivity.
  - split; [|split]; [split; [discriminate|] | split; [|reflexivity] |].
    + intros (i & b' & r & [= ] & _).
    + intros _. exists None, b. split_and!; eauto.
    + intros i b' err [= ].
  - split; [|split]; [split; [discriminate|] | split; [discriminate|] |].
    + intros (i & b' & r & [= ] & _).
    + intros (found & b' & [= ] & _).
    + intros i b' err [= ].
  - split; [|split]; [split; [discriminate|] | split; [discriminate|] |].
    + intros (i & b' & r & [= ] & _).
    + intros (found & b' & [= ] & _).
    + intros i b' err [= ].
Qed.

(** A user with a number and, in a second table, one with a set of tags:
    the number comes out as a string, the set is a 500. *)
Lemma get_item_answers_with_the_item_witness :
  has_arg (mkRequest [("table_name", "Users"); ("partition_key_name", "id");
                      ("partition_key_value", "42")] None)
          "table_name" "Users"
  ∧ status (fst (get_item
                   (Backend0 := stocked (Some [("id", PStr "42");
                                               ("age", PDecimal "30")]) [])
                   (mkRequest [("table_name", "Users");
                               ("partition_key_name", "id");
                               ("partition_key_value", "42")] None)
                   (fresh (mkEmulator [] []))))
    = 200
  ∧ fst (get_item
           (Backend0 := stocked (Some [("id", PStr "42");
                                       ("tags", PObject "set")]) [])
           (mkRequest [("table_name", "Users");
                       ("partition_key_name", "id");
                       ("partition_key_value", "42")] None)
           (fresh (mkEmulator [] [])))
    = jsonify [("error", JStr "Object of type set is not JSON serializable")]
              500.
Proof.
  split; [split; [reflexivity | discriminate]|]. split.
  - apply (proj1 (get_item_answers_with_the_item
                    (Backend0 := stocked (Some [("id", PStr "42");
                                                ("age", PDecimal "30")]) [])
                    (mkRequest [("table_name", "Users");
                                ("partition_key_name", "id");
                                ("partition_key_value", "42")] None)
                    (fresh (mkEmulator [] [])) "Users" "id" "42"
                    ltac:(split; [reflexivity | discriminate])
                    ltac:(split; [reflexivity | discriminate])
                    ltac:(split; [reflexivity | discriminate]))).
    exists [("id", PStr "42"); ("age", PDecimal "30")], (mkEmulator [] []),
           (JObj [("age", JStr "30"); ("id", JStr "42")]).
    split_and!; [reflexivity | discriminate | reflexivity | reflexivity].
  - refine (proj1 (proj2 (proj2 (get_item_answers_with_the_item
                    (Backend0 := stocked (Some [("id", PStr "42");
                                                ("tags", PObject "set")]) [])
                    (mkRequest [("table_name", "Users");
                                ("partition_key_name", "id");
                                ("partition_key_value", "42")] None)
                    (fresh (mkEmulator [] [])) "Users" "id" "42"
                    ltac:(split; [reflexivity | discriminate])
                    ltac:(split; [reflexivity | discriminate])
                    ltac:(split; [reflexivity | discriminate])))
                  [("id", PStr "42"); ("tags", PObject "set")]
                  (mkEmulator [] [])
                  (PyException "Object of type set is not JSON serializable")
                  _ _ _)); [reflexivity | discriminate | reflexivity].
Defined.

(** The same two requests, run: 200 with the number as a string, and the
    404 of a table without the item. *)
Example get_item_runs :
  get_item (Backend0 := stocked (Some [("id", PStr "42");
                                       ("age", PDecimal "30")]) [])
    (mkRequest [("table_name", "Users"); ("partition_key_name", "id");
                ("partition_key_value", "42")] None)
    (fresh (mkEmulator [] []))
  = (mkResponse (JObj [("age", JStr "30"); ("id", JStr "42")]) 200,
     mkWorld (mkEmulator [] []) [DdbGetItem "Users" {[ "id" := "42" ]}])
  ∧ fst (get_item
           (mkRequest [("table_name", "Users"); ("partition_key_name", "id");
                       ("partition_key_value", "42")] None)
           (fresh (mkEmulator [] [])))
    = jsonify [("error", JStr "Item not found.")] 404.
Proof. split; reflexivity. Qed.

(** X17: when the sort key is given under the name of the partition key,
    the lookup key holds that one name with the sort value: the partition
    value of the request is overwritten, silently. *)
Theorem get_item_sort_key_overwrites
    {B : Type} `{!Backend B} (req : Request) (w : World B)
    (table pk pv sv : string) :
  has_arg req "table_name" table →
  has_arg req "partition_key_name" pk →
  has_arg req "partition_key_value" pv →
  has_arg req "sort_key_name" pk →
  has_arg req "sort_key_value" sv →
  trace (snd (get_item req w))
  = (trace w ++ [DdbGetItem table {[ pk := sv ]}])%list.
Proof.
  intros Ht Hk Hv Hsn Hsv. unfold get_item.
  rewrite require_query_params_pass
    by (eapply missing_params_item; eassumption).
  rewrite (has_arg_value _ _ _ Ht), (has_arg_value _ _ _ Hk),
          (has_arg_value _ _ _ Hv).
  rewrite (proj1 (get_item_view_run table pk pv req w)).
  unfold item_key.
  rewrite (has_arg_truthy _ _ _ Hsn), (has_arg_truthy _ _ _ Hsv),
          (has_arg_value _ _ _ Hsn), (has_arg_value _ _ _ Hsv).
  simpl. rewrite insert_singleton_eq. reflexivity.
Qed.

Lemma get_item_sort_key_overwrites_witness :
  has_arg (mkRequest [("table_name", "Users"); ("partition_key_name", "id");
                      ("partition_key_value", "42"); ("sort_key_name", "id");
                      ("sort_key_value", "7")] None)
          "sort_key_name" "id"
  ∧ trace (snd (get_item
                  (mkRequest [("table_name", "Users");
                              ("partition_key_name", "id");
                              ("partition_key_value", "42");
                              ("sort_key_name", "id");
                              ("sort_key_value", "7")] None)
                  (fresh (mkEmulator [] []))))
    = [DdbGetItem "Users" {[ "id" := "7" ]}].
Proof.
  split; [split; [reflexivity | discriminate]|].
  refine (get_item_sort_key_overwrites
            (mkRequest [("table_name", "Users"); ("partition_key_name", "id");
                        ("partition_key_value", "42"); ("sort_key_name", "id");
                        ("sort_key_value", "7")] None)
            (fresh (mkEmulator [] [])) "Users" "id" "42" "7" _ _ _ _ _);
    (split; [reflexivity | discriminate]).
Defined.

(* ===================================================================== *)
(** * Queue operations act on the URL that was looked up *)
(* ===================================================================== *)

Section QueueCalls.

Context {B : Type} `{!Backend B}.

Lemma snd_try_view (m : M Response) (w : World B) :
  snd (try_view m w) = snd (m w).
Proof.
  unfold try_view. destruct (m w) as [[r|[message text|text]] w']; reflexivity.
Qed.

Lemma bind_lift_return {A : Type} (a : A) (k : A → M Response) (w : World B) :
  bind (lift (Return a)) k w = k a w.
Proof. reflexivity. Qed.

Lemma bind_lift_raise {A : Type} (e : exn) (k : A → M Response) (w : World B) :
  snd (bind (lift (Raise e)) k w) = w.
Proof. reflexivity. Qed.

(** One call, then an answer. *)
Lemma snd_call_then c (k : Reply c → M Response) (w : World B) :
  (∀ a w1, snd (k a w1) = w1) →
  trace (snd (bind (call c) k w)) = (trace w ++ [c])%list.
Proof.
  intros Hk. unfold bind, call.
  destruct (invoke c (state w)) as [[a|e] b]; [rewrite Hk|]; reflexivity.
Qed.

(** The lookup, then a continuation that issues at most one call, on the
    URL it is given. *)
Lemma queue_lookup_then name (k : string → M Response) (w : World B) :
  (∀ url w1,
     snd (k url w1) = w1
     ∨ ∃ c, call_queue_url c = Some url
            ∧ trace (snd (k url w1)) = (trace w1 ++ [c])%list) →
  queue_discipline name w
    (snd (bind (get_queue_url_by_name (JStr name)) k w)).
Proof.
  intros Hk. unfold get_queue_url_by_name, bind at 1 2, call.
  destruct (invoke (SqsGetQueueUrl (JStr name)) (state w))
    as [[[url|]|e] b] eqn:Hlookup; simpl; try (left; reflexivity).
  destruct (Hk url (mkWorld b (trace w ++ [SqsGetQueueUrl (JStr name)])))
    as [->|(c & Hc & Htrace)]; [left; reflexivity|].
  right. exists url, b, c. split_and!; [exact Hlookup | exact Hc|].
  rewrite Htrace. simpl. rewrite <- List.app_assoc. reflexivity.
Qed.

Variable py_int : string → option Z.

Lemma send_message_view_calls name req (w : World B) :
  snd (send_message_view py_int name req w) = w
  ∨ queue_discipline name w (snd (send_message_view py_int name req w)).
Proof.
  unfold send_message_view. rewrite snd_try_view. cbv zeta.
  destruct (is_none (get_json_silent req)); [left; reflexivity|].
  destruct (py_get (get_json_silent req) "message") as [message|];
    [rewrite bind_lift_return | left; apply bind_lift_raise].
  destruct (negb (truthy message)); [left; reflexivity|].
  destruct (py_get (get_json_silent req) "delay_seconds") as [delay_seconds|];
    [rewrite bind_lift_return | left; apply bind_lift_raise].
  destruct (py_get (get_json_silent req) "attributes") as [attributes|];
    [rewrite bind_lift_return | left; apply bind_lift_raise].
  right. apply queue_lookup_then. intros url w1.
  destruct (is_none delay_seconds).
  - right. eexists. split; [|apply snd_call_then; reflexivity]. reflexivity.
  - destruct (int_of py_int delay_seconds) as [d|]; [|left; reflexivity].
    right. eexists. split; [|apply snd_call_then; reflexivity]. reflexivity.
Qed.

Lemma receive_messages_view_calls name req (w : World B) :
  snd (receive_messages_view py_int name req w) = w
  ∨ queue_discipline name w (snd (receive_messages_view py_int name req w)).
Proof.
  unfold receive_messages_view. rewrite snd_try_view. cbv zeta.
  destruct (int_of_str py_int _) as [m|];
    [rewrite bind_lift_return | left; apply bind_lift_raise].
  destruct (int_of_str py_int _) as [t|];
    [rewrite bind_lift_return | left; apply bind_lift_raise].
  right. apply queue_lookup_then. intros url w1.
  right. eexists. split; [|apply snd_call_then]; [reflexivity|].
  intros a w2. unfold bind, lift. destruct (render _); reflexivity.
Qed.

Lemma delete_message_view_calls name req (w : World B) :
  snd (delete_message_view name req w) = w
  ∨ queue_discipline name w (snd (delete_message_view name req w)).
Proof.
  unfold delete_message_view. rewrite snd_try_view. cbv zeta.
  destruct (negb (arg_truthy _)); [left; reflexivity|].
  right. apply queue_lookup_then. intros url w1.
  right. eexists. split; [|apply snd_call_then; reflexivity]. reflexivity.
Qed.

Lemma purge_queue_view_calls name req (w : World B) :
  queue_discipline name w (snd (purge_queue_view name req w)).
Proof.
  unfold purge_queue_view. rewrite snd_try_view.
  apply queue_lookup_then. intros url w1.
  right. eexists. split; [|apply snd_call_then; reflexivity]. reflexivity.
Qed.

(** Behind the decorator of one name, the view runs on a value that is
    there, or not at all. *)
Lemma decorated_one n func req (w : World B) :
  snd (require_query_params [n] func req w) = w
  ∨ ∃ v, has_arg req n v
         ∧ require_query_params [n] func req w
           = func (λ k, default "" (assoc_get (args req) k)) req w
         ∧ default "" (assoc_get (args req) n) = v.
Proof.
  unfold require_query_params, missing_params. simpl.
  destruct (assoc_get (args req) n) as [v|] eqn:Hv; simpl; [|left; reflexivity].
  destruct (String.eqb_spec v "") as [->|Hne]; simpl; [left; reflexivity|].
  right. exists v. split_and!; [split; assumption | reflexivity..].
Qed.

End QueueCalls.

(** X18: send, receive, delete-one and purge either call nothing (the
    request was refused) or first look the queue up under exactly the
    [queue_name] of the request, and then issue at most one more call, whose
    [QueueUrl] is the one that lookup returned: no URL is made up. *)
Theorem queue_calls_use_the_resolved_url
    {B : Type} `{!Backend B} (py_int : string → option Z)
    (e : Endpoint) (req : Request) (w : World B) :
  In e [PostSqsSend; GetSqsMessages; DeleteSqsMessages; DeleteSqsMessagesAll] →
  snd (view_of py_int e req w) = w
  ∨ ∃ name,
      has_arg req "queue_name" name
      ∧ queue_discipline name w (snd (view_of py_int e req w)).
Proof.
  intros He. simpl in He.
  destruct He as [<-|[<-|[<-|[<-|[]]]]]; simpl;
    unfold send_message, receive_messages, delete_message, purge_queue;
    match goal with
    | |- context [require_query_params _ ?f req w] =>
        destruct (decorated_one "queue_name" f req w)
          as [Hsame|(name & Hname & -> & Hvalue)];
          [left; exact Hsame | rewrite Hvalue]
    end.
  - destruct (send_message_view_calls py_int name req w); eauto.
  - destruct (receive_messages_view_calls py_int name req w); eauto.
  - destruct (delete_message_view_calls name req w); eauto.
  - right. exists name. split; [exact Hname | apply purge_queue_view_calls].
Qed.

(** A delete on the emulator: the lookup of [q1], then [delete_message] on
    the URL of [q1]. *)
Lemma queue_calls_use_the_resolved_url_witness :
  In DeleteSqsMessages
     [PostSqsSend; GetSqsMessages; DeleteSqsMessages; DeleteSqsMessagesAll]
  ∧ (snd (delete_message
            (mkRequest [("queue_name", "q1"); ("receipt_handle", "h")] None)
            (fresh (mkEmulator ["q1"] [])))
     = fresh (mkEmulator ["q1"] [])
     ∨ ∃ name,
         has_arg (mkRequest [("queue_name", "q1"); ("receipt_handle", "h")] None)
                 "queue_name" name
         ∧ queue_discipline name (fresh (mkEmulator ["q1"] []))
             (snd (delete_message
                     (mkRequest [("queue_name", "q1"); ("receipt_handle", "h")]
                                None)
                     (fresh (mkEmulator ["q1"] []))))).
Proof.
  split; [simpl; auto|].
  apply (queue_calls_use_the_resolved_url decimal_int DeleteSqsMessages
           (mkRequest [("queue_name", "q1"); ("receipt_handle", "h")] None)
           (fresh (mkEmulator ["q1"] []))).
  simpl; auto.
Defined.

(* ===================================================================== *)
(** * Subscriptions: the type and the function target *)
(* ===================================================================== *)

(** X19: a subscription whose [type] is not exactly the string [sqs] or
    [lambda] (absent, null, another case, another JSON type) is answered 400
    "type must be 'sqs' or 'lambda'" before any call, whatever else the body
    holds. *)
Theorem subscription_type_is_checked_first
    {B : Type} `{!Backend B} (req : Request) (w : World B)
    (members : list (string * json)) :
  object_body req members →
  is_str (member members "type") "sqs"
  || is_str (member members "type") "lambda" = false →
  create_subscription req w
  = (jsonify [("error", JStr "type must be 'sqs' or 'lambda'")] 400, w).
Proof.
  intros Hbody Htype. unfold create_subscription, get_json_body. open_monad.
  rewrite (object_body_json _ _ Hbody). simpl.
  fold (member members "type"). rewrite Htype.
  rewrite orb_true_r. reflexivity.
Qed.

Lemma subscription_type_is_checked_first_witness :
  create_subscription
    (mkRequest [] (Some (JObj [("type", JStr "SQS");
                               ("topic_name", JStr "orders");
                               ("queue_name", JStr "q1")])))
    (fresh (mkEmulator ["q1"] ["orders"]))
  = (jsonify [("error", JStr "type must be 'sqs' or 'lambda'")] 400,
     fresh (mkEmulator ["q1"] ["orders"])).
Proof.
  exact (subscription_type_is_checked_first
           (mkRequest [] (Some (JObj [("type", JStr "SQS");
                                      ("topic_name", JStr "orders");
                                      ("queue_name", JStr "q1")])))
           (fresh (mkEmulator ["q1"] ["orders"]))
           [("type", JStr "SQS"); ("topic_name", JStr "orders");
            ("queue_name", JStr "q1")] eq_refl eq_refl).
Defined.

(** X20: a [lambda] subscription on a given topic address needs
    [lambda_arn]: without it the answer is 400 and nothing is called; with
    it the one call is [subscribe] with protocol [lambda], the function
    address as endpoint and no raw delivery, and the queue fields of the body
    play no part. *)
Theorem lambda_subscription
    {B : Type} `{!Backend B} (req : Request) (w : World B)
    (members : list (string * json)) :
  object_body req members →
  is_str (member members "type") "lambda" = true →
  truthy (member members "topic_arn") = true →
  (truthy (member members "lambda_arn") = false →
   create_subscription req w
   = (jsonify [("error", JStr "lambda_arn is required for type 'lambda'")] 400,
      w))
  ∧ (truthy (member members "lambda_arn") = true →
     trace (snd (create_subscription req w))
     = (trace w
        ++ [SnsSubscribe (member members "topic_arn") "lambda"
              (member members "lambda_arn") false])%list
     ∧ ∀ subscription b,
         invoke (SnsSubscribe (member members "topic_arn") "lambda"
                   (member members "lambda_arn") false) (state w)
         = (Return subscription, b) →
         fst (create_subscription req w)
         = jsonify [("subscription_arn", json_of_opt subscription);
                    ("topic_arn", member members "topic_arn");
                    ("protocol", JStr "lambda");
                    ("endpoint", member members "lambda_arn")] 201).
Proof.
  intros Hbody Htype Harn.
  pose proof (is_str_truthy _ "lambda" ltac:(discriminate) Htype) as Htruthy.
  assert (is_str (member members "type") "sqs" = false) as Hsqs.
  { destruct (member members "type") as [| | |s| |]; try discriminate.
    simpl in *. apply String.eqb_eq in Htype as ->. reflexivity. }
  unfold create_subscription, get_json_body. open_monad.
  rewrite (object_body_json _ _ Hbody). simpl.
  fold (member members "topic_arn") (member members "type")
       (member members "topic_name") (member members "lambda_arn").
  rewrite Htruthy, Htype, Hsqs, Harn. simpl. rewrite Harn. simpl.
  split; intros Hlambda; rewrite Hlambda; simpl; [reflexivity|].
  split.
  - destruct (invoke _ (state w)) as [[s|[message text|text]] b]; reflexivity.
  - intros subscription b Hcall. rewrite Hcall. reflexivity.
Qed.

Lemma lambda_subscription_witness :
  object_body
    (mkRequest [] (Some (JObj [("type", JStr "lambda");
                               ("topic_arn", JStr "arn:aws:sns:us-east-1:1:t");
                               ("queue_name", JStr "q1")])))
    [("type", JStr "lambda"); ("topic_arn", JStr "arn:aws:sns:us-east-1:1:t");
     ("queue_name", JStr "q1")]
  ∧ create_subscription
      (mkRequest [] (Some (JObj [("type", JStr "lambda");
                                 ("topic_arn", JStr "arn:aws:sns:us-east-1:1:t");
                                 ("queue_name", JStr "q1")])))
      (fresh (mkEmulator ["q1"] []))
    = (jsonify [("error", JStr "lambda_arn is required for type 'lambda'")] 400,
       fresh (mkEmulator ["q1"] [])).
Proof.
  split; [reflexivity|].
  exact (proj1 (lambda_subscription
                  (mkRequest [] (Some (JObj
                     [("type", JStr "lambda");
                      ("topic_arn", JStr "arn:aws:sns:us-east-1:1:t");
                      ("queue_name", JStr "q1")])))
                  (fresh (mkEmulator ["q1"] []))
                  [("type", JStr "lambda");
                   ("topic_arn", JStr "arn:aws:sns:us-east-1:1:t");
                   ("queue_name", JStr "q1")]
                  eq_refl eq_refl eq_refl) eq_refl).
Defined.

(* ===================================================================== *)
(** * Listing queues *)
(* ===================================================================== *)

(** X21: list-queues filters by [prefix] only when it is given and not
    empty: a request with an empty [prefix] is served exactly as one without
    it, by one [list_queues] call without [QueueNamePrefix]; and the answer
    to a served call lists the URLs the backend returned (none when the
    reply has no [QueueUrls]). *)
Theorem list_queues_prefix
    {B : Type} `{!Backend B} (req : Request) (w : World B) :
  let prefix := assoc_get (args req) "prefix" in
  let filter := if arg_truthy prefix then prefix else None in
  (arg_truthy prefix = false →
   list_queues req w = list_queues (mkRequest [] (body req)) w)
  ∧ trace (snd (list_queues req w)) = (trace w ++ [SqsListQueues filter])%list
  ∧ filter ≠ Some ""
  ∧ ∀ urls b,
      invoke (SqsListQueues filter) (state w) = (Return urls, b) →
      fst (list_queues req w)
      = jsonify [("queue_urls", JArr (map JStr (default [] urls)))] 200.
Proof.
  intros prefix filter. subst prefix filter.
  unfold list_queues. open_monad. simpl. split_and!.
  - intros Hprefix. rewrite Hprefix. reflexivity.
  - destruct (invoke _ (state w)) as [[urls|[message text|text]] b];
      reflexivity.
  - destruct (assoc_get (args req) "prefix") as [p|]; simpl; [|discriminate].
    destruct (String.eqb_spec p ""); simpl; congruence.
  - intros urls b Hcall. rewrite Hcall. reflexivity.
Qed.

(** An empty [prefix] on the emulator. *)
Lemma list_queues_prefix_witness :
  arg_truthy (assoc_get (args (mkRequest [("prefix", "")] None)) "prefix")
  = false
  ∧ list_queues (mkRequest [("prefix", "")] None)
      (fresh (mkEmulator ["q1"] []))
    = list_queues (mkRequest [] None) (fresh (mkEmulator ["q1"] [])).
Proof.
  split; [reflexivity|].
  exact (proj1 (list_queues_prefix (mkRequest [("prefix", "")] None)
                  (fresh (mkEmulator ["q1"] []))) eq_refl).
Defined.

(* ===================================================================== *)
(** * A queue the backend does not know *)
(* ===================================================================== *)

Section MissingQueue.

Context {B : Type} `{!Backend B}.

(** Reading the listing leaves the backend as it was, and what it finds is
    not empty. *)
Lemma scan_pages_state pages :
  ∀ (index : nat) topic_name (w w' : World B) o,
    scan_pages pages index topic_name w = (o, w') → state w' = state w.
Proof.
  induction pages as [|next rest IH]; intros index topic_name w w' o.
  - intros [= _ <-]. reflexivity.
  - simpl. unfold bind, fetch_page.
    destruct next as [page|e]; [|intros [= _ <-]; reflexivity].
    destruct (scan_topics _ _) as [found|].
    + intros [= _ <-]. reflexivity.
    + intros Hrest. apply IH in Hrest. exact Hrest.
Qed.

Lemma resolve_topic_found topic_name (w w1 : World B) arn :
  resolve_topic_arn_by_name topic_name w = (Return (Some arn), w1) →
  state w1 = state w ∧ arn ≠ "".
Proof.
  unfold resolve_topic_arn_by_name. intros Hscan. split.
  - eapply scan_pages_state, Hscan.
  - eapply scan_pages_sound, Hscan.
Qed.

(** The lookup itself, and the resolution of a queue address on top. *)
Lemma get_queue_url_missing name message text b (w : World B) :
  invoke (SqsGetQueueUrl (JStr name)) (state w)
  = (Raise (ClientError message text), b) →
  get_queue_url_by_name (JStr name) w
  = (Raise (ClientError message text),
     mkWorld b (trace w ++ [SqsGetQueueUrl (JStr name)])).
Proof.
  intros Hinvoke. unfold get_queue_url_by_name, bind, call.
  rewrite Hinvoke. reflexivity.
Qed.

(** The statuses of the queue routes and of create-subscription. *)
Lemma queue_route_statuses py_int e req (w : World B) :
  In e [PostSqsSend; GetSqsMessages; GetSqsQueues; DeleteSqsMessages;
        DeleteSqsMessagesAll; PostSnsSubscriptions] →
  In (status (fst (view_of py_int e req w))) [200; 201; 400; 500].
Proof.
  intros He. simpl in He.
  destruct He as [<-|[<-|[<-|[<-|[<-|[<-|[]]]]]]]; simpl view_of;
    try (apply require_query_params_status; [in_list | intros kwargs]);
    (apply try_view_status; [in_list|]); status_rule.
Qed.

End MissingQueue.

(** C1, as amended: when the backend's [get_queue_url] reports that the
    queue does not exist (a [ClientError]), send, receive, delete-one, purge
    and the queue-ARN resolution of create-subscription (the topic given by
    address or by name) all answer HTTP 500 with the backend's message, the
    [Message] of the error reply or else the text of the exception, after
    that one call; and no queue route, nor create-subscription, answers
    404 to any request. *)
Theorem missing_queue_is_reported_as_500
    {B : Type} `{!Backend B} (py_int : string → option Z) (w : World B)
    (name : string) (message : option string) (text : string) (b : B) :
  name ≠ "" →
  invoke (SqsGetQueueUrl (JStr name)) (state w)
  = (Raise (ClientError message text), b) →
  let answer :=
    mkResponse (JObj [("error", JStr (default text message))]) 500 in
  let failed_after (w1 : World B) :=
    (answer, mkWorld b (trace w1 ++ [SqsGetQueueUrl (JStr name)])) in
  (∀ req members,
     has_arg req "queue_name" name → object_body req members →
     truthy (member members "message") = true →
     send_message py_int req w = failed_after w)
  ∧ (∀ req m t,
       has_arg req "queue_name" name →
       py_int (default "1" (assoc_get (args req) "max_number")) = Some m →
       py_int (default "0" (assoc_get (args req) "wait_time_seconds")) = Some t →
       receive_messages py_int req w = failed_after w)
  ∧ (∀ req handle,
       has_arg req "queue_name" name → has_arg req "receipt_handle" handle →
       delete_message req w = failed_after w)
  ∧ (∀ req, has_arg req "queue_name" name → purge_queue req w = failed_after w)
  ∧ resolve_queue_arn_by_name (JStr name) w
    = (Raise (ClientError message text),
       mkWorld b (trace w ++ [SqsGetQueueUrl (JStr name)]))
  ∧ (∀ req members,
       object_body req members →
       is_str (member members "type") "sqs" = true →
       truthy (member members "queue_arn") = false →
       member members "queue_name" = JStr name →
       (truthy (member members "topic_arn") = true →
        create_subscription req w = failed_after w)
       ∧ (∀ arn w1,
            truthy (member members "topic_arn") = false →
            truthy (member members "topic_name") = true →
            resolve_topic_arn_by_name (member members "topic_name") w
            = (Return (Some arn), w1) →
            create_subscription req w = failed_after w1))
  ∧ (∀ e req w0,
       In e [PostSqsSend; GetSqsMessages; GetSqsQueues; DeleteSqsMessages;
             DeleteSqsMessagesAll; PostSnsSubscriptions] →
       status (fst (view_of py_int e req w0)) ≠ 404).
Proof.
  intros Hname Hinvoke answer failed_after. subst answer failed_after.
  pose proof (get_queue_url_missing _ _ _ _ _ Hinvoke) as Hlookup.
  split_and!.
  - intros req members Hq Hbody Hmsg. unfold send_message.
    rewrite require_query_params_pass by (eapply missing_params_one, Hq).
    rewrite (has_arg_value _ _ _ Hq).
    unfold send_message_view. open_monad.
    rewrite (object_body_json _ _ Hbody). simpl. fold (member members "message").
    rewrite Hmsg. simpl. rewrite Hinvoke. reflexivity.
  - intros req m t Hq Hm Ht. unfold receive_messages.
    rewrite require_query_params_pass by (eapply missing_params_one, Hq).
    rewrite (has_arg_value _ _ _ Hq).
    unfold receive_messages_view. open_monad.
    rewrite Hm, Ht. simpl. rewrite Hinvoke. reflexivity.
  - intros req handle Hq Hh. unfold delete_message.
    rewrite require_query_params_pass by (eapply missing_params_one, Hq).
    rewrite (has_arg_value _ _ _ Hq).
    unfold delete_message_view. open_monad.
    rewrite (has_arg_truthy _ _ _ Hh). simpl. rewrite Hinvoke. reflexivity.
  - intros req Hq. unfold purge_queue.
    rewrite require_query_params_pass by (eapply missing_params_one, Hq).
    rewrite (has_arg_value _ _ _ Hq).
    unfold purge_queue_view. open_monad.
    simpl. rewrite Hinvoke. reflexivity.
  - unfold resolve_queue_arn_by_name, bind at 1. rewrite Hlookup. reflexivity.
  - intros req members Hbody Htype Hqarn Hqname.
    assert (truthy (member members "type") = true) as Htruthy.
    { destruct (member members "type") as [| | |s| |]; try discriminate.
      simpl in Htype. apply String.eqb_eq in Htype as ->. reflexivity. }
    split.
    + intros Harn.
      unfold create_subscription, get_json_body. open_monad.
      rewrite (object_body_json _ _ Hbody). simpl.
      fold (member members "type") (member members "topic_arn")
           (member members "topic_name") (member members "queue_arn")
           (member members "queue_name").
      rewrite Htruthy, Htype, Harn. simpl. rewrite Harn. simpl.
      rewrite Hqarn, Hqname, (str_truthy _ Hname). simpl.
      rewrite Hinvoke. reflexivity.
    + intros arn w1 Harn Htopic Hresolve.
      destruct (resolve_topic_found _ _ _ _ Hresolve) as [Hstate Hne].
      unfold create_subscription, get_json_body, try_view, bind, lift.
      rewrite (object_body_json _ _ Hbody). simpl.
      fold (member members "type") (member members "topic_arn")
           (member members "topic_name") (member members "queue_arn")
           (member members "queue_name").
      rewrite Htruthy, Htype, Harn, Htopic. simpl.
      rewrite Hresolve. unfold ret. simpl.
      apply String.eqb_neq in Hne. rewrite Hne. simpl.
      rewrite Hqarn, Hqname, (str_truthy _ Hname). simpl.
      unfold resolve_queue_arn_by_name, get_queue_url_by_name, bind, call.
      rewrite Hstate, Hinvoke. reflexivity.
  - intros e req w0 He H404.
    pose proof (queue_route_statuses py_int e req w0 He) as Hin.
    rewrite H404 in Hin. simpl in Hin.
    destruct Hin as [H|[H|[H|[H|[]]]]]; discriminate.
Qed.

(** The emulator has no queue [nope]: a well-formed send to it, and a
    subscription of it, by name, to a topic that exists by name. *)
Lemma missing_queue_is_reported_as_500_witness :
  "nope" ≠ ""
  ∧ invoke (SqsGetQueueUrl (JStr "nope")) (mkEmulator ["q1"] ["t1"])
    = (Raise no_such_queue, mkEmulator ["q1"] ["t1"])
  ∧ send_message decimal_int
      (mkRequest [("queue_name", "nope")] (Some (JObj [("message", JStr "hi")])))
      (fresh (mkEmulator ["q1"] ["t1"]))
    = (mkResponse
         (JObj [("error", JStr "The specified queue does not exist.")]) 500,
       mkWorld (mkEmulator ["q1"] ["t1"]) [SqsGetQueueUrl (JStr "nope")])
  ∧ create_subscription
      (mkRequest [] (Some (JObj [("type", JStr "sqs");
                                 ("topic_name", JStr "t1");
                                 ("queue_name", JStr "nope")])))
      (fresh (mkEmulator ["q1"] ["t1"]))
    = (mkResponse
         (JObj [("error", JStr "The specified queue does not exist.")]) 500,
       mkWorld (mkEmulator ["q1"] ["t1"])
         [SnsListTopics 0; SqsGetQueueUrl (JStr "nope")]).
Proof.
  split; [discriminate|]. split; [reflexivity|].
  destruct (missing_queue_is_reported_as_500 decimal_int
              (fresh (mkEmulator ["q1"] ["t1"])) "nope"
              (Some "The specified queue does not exist.")
              (exn_text no_such_queue) (mkEmulator ["q1"] ["t1"]))
    as (Hsend & _ & _ & _ & _ & Hsubscribe & _);
    [discriminate | reflexivity |].
  split.
  - apply (Hsend _ [("message", JStr "hi")]).
    + split; [reflexivity | discriminate].
    + reflexivity.
    + reflexivity.
  - apply (proj2 (Hsubscribe
                    (mkRequest [] (Some (JObj [("type", JStr "sqs");
                                               ("topic_name", JStr "t1");
                                               ("queue_name", JStr "nope")])))
                    [("type", JStr "sqs"); ("topic_name", JStr "t1");
                     ("queue_name", JStr "nope")]
                    eq_refl eq_refl eq_refl eq_refl)
             (topic_arn_of "t1")
             (mkWorld (mkEmulator ["q1"] ["t1"]) [SnsListTopics 0]));
      reflexivity.
Defined.

(** C1 as stated fails: the backend reports that queue [nope] does not
    exist, and the answer to a well-formed send is 500, not 404. *)
Lemma missing_queue_is_not_404 :
  fst (invoke (SqsGetQueueUrl (JStr "nope")) (mkEmulator ["q1"] []))
  = Raise no_such_queue
  ∧ status (fst (send_message decimal_int
                   (mkRequest [("queue_name", "nope")]
                              (Some (JObj [("message", JStr "hi")])))
                   (fresh (mkEmulator ["q1"] [])))) = 500
  ∧ status (fst (send_message decimal_int
                   (mkRequest [("queue_name", "nope")]
                              (Some (JObj [("message", JStr "hi")])))
                   (fresh (mkEmulator ["q1"] [])))) ≠ 404.
Proof. split_and!; [reflexivity | reflexivity | discriminate]. Qed.
